(** * vsdeband.filters: the guided filter

    A model of [guided_filter] from [src/vsdeband/filters.py].

    The Python function builds a VapourSynth filter chain.  Frames are
    independent of one another, so a clip is modelled by one frame: a list of
    planes with their frame properties.  Python values whose dynamic type
    matters ([int] against [list]) keep that distinction, and every Python
    exception is a value of [result].

    The collaborators the function imports (blur, resampling, plane
    statistics, bit-depth conversion) are fields of the [Collaborators]
    class; the sample arithmetic of the expression evaluator is the [Arith]
    class.  Both are instantiated further down, with real numbers and with
    IEEE binary32. *)

From Stdlib Require Import ZArith QArith Qround List String Bool Psatz.
From Stdlib Require Import Reals Qreals SpecFloat.
Import ListNotations.

(** ** Python values and exceptions *)

Module Py.

Inductive exn : Type :=
| TypeError
| IndexError
| KeyError
| AttributeError
| ZeroDivisionError
| ExprError           (* vs.Error raised when an expression is rejected *)
| RefClipMismatchError. (* raised by check_ref_clip *)

Inductive result (A : Type) : Type :=
| Ok (a : A)
| Raise (e : exn).

Arguments Ok {A} a.
Arguments Raise {A} e.

Definition bind {A B : Type} (m : result A) (k : A -> result B) : result B :=
  match m with
  | Ok a => k a
  | Raise e => Raise e
  end.

Fixpoint mapM {A B : Type} (f : A -> result B) (l : list A) : result (list B) :=
  match l with
  | [] => Ok []
  | a :: l' =>
      match f a with
      | Ok b => match mapM f l' with
                | Ok bs => Ok (b :: bs)
                | Raise e => Raise e
                end
      | Raise e => Raise e
      end
  end.

(** A value that Python code passes either as a scalar or as a list
    ([int | list[int]], [float | list[float]]). *)
Inductive seq_or (A : Type) : Type :=
| One (a : A)
| Many (l : list A).

Arguments One {A} a.
Arguments Many {A} l.

(** [vstools.to_arr]: a list stays a list, a scalar becomes a singleton. *)
Definition to_arr {A : Type} (v : seq_or A) : list A :=
  match v with
  | One a => [a]
  | Many l => l
  end.

(** [val[-1]] *)
Definition py_last {A : Type} (l : list A) : result A :=
  match rev l with
  | [] => Raise IndexError
  | a :: _ => Ok a
  end.

(** [vstools.normalize_seq(val, length)]:
    [val = to_arr(val); val += [val[-1]] * (length - len(val)); return val[:length]].
    The result is always a list. *)
Definition normalize_seq {A : Type} (val : seq_or A) (length : nat) : result (list A) :=
  let val := to_arr val in
  bind (py_last val) (fun last =>
  Ok (firstn length (val ++ repeat last (length - List.length val)))).

(** [a == b] on [int | list[int]]: values of different types are never equal. *)
Definition py_eq (a b : seq_or Z) : bool :=
  match a, b with
  | One m, One n => Z.eqb m n
  | Many l, Many l' => if list_eq_dec Z.eq_dec l l' then true else false
  | _, _ => false
  end.

(** [a / d] with [d] an int: defined on numbers only. *)
Definition py_truediv (a : seq_or Z) (d : Z) : result Q :=
  match a with
  | One n => if Z.eqb d 0 then Raise ZeroDivisionError
             else Ok (inject_Z n / inject_Z d)%Q
  | Many _ => Raise TypeError
  end.

(** [for val in a]: only a list can be iterated. *)
Definition py_iter {A : Type} (a : seq_or A) : result (list A) :=
  match a with
  | One _ => Raise TypeError
  | Many l => Ok l
  end.

(** [max(a, b)]: the first argument unless the second is greater. *)
Definition py_max (a b : Q) : Q :=
  match (a ?= b)%Q with
  | Lt => b
  | _ => a
  end.

(** [round(x)] to an int: round half to even. *)
Definition py_round (x : Q) : Z :=
  let f := Qfloor x in
  match ((x - inject_Z f) ?= (1 # 2))%Q with
  | Lt => f
  | Gt => (f + 1)%Z
  | Eq => if Z.even f then f else (f + 1)%Z
  end.

(** What [f] shows of a result, when there is one. *)
Definition observe {A B : Type} (r : result A) (f : A -> B) : option B :=
  match r with
  | Ok a => Some (f a)
  | Raise _ => None
  end.

End Py.

Import Py.

Notation "x <- m ;; k" := (bind m (fun x => k))
  (at level 61, m at next level, right associativity).

(** ** Default radius (filters.py, lines 45-51) *)

(** [(width - 1280) / 160 + 12] and [(height - 720) / 90 + 12], the larger of
    the two.  [width] and [height] are rationals because the chroma
    dimensions are the quotient [width / (1 << subsampling_w)]. *)
Definition rad_formula (width height : Q) : Q :=
  py_max ((width - 1280) / 160 + 12)%Q ((height - 720) / 90 + 12)%Q.

Definition default_radius (width height : Z) (subsampling_w subsampling_h : N)
  (num_planes : nat) : seq_or Z :=
  let width_c := (inject_Z width / inject_Z (Z.shiftl 1 (Z.of_N subsampling_w)))%Q in
  let height_c := (inject_Z height / inject_Z (Z.shiftl 1 (Z.of_N subsampling_h)))%Q in
  let rad := rad_formula (inject_Z width) (inject_Z height) in
  let radc := rad_formula width_c height_c in
  Many (firstn num_planes [py_round rad; py_round radc]).

(** ** Samples, planes and frames *)

(** The arithmetic of the working precision: what the expression evaluator
    and the Python float operations of the function compute with. *)
Class Arith (T : Type) : Type := {
  f_lit : Q -> T;              (* a numeric literal *)
  f_add : T -> T -> T;
  f_sub : T -> T -> T;
  f_mul : T -> T -> T;
  f_div : T -> T -> T;
  f_sqrt : T -> T;
  f_exp : T -> T
}.

Definition f_int {T : Type} `{Arith T} (n : Z) : T := f_lit (inject_Z n).

Record VideoFormat : Type := {
  num_planes : nat;
  subsampling_w : N;
  subsampling_h : N;
  bits_per_sample : Z
}.

Definition format_eqb (f g : VideoFormat) : bool :=
  Nat.eqb (num_planes f) (num_planes g)
  && N.eqb (subsampling_w f) (subsampling_w g)
  && N.eqb (subsampling_h f) (subsampling_h g)
  && Z.eqb (bits_per_sample f) (bits_per_sample g).

Inductive GuidedFilterMode : Type := ORIGINAL | WEIGHTED | GRADIENT.

Inductive ColorRange : Type := LIMITED | FULL.

Inductive Scaler : Type := Point | Bilinear | Bicubic | Lanczos.

Inductive prop_name : Type := PlaneStatsAverage | PlaneStatsMin.

Section Frames.

Context {T : Type}.

Record plane : Type := {
  pw : Z;            (* width of the plane *)
  ph : Z;            (* height of the plane *)
  px : list T        (* samples, row by row *)
}.

(** Frame properties written by [std.PlaneStats]. *)
Record props : Type := {
  stats_average : option T;
  stats_min : option T
}.

Definition no_props : props := {| stats_average := None; stats_min := None |}.

Definition get_prop (f : props) (p : prop_name) : option T :=
  match p with
  | PlaneStatsAverage => stats_average f
  | PlaneStatsMin => stats_min f
  end.

Record VideoNode : Type := {
  format : VideoFormat;
  data : list plane;
  frame_props : props
}.

Definition empty_plane : plane := {| pw := 0; ph := 0; px := [] |}.

Definition get_plane (clip : VideoNode) (i : nat) : plane :=
  nth i (data clip) empty_plane.

Definition width (clip : VideoNode) : Z := pw (get_plane clip 0).
Definition height (clip : VideoNode) : Z := ph (get_plane clip 0).

(** The geometry of a clip: its format and the dimensions of every plane. *)
Definition geometry (clip : VideoNode) : VideoFormat * list (Z * Z) :=
  (format clip, map (fun p => (pw p, ph p)) (data clip)).

(** [PlanesT]: [None], one index or a sequence of indices. *)
Definition PlanesT : Type := option (seq_or nat).

Definition mem (i : nat) (l : list nat) : bool := existsb (Nat.eqb i) l.

(** [vstools.normalize_planes]: the sorted plane indices of the clip that the
    parameter selects; every plane when it is [None]. *)
Definition normalize_planes (clip : VideoNode) (planes : PlanesT) : list nat :=
  match planes with
  | None => seq 0 (num_planes (format clip))
  | Some p => filter (fun i => mem i (to_arr p)) (seq 0 (num_planes (format clip)))
  end.

(** Apply [f] to the planes of [clip] listed in [planes]; the other planes
    are the planes of [clip]. *)
Definition on_planes (f : nat -> plane -> plane) (planes : list nat)
  (clip : VideoNode) : VideoNode :=
  {| format := format clip;
     data := map (fun ip => if mem (fst ip) planes then f (fst ip) (snd ip) else snd ip)
                 (combine (seq 0 (List.length (data clip))) (data clip));
     frame_props := frame_props clip |}.

End Frames.

Arguments plane T : clear implicits.
Arguments props T : clear implicits.
Arguments VideoNode T : clear implicits.

(** ** The expression evaluator ([std.Expr], [akarin.Expr]) *)

Section Expressions.

Context {T : Type} `{Arith T}.

(** The tokens of the reverse-Polish expressions of the source. *)
Inductive token : Type :=
| Clip (i : nat)                  (* x, y, z, a: a sample of the i-th clip *)
| Lit (q : Q)                     (* a literal written in the expression *)
| Val (c : T)                     (* a Python float formatted into it *)
| Fmt (key : string)              (* a placeholder {key} *)
| FrameProp (i : nat) (p : prop_name)  (* y.PlaneStatsAverage: akarin only *)
| Dup | Add | Sub | Mul | Div | Sqrt | Exp.

Definition binop (f : T -> T -> T) (st : list T) : result (list T) :=
  match st with
  | b :: a :: st' => Ok (f a b :: st')
  | _ => Raise ExprError
  end.

Definition unop (f : T -> T) (st : list T) : result (list T) :=
  match st with
  | a :: st' => Ok (f a :: st')
  | _ => Raise ExprError
  end.

Definition push (v : option T) (st : list T) : result (list T) :=
  match v with
  | Some c => Ok (c :: st)
  | None => Raise ExprError
  end.

(** One token: [env i] is the current sample of clip [i], [prp i p] the
    property [p] of its frame. *)
Definition step (akarin : bool) (env : nat -> option T)
  (prp : nat -> prop_name -> option T) (t : token) (st : list T) : result (list T) :=
  match t with
  | Clip i => push (env i) st
  | Lit q => Ok (f_lit q :: st)
  | Val c => Ok (c :: st)
  | Fmt _ => Raise ExprError
  | FrameProp i p => if akarin then push (prp i p) st else Raise ExprError
  | Dup => match st with
           | a :: st' => Ok (a :: a :: st')
           | [] => Raise ExprError
           end
  | Add => binop f_add st
  | Sub => binop f_sub st
  | Mul => binop f_mul st
  | Div => binop f_div st
  | Sqrt => unop f_sqrt st
  | Exp => unop f_exp st
  end.

(** The whole expression: exactly one value must remain on the stack. *)
Fixpoint rpn (akarin : bool) (env : nat -> option T)
  (prp : nat -> prop_name -> option T) (ts : list token) (st : list T) : result T :=
  match ts with
  | [] => match st with
          | [v] => Ok v
          | _ => Raise ExprError
          end
  | t :: ts' => st' <- step akarin env prp t st ;; rpn akarin env prp ts' st'
  end.

Definition sample_at (ps : list (plane T)) (j i : nat) : option T :=
  match nth_error ps i with
  | Some p => nth_error (px p) j
  | None => None
  end.

Definition prop_at (fps : list (props T)) (i : nat) (p : prop_name) : option T :=
  match nth_error fps i with
  | Some f => get_prop f p
  | None => None
  end.

(** One plane of the output: the expression at every sample position of the
    first clip's plane. *)
Definition expr_plane (akarin : bool) (ts : list token) (ps : list (plane T))
  (fps : list (props T)) : result (plane T) :=
  match ps with
  | [] => Raise ExprError
  | p0 :: _ =>
      samples <- mapM (fun j => rpn akarin (sample_at ps j) (prop_at fps) ts [])
                      (seq 0 (List.length (px p0))) ;;
      Ok {| pw := pw p0; ph := ph p0; px := samples |}
  end.

(** [clips[0].std.Expr(clips, exprs)]: a plane whose expression is empty
    ([None]) is the plane of the first clip; format and frame properties are
    those of the first clip. *)
Definition Expr (akarin : bool) (clips : list (VideoNode T))
  (exprs : list (option (list token))) : result (VideoNode T) :=
  match clips with
  | [] => Raise ExprError
  | c0 :: _ =>
      planes' <- mapM (fun i =>
                   match nth i exprs None with
                   | None => Ok (get_plane c0 i)
                   | Some ts => expr_plane akarin ts (map (fun c => get_plane c i) clips)
                                           (map (@frame_props T) clips)
                   end) (seq 0 (List.length (data c0))) ;;
      Ok {| format := format c0; data := planes'; frame_props := frame_props c0 |}
  end.

(** [str.format] with keyword arguments, on an expression. *)
Fixpoint lookup (key : string) (args : list (string * T)) : result T :=
  match args with
  | [] => Raise KeyError
  | (k, v) :: args' => if String.eqb k key then Ok v else lookup key args'
  end.

Definition format_expr (ts : list token) (args : list (string * T)) : result (list token) :=
  mapM (fun t => match t with
                 | Fmt key => v <- lookup key args ;; Ok (Val v)
                 | _ => Ok t
                 end) ts.

(** [vsexprtools.norm_expr_planes(clip, expr, planes, **kwargs)]: the
    expression of every plane, empty for the planes that are not processed;
    every keyword value is normalised to three planes and indexed by plane. *)
Definition norm_expr_planes (clip : VideoNode T) (expr : list token) (planes : list nat)
  (kwargs : list (string * seq_or T)) : result (list (option (list token))) :=
  string_args <- mapM (fun kv => vs <- normalize_seq (snd kv) 3 ;; Ok (fst kv, vs)) kwargs ;;
  let planes := normalize_planes clip (Some (Many planes)) in
  mapM (fun i =>
          if mem i planes then
            args <- mapM (fun kv => match nth_error (snd kv) i with
                                    | Some v => Ok (fst kv, v)
                                    | None => Raise IndexError
                                    end) string_args ;;
            e <- format_expr expr args ;;
            Ok (Some e)
          else Ok None)
       (seq 0 (num_planes (format clip))).

(** [vsexprtools.norm_expr(clips, expr, planes, **kwargs)], which evaluates
    with [akarin.Expr] when [aka_expr_available] and with [std.Expr]
    otherwise. *)
Definition norm_expr (aka_expr_available : bool) (clips : list (VideoNode T))
  (expr : list token) (planes : list nat) (kwargs : list (string * seq_or T))
  : result (VideoNode T) :=
  match clips with
  | [] => Raise IndexError
  | c0 :: _ =>
      exprs <- norm_expr_planes c0 expr planes kwargs ;;
      Expr aka_expr_available clips exprs
  end.

End Expressions.

Arguments token T : clear implicits.

(** ** Collaborators *)

(** What [guided_filter] imports and the model does not look into: the two
    blurs of [vsrgtools] on one plane, the reductions of [std.PlaneStats],
    the resampler of [vskernels], and [depth], [cround] and the colour-range
    lookup of [vstools]. *)
Class Collaborators (T : Type) : Type := {
  box_blur_plane : Z -> plane T -> plane T;
  gauss_blur_plane : T -> plane T -> plane T;
  plane_average : plane T -> T;
  plane_minimum : plane T -> T;
  scale : Scaler -> VideoNode T -> Z -> Z -> VideoNode T;
  depth : VideoNode T -> Z -> VideoNode T;
  cround : Q -> Z;
  (* [(ColorRange.from_param(range_in) or ColorRange.from_video(clip)).is_full] *)
  range_is_full : option ColorRange -> VideoNode T -> bool
}.

Section Filters.

Context {T : Type} `{Arith T} `{Collaborators T}.

(** [vsrgtools.box_blur(clip, radius, planes=planes)]: [radius] is one value
    for every plane or a value per plane; planes outside [planes] are kept. *)
Definition box_blur (radius : seq_or Z) (planes : list nat) (clip : VideoNode T)
  : result (VideoNode T) :=
  rs <- normalize_seq radius (num_planes (format clip)) ;;
  Ok (on_planes (fun i p => box_blur_plane (nth i rs 0%Z) p) planes clip).

(** [vsrgtools.gauss_blur(clip, sigma, planes=planes)]. *)
Definition gauss_blur (sigma : seq_or T) (planes : list nat) (clip : VideoNode T)
  : result (VideoNode T) :=
  ss <- normalize_seq sigma (num_planes (format clip)) ;;
  Ok (on_planes (fun i p => gauss_blur_plane (nth i ss (f_int 0)) p) planes clip).

(** [clip.std.PlaneStats(None, plane)]: the clip with the average and the
    minimum of ONE plane attached as frame properties. *)
Definition PlaneStats (clip : VideoNode T) (plane_idx : nat) : result (VideoNode T) :=
  match nth_error (data clip) plane_idx with
  | None => Raise ExprError
  | Some p =>
      Ok {| format := format clip;
            data := data clip;
            frame_props := {| stats_average := Some (plane_average p);
                              stats_min := Some (plane_minimum p) |} |}
  end.

(** [f.props.<name>] in a Python callback. *)
Definition frame_prop (f : props T) (p : prop_name) : result T :=
  match get_prop f p with
  | Some v => Ok v
  | None => Raise AttributeError
  end.

(** [clip.std.FrameEval(eval, prop_src)]: the frame is the one of the clip
    that [eval] returns for the properties of [prop_src]'s frame. *)
Definition FrameEval (clip : VideoNode T) (eval : props T -> result (VideoNode T))
  (prop_src : VideoNode T) : result (VideoNode T) :=
  eval (frame_props prop_src).

(** [vstools.expect_bits(clip, expected)]: the clip at [expected] bits and
    the depth it had. *)
Definition expect_bits (clip : VideoNode T) (expected : Z) : VideoNode T * Z :=
  let bits := bits_per_sample (format clip) in
  (if Z.eqb bits expected then clip else depth clip expected, bits).

(** [vstools.check_ref_clip(clip, ref)]: nothing to check without a
    reference; otherwise format and resolution must agree. *)
Definition check_ref_clip (clip : VideoNode T) (ref : option (VideoNode T)) : result unit :=
  match ref with
  | None => Ok tt
  | Some r =>
      if format_eqb (format clip) (format r)
         && Z.eqb (width clip) (width r) && Z.eqb (height clip) (height r)
      then Ok tt else Raise RefClipMismatchError
  end.

(** *** The expressions of the source, token by token *)

Definition x_ : token T := Clip 0.
Definition y_ : token T := Clip 1.
Definition z_ : token T := Clip 2.
Definition a_ : token T := Clip 3.

(* 'x dup *' *)
Definition expr_square : list (token T) := [x_; Dup; Mul].
(* 'x y *' *)
Definition expr_product : list (token T) := [x_; y_; Mul].
(* 'x y dup * -' *)
Definition expr_variance : list (token T) := [x_; y_; Dup; Mul; Sub].
(* 'x y z * -' *)
Definition expr_covariance : list (token T) := [x_; y_; z_; Mul; Sub].
(* 'x y {eps} + /' *)
Definition expr_a_original : list (token T) := [x_; y_; Fmt "eps"; Add; Div].
(* 'x y * sqrt' *)
Definition expr_weight_in : list (token T) := [x_; y_; Mul; Sqrt].
(* '1 x {eps} + /' *)
Definition expr_denominator : list (token T) := [Lit 1; x_; Fmt "eps"; Add; Div].
(* 'x 1e-06 + y.PlaneStatsAverage *' *)
Definition expr_weight_aka : list (token T) :=
  [x_; Lit (1 # 1000000); Add; FrameProp 1 PlaneStatsAverage; Mul].
(* f'x 1e-06 + {f.props.PlaneStatsAverage} *' *)
Definition expr_weight_eval (average : T) : list (token T) :=
  [x_; Lit (1 # 1000000); Add; Val average; Mul].
(* 'x y {eps} z / + /' *)
Definition expr_a_weighted : list (token T) := [x_; y_; Fmt "eps"; z_; Div; Add; Div].
(* 'x {eps} 1 1 1 -4 y.PlaneStatsMin y.PlaneStatsAverage 1e-6 - - / '
   'y y.PlaneStatsAverage - * exp + / - * z / + a {eps} z / + /' *)
Definition expr_a_gradient_aka : list (token T) :=
  [x_; Fmt "eps"; Lit 1; Lit 1; Lit 1; Lit (-4);
   FrameProp 1 PlaneStatsMin; FrameProp 1 PlaneStatsAverage; Lit (1 # 1000000);
   Sub; Sub; Div;
   y_; FrameProp 1 PlaneStatsAverage; Sub; Mul; Exp; Add; Div; Sub; Mul; z_; Div; Add;
   a_; Fmt "eps"; z_; Div; Add; Div].
(* 'x {eps} 1 1 1 {kk} y {alpha} - * exp + / - * z / + a {eps} z / + /' *)
Definition expr_a_gradient : list (token T) :=
  [x_; Fmt "eps"; Lit 1; Lit 1; Lit 1; Fmt "kk";
   y_; Fmt "alpha"; Sub; Mul; Exp; Add; Div; Sub; Mul; z_; Div; Add;
   a_; Fmt "eps"; z_; Div; Add; Div].
(* 'x y * z +' *)
Definition expr_output : list (token T) := [x_; y_; Mul; z_; Add].

(** *** guided_filter, lines 27-68: parameters and working clips *)

(** Lines 38-43: [regulation = [t / s for t, s in zip(thr, size)]]. *)
Definition default_regulation (clip : VideoNode T) (thr : T)
  (range_in : option ColorRange) : result (list T) :=
  thr <- normalize_seq (One thr) (num_planes (format clip)) ;;
  size <- normalize_seq (if range_is_full range_in clip
                         then Many [220; 225; 225]%Z else One 256%Z)
                        (num_planes (format clip)) ;;
  Ok (map (fun ts => f_div (fst ts) (f_int (snd ts))) (combine thr size)).

(** The local variables that the rest of the function reads. *)
Record setup : Type := {
  s_planes : list nat;
  s_width : Z;
  s_height : Z;
  s_bits : Z;
  s_guidance_clip : VideoNode T;
  s_p : VideoNode T;
  s_g : VideoNode T;
  s_r : seq_or Z;
  s_eps : list T
}.

Definition prepare (clip : VideoNode T) (guidance : option (VideoNode T))
  (radius : option Z) (thr : T) (regulation : option (list T)) (planes : PlanesT)
  (range_in : option ColorRange) (down_ratio : Z) (downscaler : Scaler)
  : result setup :=
  (* 29 *)
  let planes := normalize_planes clip planes in
  (* 36 *)
  let width := width clip in
  let height := height clip in
  (* 38-43 *)
  regulation <- match regulation with
                | None => default_regulation clip thr range_in
                | Some l => Ok l
                end ;;
  (* 45-51 *)
  let radius := match radius with
                | None => default_radius width height (subsampling_w (format clip))
                            (subsampling_h (format clip)) (num_planes (format clip))
                | Some n => One n
                end in
  (* 53 *)
  _ <- check_ref_clip clip guidance ;;
  (* 55-56 *)
  let (p, bits) := expect_bits clip 32 in
  let g := match guidance with
           | Some gd => depth gd 32
           | None => p
           end in
  let guidance_clip := g in
  (* 58-59 *)
  r <- normalize_seq radius (num_planes (format clip)) ;;
  let r := Many r in
  eps <- normalize_seq (Many regulation) (num_planes (format clip)) ;;
  (* 61-68 *)
  if Z.eqb down_ratio 0 then
    Ok {| s_planes := planes; s_width := width; s_height := height; s_bits := bits;
          s_guidance_clip := guidance_clip; s_p := p; s_g := g; s_r := r;
          s_eps := eps |}
  else
    let down_w := cround (inject_Z width / inject_Z down_ratio) in
    let down_h := cround (inject_Z height / inject_Z down_ratio) in
    let p := scale downscaler p down_w down_h in
    let g := match guidance with
             | Some _ => scale downscaler g down_w down_h
             | None => p
             end in
    q <- py_truediv r down_ratio ;;
    let r := One (cround q) in
    Ok {| s_planes := planes; s_width := width; s_height := height; s_bits := bits;
          s_guidance_clip := guidance_clip; s_p := p; s_g := g; s_r := r;
          s_eps := eps |}.

(** *** Lines 70-78: the two blurs *)

(** [partial(gauss_blur, sigma=[val / 2 * sqrt(2) for val in r], planes=planes)]
    or [partial(box_blur, radius=[val + 1 for val in r], planes=planes)]. *)
Definition blur_filter (use_gauss : bool) (r : seq_or Z) (planes : list nat)
  : result (VideoNode T -> result (VideoNode T)) :=
  if use_gauss then
    vals <- py_iter r ;;
    Ok (gauss_blur
          (Many (map (fun val => f_mul (f_div (f_int val) (f_int 2)) (f_sqrt (f_int 2))) vals))
          planes)
  else
    vals <- py_iter r ;;
    Ok (box_blur (Many (map (fun val => (val + 1)%Z) vals)) planes).

(** [partial(gauss_blur, sigma=1/2 * sqrt(2), planes=planes)] or
    [partial(box_blur, radius=2, planes=planes)]. *)
Definition blur_filter_corr (use_gauss : bool) (planes : list nat)
  : VideoNode T -> result (VideoNode T) :=
  if use_gauss then
    gauss_blur (One (f_mul (f_div (f_int 1) (f_int 2)) (f_sqrt (f_int 2)))) planes
  else box_blur (One 2%Z) planes.

(** *** Lines 80-88: local statistics *)

Record statistics : Type := {
  mean_p : VideoNode T;
  mean_I : VideoNode T;
  I_square : VideoNode T;
  corr_I : VideoNode T;
  corr_Ip : VideoNode T;
  var_I : VideoNode T;
  cov_Ip : VideoNode T
}.

Definition local_statistics (aka : bool) (blur : VideoNode T -> result (VideoNode T))
  (guidance : bool) (p g : VideoNode T) (planes : list nat) : result statistics :=
  (* 80-81 *)
  mean_p <- blur p ;;
  mean_I <- (if guidance then blur g else Ok mean_p) ;;
  (* 83-85 *)
  I_square <- norm_expr aka [g] expr_square planes [] ;;
  corr_I <- blur I_square ;;
  corr_Ip <- (if guidance
              then gp <- norm_expr aka [g; p] expr_product planes [] ;; blur gp
              else Ok corr_I) ;;
  (* 87-88 *)
  var_I <- norm_expr aka [corr_I; mean_I] expr_variance planes [] ;;
  cov_Ip <- (if guidance
             then norm_expr aka [corr_Ip; mean_I; mean_p] expr_covariance planes []
             else Ok var_I) ;;
  Ok {| mean_p := mean_p; mean_I := mean_I; I_square := I_square; corr_I := corr_I;
        corr_Ip := corr_Ip; var_I := var_I; cov_Ip := cov_Ip |}.

(** *** Lines 90-140: the slope [a] *)

(** Lines 93-98: [var_I_1]. *)
Definition corrective_variance (aka use_gauss : bool) (planes : list nat) (r : seq_or Z)
  (st : statistics) (g : VideoNode T) : result (VideoNode T) :=
  if py_eq r (One 1%Z) then Ok (var_I st)
  else
    mean_I_1 <- blur_filter_corr use_gauss planes g ;;
    corr_I_1 <- blur_filter_corr use_gauss planes (I_square st) ;;
    norm_expr aka [corr_I_1; mean_I_1] expr_variance planes [].

Record weighting : Type := {
  var_I_1 : VideoNode T;
  weight_in : VideoNode T;
  denominator : VideoNode T;     (* after PlaneStats, line 107 *)
  weight : VideoNode T
}.

(** Lines 93-116, for a mode other than ORIGINAL. *)
Definition weights (aka use_gauss : bool) (mode : GuidedFilterMode) (planes : list nat)
  (r : seq_or Z) (st : statistics) (g : VideoNode T) : result weighting :=
  var_I_1 <- corrective_variance aka use_gauss planes r st g ;;
  (* 100-103 *)
  weight_in <- match mode with
               | WEIGHTED => Ok var_I_1
               | _ => norm_expr aka [var_I st; var_I_1] expr_weight_in planes []
               end ;;
  (* 105-107 *)
  denominator <- norm_expr aka [weight_in] expr_denominator planes
                   [("eps"%string, One (f_lit (1 # 1000000)))] ;;
  denominator <- PlaneStats denominator 0 ;;
  (* 109-116 *)
  weight <- (if aka
             then norm_expr aka [weight_in; denominator] expr_weight_aka planes []
             else FrameEval denominator
                    (fun f =>
                       average <- frame_prop f PlaneStatsAverage ;;
                       exprs <- norm_expr_planes weight_in (expr_weight_eval average)
                                  planes [] ;;
                       Expr false [weight_in] exprs)
                    denominator) ;;
  Ok {| var_I_1 := var_I_1; weight_in := weight_in; denominator := denominator;
        weight := weight |}.

(** Lines 131-138: the callback [_gradient(n, f)]. *)
Definition _gradient (aka : bool) (planes : list nat) (eps : list T)
  (cov_Ip weight_in weight var_I : VideoNode T) (f : props T) : result (VideoNode T) :=
  frameMean <- frame_prop f PlaneStatsAverage ;;
  frameMin <- frame_prop f PlaneStatsMin ;;
  norm_expr aka [cov_Ip; weight_in; weight; var_I] expr_a_gradient planes
    [("eps"%string, Many eps);
     ("kk"%string,
      One (f_div (f_int (-4)) (f_sub (f_sub frameMin frameMean) (f_lit (1 # 1000000)))));
     ("alpha"%string, One frameMean)].

Definition slope (aka use_gauss : bool) (mode : GuidedFilterMode) (planes : list nat)
  (r : seq_or Z) (eps : list T) (st : statistics) (g : VideoNode T)
  : result (VideoNode T) :=
  match mode with
  | ORIGINAL =>
      (* 91 *)
      norm_expr aka [cov_Ip st; var_I st] expr_a_original planes
        [("eps"%string, Many eps)]
  | _ =>
      w <- weights aka use_gauss mode planes r st g ;;
      match mode with
      | WEIGHTED =>
          (* 119 *)
          norm_expr aka [cov_Ip st; var_I st; weight w] expr_a_weighted planes
            [("eps"%string, Many eps)]
      | _ =>
          (* 121 *)
          weight_in <- PlaneStats (weight_in w) 0 ;;
          (* 123-140 *)
          if aka
          then norm_expr aka [cov_Ip st; weight_in; weight w; var_I st]
                 expr_a_gradient_aka planes [("eps"%string, Many eps)]
          else FrameEval (weight w)
                 (_gradient aka planes eps (cov_Ip st) weight_in (weight w) (var_I st))
                 weight_in
      end
  end.

(** *** Lines 142-152: the output *)

(* 'x y z * -' *)
Definition expr_b : list (token T) := [x_; y_; z_; Mul; Sub].

(** The local variables at line 142. *)
Record solution : Type := {
  sol_setup : setup;
  sol_blur : VideoNode T -> result (VideoNode T);    (* blur_filter *)
  sol_stats : statistics;
  coef_a : VideoNode T;
  coef_b : VideoNode T
}.

Definition is_not_None {A : Type} (v : option A) : bool :=
  match v with
  | Some _ => true
  | None => false
  end.

(** Everything up to line 142. *)
Definition solve (aka : bool) (clip : VideoNode T) (guidance : option (VideoNode T))
  (radius : option Z) (thr : T) (regulation : option (list T)) (mode : GuidedFilterMode)
  (use_gauss : bool) (planes : PlanesT) (range_in : option ColorRange) (down_ratio : Z)
  (downscaler : Scaler) : result solution :=
  s <- prepare clip guidance radius thr regulation planes range_in down_ratio downscaler ;;
  blur <- blur_filter use_gauss (s_r s) (s_planes s) ;;
  st <- local_statistics aka blur (is_not_None guidance) (s_p s) (s_g s) (s_planes s) ;;
  a <- slope aka use_gauss mode (s_planes s) (s_r s) (s_eps s) st (s_g s) ;;
  b <- norm_expr aka [mean_p st; a; mean_I st] expr_b (s_planes s) [] ;;
  Ok {| sol_setup := s; sol_blur := blur; sol_stats := st; coef_a := a; coef_b := b |}.

(** The clip [q] of line 150, at working precision, with the depth to
    restore. *)
Definition guided_filter_q (aka : bool) (clip : VideoNode T) (guidance : option (VideoNode T))
  (radius : option Z) (thr : T) (regulation : option (list T)) (mode : GuidedFilterMode)
  (use_gauss : bool) (planes : PlanesT) (range_in : option ColorRange) (down_ratio : Z)
  (downscaler upscaler : Scaler) : result (VideoNode T * Z) :=
  c <- solve aka clip guidance radius thr regulation mode use_gauss planes range_in
         down_ratio downscaler ;;
  let s := sol_setup c in
  (* 144 *)
  mean_a <- sol_blur c (coef_a c) ;;
  mean_b <- sol_blur c (coef_b c) ;;
  (* 146-148 *)
  let mean_a := if Z.eqb down_ratio 0 then mean_a
                else scale upscaler mean_a (s_width s) (s_height s) in
  let mean_b := if Z.eqb down_ratio 0 then mean_b
                else scale upscaler mean_b (s_width s) (s_height s) in
  (* 150 *)
  q <- norm_expr aka [mean_a; s_guidance_clip s; mean_b] expr_output (s_planes s) [] ;;
  Ok (q, s_bits s).

(** [guided_filter]; [aka] is the module constant [aka_expr_available]. *)
Definition guided_filter (aka : bool) (clip : VideoNode T) (guidance : option (VideoNode T))
  (radius : option Z) (thr : T) (regulation : option (list T)) (mode : GuidedFilterMode)
  (use_gauss : bool) (planes : PlanesT) (range_in : option ColorRange) (down_ratio : Z)
  (downscaler upscaler : Scaler) : result (VideoNode T) :=
  qb <- guided_filter_q aka clip guidance radius thr regulation mode use_gauss planes
          range_in down_ratio downscaler upscaler ;;
  (* 152 *)
  Ok (depth (fst qb) (snd qb)).

(** *** Vocabulary for the properties *)

(** A plane is processed when it is selected and exists in the format. *)
Definition processed (clip : VideoNode T) (planes : list nat) (i : nat) : bool :=
  mem i planes && Nat.ltb i (num_planes (format clip)).

(** The keyword values that [norm_expr_planes] formats into the expression
    of plane [i]. *)
Definition plane_args (kwargs : list (string * seq_or T)) (i : nat)
  : result (list (string * T)) :=
  string_args <- mapM (fun kv => vs <- normalize_seq (snd kv) 3 ;; Ok (fst kv, vs)) kwargs ;;
  mapM (fun kv => match nth_error (snd kv) i with
                  | Some v => Ok (fst kv, v)
                  | None => Raise IndexError
                  end) string_args.

(** A blur keeps the format, the properties and the number of planes, and
    the planes that are not selected. *)
Definition keeps_frame (planes : list nat) (f : VideoNode T -> result (VideoNode T)) : Prop :=
  forall c c', f c = Ok c' ->
    format c' = format c /\ frame_props c' = frame_props c /\
    List.length (data c') = List.length (data c) /\
    forall i, mem i planes = false -> get_plane c' i = get_plane c i.

(** The constant [k] of the GRADIENT mode as the Python callback computes it
    (line 137), [-4 / (min - mean - 1e-6)], and as the expression of lines
    126-127 computes it, [-4 min mean 1e-6 - - /]. *)
Definition k_python (minimum average : T) : T :=
  f_div (f_int (-4)) (f_sub (f_sub minimum average) (f_lit (1 # 1000000))).

Definition k_akarin (minimum average : T) : T :=
  f_div (f_lit (-4)) (f_sub minimum (f_sub average (f_lit (1 # 1000000)))).

(** [1 / (1 + exp(k * (W - alpha)))] *)
Definition sharpening (k alpha W : T) : T :=
  f_div (f_lit 1) (f_add (f_lit 1) (f_exp (f_mul k (f_sub W alpha)))).

(** The slope of the GRADIENT mode at one sample:
    [(cov + eps * (1 - sharpening) / weight) / (var + eps / weight)]. *)
Definition gradient_a (k alpha eps cov W wt var : T) : T :=
  f_div (f_add cov (f_div (f_mul eps (f_sub (f_lit 1) (sharpening k alpha W))) wt))
        (f_add var (f_div eps wt)).

(** The format at another depth, and the dimensions of the planes. *)
Definition with_bits (f : VideoFormat) (bits : Z) : VideoFormat :=
  {| num_planes := num_planes f; subsampling_w := subsampling_w f;
     subsampling_h := subsampling_h f; bits_per_sample := bits |}.

Definition dimensions (clip : VideoNode T) : list (Z * Z) :=
  map (fun p => (pw p, ph p)) (data clip).

(** What the filter needs of its collaborators to keep the geometry:
    [depth] changes the depth only, and a blurred plane has the size of the
    plane. *)
Definition geometry_kept : Prop :=
  (forall c bits, format (depth c bits) = with_bits (format c) bits
                  /\ dimensions (depth c bits) = dimensions c)
  /\ (forall r p, pw (box_blur_plane r p) = pw p /\ ph (box_blur_plane r p) = ph p)
  /\ (forall sg p, pw (gauss_blur_plane sg p) = pw p /\ ph (gauss_blur_plane sg p) = ph p).

(** The sample at position [j] of plane [i]. *)
Definition sample (clip : VideoNode T) (i j : nat) : option T :=
  nth_error (px (get_plane clip i)) j.

End Filters.

Arguments setup T : clear implicits.
Arguments statistics T : clear implicits.
Arguments weighting T : clear implicits.
Arguments solution T : clear implicits.

(** * Reference collaborators and inputs *)

(** A blur that a model of the collaborators can use: the mean of the
    samples in the square window of half-width [r] around each position,
    positions outside the plane being clamped to its border; and the same
    with Gaussian weights on a window of half-width 2. *)

Section Blur.

Context {T : Type} `{Arith T}.

Definition clamp (lo hi v : Z) : Z := Z.max lo (Z.min hi v).

Definition pixel (p : plane T) (col row : Z) : T :=
  nth (Z.to_nat (clamp 0 (ph p - 1) row * pw p + clamp 0 (pw p - 1) col)) (px p) (f_int 0).

Definition offsets (r : Z) : list Z :=
  map (fun k => (Z.of_nat k - r)%Z) (seq 0 (Z.to_nat (2 * r + 1))).

Definition window (r : Z) : list (Z * Z) := list_prod (offsets r) (offsets r).

Definition total (l : list T) : T := fold_left f_add l (f_int 0).

(** The weighted mean of the window around sample [i]. *)
Definition window_mean (wt : Z * Z -> T) (r : Z) (p : plane T) (i : nat) : T :=
  let col := (Z.of_nat i mod pw p)%Z in
  let row := (Z.of_nat i / pw p)%Z in
  f_div (total (map (fun d => f_mul (wt d) (pixel p (col + fst d) (row + snd d))) (window r)))
        (total (map wt (window r))).

Definition box_mean_plane (r : Z) (p : plane T) : plane T :=
  if Z.leb r 0 then p
  else {| pw := pw p; ph := ph p;
          px := map (window_mean (fun _ => f_int 1) r p) (seq 0 (List.length (px p))) |}.

Definition gauss_weight (sigma : T) (d : Z * Z) : T :=
  f_exp (f_div (f_int (- (fst d * fst d + snd d * snd d)))
               (f_mul (f_int 2) (f_mul sigma sigma))).

Definition gauss_mean_plane (sigma : T) (p : plane T) : plane T :=
  {| pw := pw p; ph := ph p;
     px := map (window_mean (gauss_weight sigma) 2 p) (seq 0 (List.length (px p))) |}.

(** A plane and a one-plane clip whose samples all have the value [v]. *)
Definition uniform_plane (w h : Z) (v : T) : plane T :=
  {| pw := w; ph := h; px := repeat v (Z.to_nat (w * h)) |}.

Definition gray (bits : Z) : VideoFormat :=
  {| num_planes := 1; subsampling_w := 0; subsampling_h := 0; bits_per_sample := bits |}.

Definition uniform_gray (bits w h : Z) (v : T) : VideoNode T :=
  {| format := gray bits; data := [uniform_plane w h v]; frame_props := no_props |}.

(** What [box_mean_plane r] makes of the constant [v]. *)
Definition box_mean_constant (r : Z) (v : T) : T :=
  if Z.leb r 0 then v
  else f_div (total (map (fun _ => f_mul (f_int 1) v) (window r)))
             (total (map (fun _ => f_int 1) (window r))).

(** The self-guided ORIGINAL filter on one sample of a clip whose samples
    all have the value [c], when the blur turns a constant [v] into the
    constant [blur v]. *)
Definition flat_output (blur : T -> T) (c eps : T) : T :=
  let mean := blur c in
  let corr := blur (f_mul c c) in
  let var := f_sub corr (f_mul mean mean) in
  let a := f_div var (f_add var eps) in
  let b := f_sub mean (f_mul a mean) in
  f_add (f_mul (blur a) c) (blur b).

End Blur.

(** * Two models of the working precision *)

(** ** IEEE 754 binary32, the format of the 32-bit float clips *)

Module Binary32.

Definition prec : Z := 24.
Definition emax : Z := 128.

Definition float32 : Type := spec_float.

(** The rational value of a finite float. *)
Definition to_Q (v : float32) : option Q :=
  match v with
  | S754_zero _ => Some 0%Q
  | S754_finite s m e =>
      let mag := (inject_Z (Zpos m) * (2 ^ e))%Q in
      Some (if s then (- mag)%Q else mag)
  | _ => None
  end.

(** The float nearest to a rational (ties to even): the quotient is taken
    to more than 200 significant bits and one sticky bit before rounding. *)
Definition of_Q (q : Q) : float32 :=
  let n := Z.abs (Qnum q) in
  let d := Zpos (Qden q) in
  let k := (Z.log2 d + 200)%Z in
  let scaled := (n * 2 ^ k)%Z in
  let m := (scaled / d)%Z in
  let sticky := if Z.eqb (scaled mod d) 0 then 0%Z else 1%Z in
  let v := binary_normalize prec emax (2 * m + sticky) (- k - 1) false in
  if Z.ltb (Qnum q) 0 then SFopp v else v.

Definition of_Z (n : Z) : float32 := of_Q (inject_Z n).

(** [exp] in fixed point with 128 fractional bits: the argument is divided
    by 256, the series is summed to 40 terms, the sum is squared eight
    times, and the result is rounded once. *)
Definition fix_one : Z := 2 ^ 128.

Fixpoint exp_series (n : nat) (i : Z) (term y acc : Z) : Z :=
  match n with
  | O => acc
  | S n' =>
      let term' := (term * y / (fix_one * i))%Z in
      exp_series n' (i + 1)%Z term' y (acc + term')%Z
  end.

Fixpoint exp_square (n : nat) (v : Z) : Z :=
  match n with
  | O => v
  | S n' => exp_square n' (v * v / fix_one)%Z
  end.

(** [exp] of a non-negative rational, scaled by [fix_one]. *)
Definition exp_fix (q : Q) : Z :=
  let y := (Qnum q * fix_one / (Zpos (Qden q) * 256))%Z in
  exp_square 8 (exp_series 40 1 fix_one y fix_one).

Definition exp32 (v : float32) : float32 :=
  match v with
  | S754_nan => S754_nan
  | S754_infinity false => S754_infinity false
  | S754_infinity true => S754_zero false
  | S754_zero _ => of_Z 1
  | S754_finite s m e =>
      let mag := (inject_Z (Zpos m) * (2 ^ e))%Q in
      if Qle_bool 128 mag then (if s then S754_zero false else S754_infinity false)
      else
        let r := exp_fix mag in
        if s then of_Q (Qmake fix_one (Z.to_pos r))
        else of_Q (Qmake r (Z.to_pos fix_one))
  end.

#[export] Instance arith : Arith float32 := {|
  f_lit := of_Q;
  f_add := SFadd prec emax;
  f_sub := SFsub prec emax;
  f_mul := SFmul prec emax;
  f_div := SFdiv prec emax;
  f_sqrt := SFsqrt prec emax;
  f_exp := exp32
|}.

(** The same float, bit for bit. *)
Definition same (u v : float32) : bool :=
  match u, v with
  | S754_zero s, S754_zero s' => Bool.eqb s s'
  | S754_infinity s, S754_infinity s' => Bool.eqb s s'
  | S754_nan, S754_nan => true
  | S754_finite s m e, S754_finite s' m' e' => Bool.eqb s s' && Pos.eqb m m' && Z.eqb e e'
  | _, _ => false
  end.

Fixpoint same_samples (l l' : list (option float32)) : bool :=
  match l, l' with
  | [], [] => true
  | Some u :: l0, Some v :: l0' => same u v && same_samples l0 l0'
  | None :: l0, None :: l0' => same_samples l0 l0'
  | _, _ => false
  end.

(** The reductions of [std.PlaneStats]. *)
Definition average (p : plane float32) : float32 :=
  SFdiv prec emax (fold_left (SFadd prec emax) (px p) (S754_zero false))
        (of_Z (Z.of_nat (List.length (px p)))).

Definition minimum (p : plane float32) : float32 :=
  match px p with
  | [] => S754_zero false
  | v :: l => fold_left (fun m u => if SFltb u m then u else m) l v
  end.

(** A resampler by nearest neighbour. *)
Definition resample_plane (w h : Z) (p : plane float32) : plane float32 :=
  {| pw := w; ph := h;
     px := map (fun i =>
                  let row := (Z.of_nat i / w * ph p / h)%Z in
                  let col := (Z.of_nat i mod w * pw p / w)%Z in
                  nth (Z.to_nat (row * pw p + col)) (px p) (S754_zero false))
               (seq 0 (Z.to_nat (w * h))) |}.

Definition resample (s : Scaler) (clip : VideoNode float32) (w h : Z) : VideoNode float32 :=
  {| format := format clip;
     data := map (fun ip =>
                    match fst ip with
                    | O => resample_plane w h (snd ip)
                    | _ => resample_plane (Z.shiftr w (Z.of_N (subsampling_w (format clip))))
                             (Z.shiftr h (Z.of_N (subsampling_h (format clip)))) (snd ip)
                    end)
                 (combine (seq 0 (List.length (data clip))) (data clip));
     frame_props := frame_props clip |}.

(** Integer samples are held as floats of integral value.  Conversion
    between [bits]-bit full-range integers and 32-bit floats: division by
    the peak value one way, multiplication, rounding and clamping the other
    way. *)
Definition peak (bits : Z) : Z := (2 ^ bits - 1)%Z.

Definition to_float_sample (bits : Z) (v : float32) : float32 :=
  SFdiv prec emax v (of_Z (peak bits)).

Definition to_int_sample (bits : Z) (v : float32) : float32 :=
  match to_Q (SFmul prec emax v (of_Z (peak bits))) with
  | Some q => of_Z (Z.max 0 (Z.min (peak bits) (Qfloor (q + (1 # 2)))))
  | None => S754_zero false
  end.

Definition convert (clip : VideoNode float32) (bits : Z) : VideoNode float32 :=
  let from := bits_per_sample (format clip) in
  let f := if Z.eqb from bits then (fun v => v)
           else if Z.eqb bits 32 then to_float_sample from
           else if Z.eqb from 32 then to_int_sample bits
           else (fun v => to_int_sample bits (to_float_sample from v)) in
  {| format := {| num_planes := num_planes (format clip);
                  subsampling_w := subsampling_w (format clip);
                  subsampling_h := subsampling_h (format clip);
                  bits_per_sample := bits |};
     data := map (fun p => {| pw := pw p; ph := ph p; px := map f (px p) |}) (data clip);
     frame_props := frame_props clip |}.

(** [cround]: half away from zero. *)
Definition round_half_away (q : Q) : Z :=
  if Qle_bool 0 q then Qfloor (q + (1 # 2)) else Qceiling (q - (1 # 2)).

#[export] Instance collaborators : Collaborators float32 := {|
  box_blur_plane := box_mean_plane;
  gauss_blur_plane := gauss_mean_plane;
  plane_average := average;
  plane_minimum := minimum;
  scale := resample;
  depth := convert;
  cround := round_half_away;
  range_is_full := fun range_in _ => match range_in with
                                     | Some FULL => true
                                     | _ => false
                                     end
|}.

End Binary32.

(** ** Real numbers, the arithmetic that the floats approximate *)

Module Real.

#[export] Instance arith : Arith R := {|
  f_lit := Q2R;
  f_add := Rplus;
  f_sub := Rminus;
  f_mul := Rmult;
  f_div := Rdiv;
  f_sqrt := sqrt;
  f_exp := exp
|}.

Definition average (p : plane R) : R :=
  (fold_right Rplus 0 (px p) / INR (List.length (px p)))%R.

Definition minimum (p : plane R) : R :=
  match px p with
  | [] => 0%R
  | v :: l => fold_right Rmin v l
  end.

#[export] Instance collaborators : Collaborators R := {|
  box_blur_plane := box_mean_plane;
  gauss_blur_plane := gauss_mean_plane;
  plane_average := average;
  plane_minimum := minimum;
  scale := fun _ clip _ _ => clip;
  depth := fun clip bits =>
             {| format := {| num_planes := num_planes (format clip);
                             subsampling_w := subsampling_w (format clip);
                             subsampling_h := subsampling_h (format clip);
                             bits_per_sample := bits |};
                data := data clip;
                frame_props := frame_props clip |};
  cround := Binary32.round_half_away;
  range_is_full := fun range_in _ => match range_in with
                                     | Some FULL => true
                                     | _ => false
                                     end
|}.

End Real.


(** ** Inputs for the examples *)

Module Example.

Import Binary32.

Definition thr : float32 := of_Q (1 # 3).

Definition int_plane (w h : Z) (l : list Z) : plane float32 :=
  {| pw := w; ph := h; px := map of_Z l |}.

Definition gray8 (w h : Z) (l : list Z) : VideoNode float32 :=
  {| format := gray 8; data := [int_plane w h l]; frame_props := no_props |}.

Definition yuv444p8 (w h : Z) (luma cb cr : list Z) : VideoNode float32 :=
  {| format := {| num_planes := 3; subsampling_w := 0; subsampling_h := 0;
                  bits_per_sample := 8 |};
     data := [int_plane w h luma; int_plane w h cb; int_plane w h cr];
     frame_props := no_props |}.

(** Two samples that differ by four code values. *)
Definition near_flat : VideoNode float32 := gray8 2 1 [100; 104]%Z.

(** A 3x2 clip with three planes, and a second clip of the same format and
    size with other chroma planes. *)
Definition colour : VideoNode float32 :=
  yuv444p8 3 2 [10; 200; 30; 120; 64; 250]%Z [100; 110; 140; 90; 128; 128]%Z
           [128; 130; 128; 126; 128; 131]%Z.

Definition other : VideoNode float32 :=
  yuv444p8 3 2 [12; 190; 40; 110; 60; 240]%Z [60; 61; 62; 63; 64; 65]%Z
           [200; 201; 202; 203; 204; 205]%Z.

(** Lines 21-142 followed by lines 93-116 on the same values: the solution
    and the weights it was computed from. *)
Definition solve_weights (aka : bool) (clip : VideoNode float32) (radius : Z)
  (mode : GuidedFilterMode) : result (solution float32 * weighting float32) :=
  sol <- solve aka clip None (Some radius) thr None mode false None None 0 Point ;;
  w <- weights aka false mode (s_planes (sol_setup sol)) (s_r (sol_setup sol))
         (sol_stats sol) (s_g (sol_setup sol)) ;;
  Ok (sol, w).

End Example.

(** ** The per-plane readings of the documentation, to compare with the code *)

Section Worded.

Context {T : Type} `{Arith T} `{Collaborators T}.

(** "[weight = (W + 1e-6) * mu_denom], [mu_denom] the full-plane mean of
    [denom]", read for plane [i] with the mean of plane [i] itself. *)
Definition weight_from_own_plane (w : weighting T) (i : nat) : list (option T) :=
  let mu := plane_average (get_plane (denominator w) i) in
  map (fun j => match sample (weight_in w) i j with
                | Some W => Some (f_mul (f_add W (f_lit (1 # 1000000))) mu)
                | None => None
                end)
      (seq 0 (List.length (px (get_plane (weight_in w) i)))).

(** "the full-plane mean and minimum of [W] are reduced, [k = -4 / (min_W -
    mu_W - 1e-6)], [alpha = mu_W]", read for plane [i] with the statistics
    of plane [i] itself. *)
Definition slope_from_own_plane (st : statistics T) (w : weighting T) (eps : list T) (i : nat)
  : list (option T) :=
  let Wi := get_plane (weight_in w) i in
  let mu := plane_average Wi in
  let k := k_python (plane_minimum Wi) mu in
  map (fun j => match sample (cov_Ip st) i j, sample (weight_in w) i j,
                      sample (weight w) i j, sample (var_I st) i j, nth_error eps i with
                | Some xv, Some W, Some zv, Some yv, Some e =>
                    Some (gradient_a k mu e xv W zv yv)
                | _, _, _, _, _ => None
                end)
      (seq 0 (List.length (px Wi))).

(** The samples of plane [i] of a clip. *)
Definition samples (clip : VideoNode T) (i : nat) : list (option T) :=
  map (sample clip i) (seq 0 (List.length (px (get_plane clip i)))).

End Worded.

(** ** Planes computed sample by sample *)

Section PlaneMaps.

Context {T : Type}.

(** The plane whose samples are [f] of the samples of [p], and the plane
    whose samples are [f] of the samples of [p] and [p'] at the same
    position. *)
Definition plane_map (f : T -> T) (p : plane T) : plane T :=
  {| pw := pw p; ph := ph p; px := map f (px p) |}.

Definition plane_map2 (f : T -> T -> T) (p p' : plane T) : plane T :=
  {| pw := pw p; ph := ph p;
     px := map (fun vv => f (fst vv) (snd vv)) (combine (px p) (px p')) |}.

End PlaneMaps.

(** ** Layout of a clip, and what a run to the end needs *)

Section Layout.

Context {T : Type} `{Arith T} `{Collaborators T}.

(** The number of samples of every plane. *)
Definition layout (clip : VideoNode T) : list nat :=
  map (fun p => List.length (px p)) (data clip).

(** A clip as a filter receives it: one to three planes, as many as its
    format says. *)
Definition well_formed (clip : VideoNode T) : bool :=
  Nat.eqb (List.length (data clip)) (num_planes (format clip))
  && Nat.leb 1 (num_planes (format clip)) && Nat.leb (num_planes (format clip)) 3.

(** What the filter needs of its collaborators to run to the end: [depth]
    keeps the number of planes and of samples, and a blurred plane has as
    many samples as the plane. *)
Definition layout_kept : Prop :=
  (forall c bits, num_planes (format (depth c bits)) = num_planes (format c)
                  /\ layout (depth c bits) = layout c)
  /\ (forall r p, List.length (px (box_blur_plane r p)) = List.length (px p))
  /\ (forall sg p, List.length (px (gauss_blur_plane sg p)) = List.length (px p)).

(** [c] has the planes and the samples of [p]. *)
Definition fits (p c : VideoNode T) : Prop :=
  num_planes (format c) = num_planes (format p) /\ layout c = layout p.

(** A blur that returns, for every clip, a clip of the same layout and
    properties. *)
Definition blur_returns (blur : VideoNode T -> result (VideoNode T)) : Prop :=
  forall c, exists c', blur c = Ok c' /\ fits c c' /\ frame_props c' = frame_props c.

End Layout.

(** ** Flat clips *)

Section FlatClips.

Context {T : Type} `{Arith T} `{Collaborators T}.

(** A one-plane clip whose samples all have the value [v], with the frame
    properties [fp]. *)
Definition flat (fp : props T) (bits w h : Z) (v : T) : VideoNode T :=
  {| format := gray bits; data := [uniform_plane w h v]; frame_props := fp |}.

(** The properties that [std.PlaneStats] attaches to a plane of value [v]. *)
Definition flat_stats (w h : Z) (v : T) : props T :=
  {| stats_average := Some (plane_average (uniform_plane w h v));
     stats_min := Some (plane_minimum (uniform_plane w h v)) |}.

(** The slope that lines 90-140 compute at one sample of a clip of value
    [c] filtered by itself, when a blurred constant is that constant;
    [average] and [minimum] are the statistics of a constant plane. *)
Definition flat_slope (aka : bool) (mode : GuidedFilterMode) (average minimum : T -> T)
  (c eps : T) : T :=
  let var := f_sub (f_mul c c) (f_mul c c) in
  match mode with
  | ORIGINAL => f_div var (f_add var eps)
  | _ =>
      let W := match mode with
               | WEIGHTED => var
               | _ => f_sqrt (f_mul var var)
               end in
      let den := f_div (f_lit 1) (f_add W (f_lit (1 # 1000000))) in
      let wt := f_mul (f_add W (f_lit (1 # 1000000))) (average den) in
      match mode with
      | WEIGHTED => f_div var (f_add var (f_div eps wt))
      | _ =>
          let k := if aka then k_akarin (minimum W) (average W)
                   else k_python (minimum W) (average W) in
          gradient_a k (average W) eps var W wt var
      end
  end.

End FlatClips.

(** ** More inputs for the examples *)

Module Inputs.

Import Binary32 Example.

(** A two-sample clip of the format of [near_flat], one sample wide. *)
Definition upright : VideoNode float32 := gray8 1 2 [100; 104]%Z.

(** A 1920x1080 clip with 4:2:0 chroma, every sample at mid-grey. *)
Definition hd420 : VideoNode float32 :=
  {| format := {| num_planes := 3; subsampling_w := 1; subsampling_h := 1;
                  bits_per_sample := 8 |};
     data := [uniform_plane 1920 1080 (of_Z 128); uniform_plane 960 540 (of_Z 128);
              uniform_plane 960 540 (of_Z 128)];
     frame_props := no_props |}.

End Inputs.

(** * Properties *)

(** ** The exception monad and lists *)

Lemma bind_Ok {A B : Type} (m : result A) (k : A -> result B) (b : B) :
  bind m k = Ok b -> exists a, m = Ok a /\ k a = Ok b.
Proof.
  destruct m as [a0|e]; simpl; intros Hk; [exists a0; auto | discriminate].
Qed.

Lemma observe_Some {A B : Type} (r : result A) (f : A -> B) (b : B) :
  observe r f = Some b -> exists a, r = Ok a /\ f a = b.
Proof.
  destruct r as [a0|e]; simpl; intros Ho; [|discriminate].
  exists a0. split; [reflexivity | congruence].
Defined.

(** Split a hypothesis [x <- m ;; k = Ok v] into its two steps. *)
Ltac bind_inv H :=
  let a := fresh "v" in
  let Hm := fresh "Hm" in
  apply bind_Ok in H; destruct H as (a & Hm & H).

Lemma mapM_length {A B : Type} (f : A -> result B) (l : list A) (l' : list B) :
  mapM f l = Ok l' -> List.length l' = List.length l.
Proof.
  revert l'; induction l as [|a0 l IH]; simpl; intros l' Hl.
  - now inversion Hl.
  - destruct (f a0); [|discriminate].
    destruct (mapM f l); [|discriminate].
    inversion Hl; subst; simpl; f_equal; now apply IH.
Qed.

Lemma mapM_nth_error {A B : Type} (f : A -> result B) (l : list A) (l' : list B)
  (j : nat) (a0 : A) :
  mapM f l = Ok l' -> nth_error l j = Some a0 ->
  exists b, nth_error l' j = Some b /\ f a0 = Ok b.
Proof.
  revert l' j; induction l as [|a1 l IH]; simpl; intros l' j Hl Hj.
  - destruct j; discriminate.
  - destruct (f a1) eqn:Ef; [|discriminate].
    destruct (mapM f l) eqn:El; [|discriminate].
    inversion Hl; subst; clear Hl.
    destruct j as [|j]; simpl in *.
    + inversion Hj; subst; eauto.
    + eapply IH; eauto.
Qed.

Lemma mapM_total {A B : Type} (f : A -> result B) (g : A -> B) (l : list A) :
  (forall a0, In a0 l -> f a0 = Ok (g a0)) -> mapM f l = Ok (map g l).
Proof.
  induction l as [|a1 l IH]; simpl; intros Hf; [reflexivity|].
  rewrite (Hf a1) by auto. rewrite IH by auto. reflexivity.
Qed.

Lemma mapM_ext {A B : Type} (f g : A -> result B) (l : list A) :
  (forall a0, In a0 l -> f a0 = g a0) -> mapM f l = mapM g l.
Proof.
  induction l as [|a1 l IH]; simpl; intros Hf; [reflexivity|].
  rewrite (Hf a1) by auto. rewrite IH by auto. reflexivity.
Qed.

Lemma nth_error_seq (start len j : nat) :
  (j < len)%nat -> nth_error (seq start len) j = Some (start + j)%nat.
Proof.
  revert start j; induction len as [|len IH]; intros start j Hj; [lia|].
  destruct j as [|j]; simpl.
  - f_equal; lia.
  - rewrite IH by lia. f_equal; lia.
Qed.

(** ** Python values *)

(** A list never compares equal to an int. *)
Lemma py_eq_list_int (l : list Z) (n : Z) : py_eq (Many l) (One n) = false.
Proof. reflexivity. Qed.

(** A list cannot be divided by an int. *)
Lemma py_truediv_list (l : list Z) (d : Z) : py_truediv (Many l) d = Raise TypeError.
Proof. reflexivity. Qed.

Lemma normalize_seq_length {A : Type} (val : seq_or A) (n : nat) (l : list A) :
  normalize_seq val n = Ok l -> List.length l = n.
Proof.
  unfold normalize_seq. intros Hn. bind_inv Hn. inversion Hn; subst; clear Hn.
  rewrite length_firstn, length_app, repeat_length. lia.
Qed.

Lemma normalize_seq_One {A : Type} (v : A) (n : nat) :
  normalize_seq (One v) n = Ok (repeat v n).
Proof.
  unfold normalize_seq; simpl. f_equal.
  destruct n as [|n]; [reflexivity|]. simpl. now rewrite Nat.sub_0_r, firstn_all2 by (rewrite repeat_length; lia).
Qed.

Lemma py_last_cons {A : Type} (v : A) (l : list A) : exists u, py_last (v :: l) = Ok u.
Proof.
  unfold py_last. destruct (rev (v :: l)) as [|u l1] eqn:Er; [|eauto].
  apply (f_equal (@List.length A)) in Er. rewrite length_rev in Er. discriminate.
Qed.

(** [normalize_seq] fails on the empty list only. *)
Lemma normalize_seq_total {A : Type} (val : seq_or A) (n : nat) :
  to_arr val <> [] -> exists l, normalize_seq val n = Ok l.
Proof.
  intros Hv. unfold normalize_seq.
  destruct (to_arr val) as [|v l] eqn:Ev; [congruence|].
  destruct (py_last_cons v l) as (u & ->). simpl. eauto.
Qed.

Lemma firstn_repeat {A : Type} (v : A) (m k : nat) :
  (m <= k)%nat -> firstn m (repeat v k) = repeat v m.
Proof.
  revert k; induction m as [|m IH]; intros k Hk; [reflexivity|].
  destruct k as [|k]; [lia|]. simpl. f_equal. apply IH. lia.
Qed.

Lemma py_last_repeat {A : Type} (v : A) (n : nat) : py_last (repeat v (S n)) = Ok v.
Proof.
  unfold py_last. destruct (rev (repeat v (S n))) as [|u l] eqn:Er.
  - apply (f_equal (@List.length A)) in Er. rewrite length_rev in Er. discriminate.
  - f_equal. apply (repeat_spec (S n) v u).
    apply in_rev. rewrite Er. now left.
Qed.

(** A list of equal values normalises like the value itself. *)
Lemma normalize_seq_repeat {A : Type} (v : A) (n m : nat) :
  normalize_seq (Many (repeat v (S n))) m = Ok (repeat v m).
Proof.
  unfold normalize_seq. cbn [to_arr]. rewrite py_last_repeat. cbn [bind]. f_equal.
  rewrite repeat_length, <- repeat_app. apply firstn_repeat. lia.
Qed.

Lemma normalize_seq_exact {A : Type} (l : list A) :
  l <> [] -> normalize_seq (Many l) (List.length l) = Ok l.
Proof.
  intros Hl. unfold normalize_seq; simpl. unfold py_last.
  destruct (rev l) as [|a0 l0] eqn:Er.
  - apply (f_equal (@rev A)) in Er. rewrite rev_involutive in Er. now subst.
  - simpl. rewrite Nat.sub_diag. simpl. rewrite app_nil_r, firstn_all. reflexivity.
Qed.

(** ** The default radius *)

Lemma py_max_cases (u v : Q) :
  (py_max u v == u /\ v <= u)%Q \/ (py_max u v == v /\ u < v)%Q.
Proof.
  unfold py_max. destruct (Qcompare_spec u v) as [Heq|Hlt|Hgt].
  - left; split; [reflexivity | rewrite Heq; apply Qle_refl].
  - right; split; [reflexivity | assumption].
  - left; split; [reflexivity | now apply Qlt_le_weak].
Qed.

Lemma py_max_le (u v b : Q) : (u <= b -> v <= b -> py_max u v <= b)%Q.
Proof.
  intros Hu Hv. destruct (py_max_cases u v) as [[He _]|[He _]]; rewrite He; assumption.
Qed.

Lemma py_max_ge (u v b : Q) : (b <= u \/ b <= v -> b <= py_max u v)%Q.
Proof.
  intros Hb.
  destruct (py_max_cases u v) as [[He Hvu]|[He Huv]]; rewrite He; destruct Hb; lra.
Qed.

Lemma py_round_bounds (q : Q) :
  (Qfloor q <= py_round q <= Qfloor q + 1)%Z.
Proof.
  unfold py_round.
  destruct (Qcompare _ _); [destruct (Z.even _)| |]; lia.
Qed.

Lemma py_round_Z (n : Z) : py_round (inject_Z n) = n.
Proof.
  unfold py_round. rewrite Qfloor_Z.
  destruct (Qcompare_spec (inject_Z n - inject_Z n) (1 # 2)) as [He|Hl|Hg];
    [lra | reflexivity | lra].
Qed.

(** Rounding half to even is monotone. *)
Lemma py_round_le (u v : Q) : (u <= v)%Q -> (py_round u <= py_round v)%Z.
Proof.
  intros Huv.
  pose proof (Qfloor_resp_le _ _ Huv) as Hf.
  destruct (Z.eq_dec (Qfloor u) (Qfloor v)) as [Heq|Hne].
  - unfold py_round. rewrite <- Heq.
    destruct (Qcompare_spec (u - inject_Z (Qfloor u)) (1 # 2)) as [He|Hl|Hg];
      destruct (Qcompare_spec (v - inject_Z (Qfloor u)) (1 # 2)) as [He'|Hl'|Hg'];
      try destruct (Z.even (Qfloor u)); try lia; lra.
  - pose proof (py_round_bounds u). pose proof (py_round_bounds v). lia.
Qed.

Lemma rad_term_le (u v c d : Q) :
  (0 < d -> u <= v -> (u - c) / d + 12 <= (v - c) / d + 12)%Q.
Proof.
  intros Hd Huv. apply Qplus_le_compat; [|apply Qle_refl].
  apply Qmult_le_compat_r; [lra|]. apply Qlt_le_weak, Qinv_lt_0_compat, Hd.
Qed.

Lemma rad_formula_le (w h w' h' : Q) :
  (w <= w' -> h <= h' -> rad_formula w h <= rad_formula w' h')%Q.
Proof.
  intros Hw Hh. unfold rad_formula.
  apply py_max_le; apply py_max_ge; [left | right]; apply rad_term_le;
    try assumption; reflexivity.
Qed.

Lemma rad_formula_1280_720 : (rad_formula 1280 720 == 12)%Q.
Proof. reflexivity. Qed.

(** A plane of at most 1280x720 has a default radius of at most 12. *)
Lemma py_round_rad_formula_le_12 (w h : Q) :
  (w <= 1280)%Q -> (h <= 720)%Q -> (py_round (rad_formula w h) <= 12)%Z.
Proof.
  intros Hw Hh.
  rewrite <- (py_round_Z 12). apply py_round_le.
  apply Qle_trans with (rad_formula 1280 720); [now apply rad_formula_le|].
  rewrite rad_formula_1280_720. apply Qle_refl.
Qed.

Lemma chroma_dimension_le (w d b : Z) :
  (1 <= d)%Z -> (0 <= b)%Z -> (w <= b)%Z ->
  (inject_Z w / inject_Z d <= inject_Z b)%Q.
Proof.
  intros Hd Hb Hw. apply Qle_shift_div_r.
  - change 0%Q with (inject_Z 0). rewrite <- Zlt_Qlt. lia.
  - rewrite <- inject_Z_mult, <- Zle_Qle. nia.
Qed.

Lemma In_firstn {A : Type} (n : nat) (l : list A) (v : A) :
  In v (firstn n l) -> In v l.
Proof.
  revert l; induction n as [|n IH]; intros [|a0 l]; simpl; try tauto.
  intros [->|Hin]; auto.
Qed.

Lemma shiftl_1_pos (s : N) : (1 <= Z.shiftl 1 (Z.of_N s))%Z.
Proof.
  rewrite Z.shiftl_1_l. pose proof (Z.pow_pos_nonneg 2 (Z.of_N s)). lia.
Qed.

(** C2, as amended: the default radius of a plane is
    [round(max((width-1280)/160+12, (height-720)/90+12))] on the dimensions
    of that plane (the chroma planes use the subsampled width and height);
    for an input of at most 1280x720 it is AT MOST 12; the luma radius is
    exactly 12 at 1280x720; and it does not decrease when the width or the
    height grows. *)
Theorem default_radius_at_most_12 (width height : Z) (ssw ssh : N) (n : nat) :
  default_radius width height ssw ssh n =
    Many (firstn n
      [py_round (py_max ((inject_Z width - 1280) / 160 + 12)
                        ((inject_Z height - 720) / 90 + 12))%Q;
       py_round (py_max
         ((inject_Z width / inject_Z (Z.shiftl 1 (Z.of_N ssw)) - 1280) / 160 + 12)
         ((inject_Z height / inject_Z (Z.shiftl 1 (Z.of_N ssh)) - 720) / 90 + 12))%Q])
  /\ ((width <= 1280)%Z -> (height <= 720)%Z ->
      forall r, In r (to_arr (default_radius width height ssw ssh n)) -> (r <= 12)%Z)
  /\ (width = 1280%Z -> height = 720%Z ->
      nth_error (to_arr (default_radius width height ssw ssh (S n))) 0 = Some 12%Z)
  /\ (forall width' height', (width <= width')%Z -> (height <= height')%Z ->
      (py_round (rad_formula (inject_Z width) (inject_Z height))
       <= py_round (rad_formula (inject_Z width') (inject_Z height')))%Z).
Proof.
  split; [reflexivity|]. split; [|split].
  - intros Hw Hh r Hr. unfold default_radius in Hr. simpl in Hr.
    apply In_firstn in Hr. destruct Hr as [<-|[<-|[]]].
    + apply py_round_rad_formula_le_12.
      * change 1280%Q with (inject_Z 1280). now rewrite <- Zle_Qle.
      * change 720%Q with (inject_Z 720). now rewrite <- Zle_Qle.
    + apply py_round_rad_formula_le_12.
      * change 1280%Q with (inject_Z 1280).
        apply chroma_dimension_le; [apply shiftl_1_pos | lia | assumption].
      * change 720%Q with (inject_Z 720).
        apply chroma_dimension_le; [apply shiftl_1_pos | lia | assumption].
  - intros -> ->. reflexivity.
  - intros width' height' Hw Hh. apply py_round_le, rad_formula_le.
    + now rewrite <- Zle_Qle.
    + now rewrite <- Zle_Qle.
Qed.

(** C2, witness: a 640x480 input with 4:2:0 chroma. *)
Lemma default_radius_at_most_12_witness :
  (640 <= 1280)%Z /\ (480 <= 720)%Z /\
  forall r, In r (to_arr (default_radius 640 480 1 1 3)) -> (r <= 12)%Z.
Proof.
  split; [lia|]. split; [lia|].
  apply (proj1 (proj2 (default_radius_at_most_12 640 480 1 1 3))); lia.
Defined.

(** C2, counterexample: at 640x480, below 1280x720, the default radius is 9
    for luma and 7 for 4:2:0 chroma, not at least 12. *)
Lemma default_radius_640x480 :
  (640 <= 1280)%Z /\ (480 <= 720)%Z /\
  default_radius 640 480 1 1 3 = Many [9; 7]%Z /\
  ~ (forall r, In r [9; 7]%Z -> (12 <= r)%Z).
Proof.
  split; [lia|]. split; [lia|]. split; [reflexivity|].
  intros Hall. specialize (Hall 9%Z (or_introl eq_refl)). lia.
Qed.

(** ** Planes of a filtered clip *)

Section Structure.

Context {T : Type} `{Arith T} `{Collaborators T}.

Lemma mem_In (i : nat) (l : list nat) : mem i l = true <-> In i l.
Proof.
  unfold mem. rewrite existsb_exists. split.
  - intros (k & Hk & Hik). apply Nat.eqb_eq in Hik. now subst.
  - intros Hi. exists i. split; [assumption | apply Nat.eqb_refl].
Qed.

Lemma mem_normalize_planes (clip : VideoNode T) (planes : list nat) (i : nat) :
  mem i (normalize_planes clip (Some (Many planes))) = processed clip planes i.
Proof.
  unfold processed. simpl.
  destruct (mem i (filter _ _)) eqn:Em.
  - apply mem_In, filter_In in Em. destruct Em as [Hseq Hm].
    apply in_seq in Hseq. rewrite Hm. symmetry. simpl. apply Nat.ltb_lt. lia.
  - destruct (mem i planes) eqn:Ep; [|reflexivity]. simpl.
    destruct (Nat.ltb_spec i (num_planes (format clip))) as [Hlt|Hge]; [|reflexivity].
    assert (Hin : mem i (filter (fun k => mem k planes) (seq 0 (num_planes (format clip)))) = true).
    { apply mem_In, filter_In. split; [apply in_seq; lia | assumption]. }
    congruence.
Qed.

(** Selecting among the planes that were already normalised changes
    nothing. *)
Lemma processed_normalize_planes (clip c : VideoNode T) (planes : PlanesT) (i : nat) :
  format c = format clip ->
  processed c (normalize_planes clip planes) i = mem i (normalize_planes clip planes).
Proof.
  intros Hf. unfold processed. rewrite Hf.
  destruct (mem i (normalize_planes clip planes)) eqn:Em; [|reflexivity]. simpl.
  apply Nat.ltb_lt. apply mem_In in Em.
  destruct planes as [p|]; simpl in Em.
  - apply filter_In in Em. destruct Em as [Hs _]. apply in_seq in Hs. lia.
  - apply in_seq in Em. lia.
Qed.

Lemma nth_error_indexed {A B : Type} (g : nat * A -> B) (l : list A) (s i : nat) :
  nth_error (map g (combine (seq s (List.length l)) l)) i
  = option_map (fun v => g ((s + i)%nat, v)) (nth_error l i).
Proof.
  revert s i; induction l as [|a0 l IH]; intros s i; simpl.
  - now destruct i.
  - destruct i as [|i]; simpl.
    + now rewrite Nat.add_0_r.
    + rewrite IH. now rewrite Nat.add_succ_r.
Qed.

Lemma get_plane_nth_error (clip : VideoNode T) (i : nat) (p : plane T) :
  nth_error (data clip) i = Some p -> get_plane clip i = p.
Proof. intros Hp. unfold get_plane. now apply nth_error_nth. Qed.

Lemma get_plane_overflow (clip : VideoNode T) (i : nat) :
  (List.length (data clip) <= i)%nat -> get_plane clip i = empty_plane.
Proof. intros Hi. unfold get_plane. now apply nth_overflow. Qed.

Lemma nth_error_get_plane (clip : VideoNode T) (i : nat) :
  (i < List.length (data clip))%nat -> nth_error (data clip) i = Some (get_plane clip i).
Proof.
  intros Hi. unfold get_plane.
  destruct (nth_error (data clip) i) as [p|] eqn:Ep.
  - now rewrite (nth_error_nth _ _ _ Ep).
  - apply nth_error_None in Ep. lia.
Qed.

(** [on_planes] *)

Lemma on_planes_length (f : nat -> plane T -> plane T) (planes : list nat)
  (clip : VideoNode T) :
  List.length (data (on_planes f planes clip)) = List.length (data clip).
Proof.
  unfold on_planes; simpl. rewrite length_map, length_combine, length_seq. lia.
Qed.

Lemma on_planes_get_plane (f : nat -> plane T -> plane T) (planes : list nat)
  (clip : VideoNode T) (i : nat) :
  get_plane (on_planes f planes clip) i
  = if mem i planes && Nat.ltb i (List.length (data clip))
    then f i (get_plane clip i) else get_plane clip i.
Proof.
  destruct (Nat.ltb_spec i (List.length (data clip))) as [Hlt|Hge].
  - rewrite andb_true_r. apply get_plane_nth_error.
    unfold on_planes; simpl. rewrite nth_error_indexed.
    rewrite (nth_error_get_plane clip i Hlt). simpl. reflexivity.
  - rewrite andb_false_r. rewrite (get_plane_overflow clip) by assumption.
    apply get_plane_overflow. rewrite on_planes_length. assumption.
Qed.

(** An expression depends on the samples and properties it reads only. *)
Lemma rpn_ext (akarin : bool) (env env' : nat -> option T)
  (prp prp' : nat -> prop_name -> option T) (ts : list (token T)) (st : list T) :
  (forall i, env i = env' i) -> (forall i p, prp i p = prp' i p) ->
  rpn akarin env prp ts st = rpn akarin env' prp' ts st.
Proof.
  intros He Hp. revert st; induction ts as [|t ts IH]; intros st; [reflexivity|].
  cbn [rpn]. assert (Hs : step akarin env prp t st = step akarin env' prp' t st).
  { destruct t; simpl; try reflexivity; [now rewrite He | now rewrite Hp]. }
  rewrite Hs. destruct (step akarin env' prp' t st); simpl; [apply IH | reflexivity].
Qed.

(** [expr_plane] *)

Lemma expr_plane_inv (akarin : bool) (ts : list (token T)) (p0 : plane T)
  (ps : list (plane T)) (fps : list (props T)) (out : plane T) :
  expr_plane akarin ts (p0 :: ps) fps = Ok out ->
  pw out = pw p0 /\ ph out = ph p0 /\ List.length (px out) = List.length (px p0) /\
  forall j v, nth_error (px out) j = Some v ->
    rpn akarin (sample_at (p0 :: ps) j) (prop_at fps) ts [] = Ok v.
Proof.
  unfold expr_plane. intros He. bind_inv He. inversion He; subst; clear He. simpl.
  pose proof (mapM_length _ _ _ Hm) as Hlen. rewrite length_seq in Hlen.
  repeat split; try assumption.
  intros j u Hj.
  assert (Hlt : (j < List.length (px p0))%nat).
  { rewrite <- Hlen. apply nth_error_Some. congruence. }
  destruct (mapM_nth_error _ _ _ j _ Hm (nth_error_seq 0 _ j Hlt)) as (b & Hb & Hr).
  simpl in Hr. congruence.
Qed.

(** [Expr] *)

Lemma Expr_inv (akarin : bool) (c0 : VideoNode T) (cs : list (VideoNode T))
  (exprs : list (option (list (token T)))) (out : VideoNode T) :
  Expr akarin (c0 :: cs) exprs = Ok out ->
  format out = format c0 /\ frame_props out = frame_props c0 /\
  List.length (data out) = List.length (data c0) /\
  forall i, (i < List.length (data c0))%nat ->
    match nth i exprs None with
    | None => get_plane out i = get_plane c0 i
    | Some ts => expr_plane akarin ts (map (fun c => get_plane c i) (c0 :: cs))
                   (map (@frame_props T) (c0 :: cs)) = Ok (get_plane out i)
    end.
Proof.
  unfold Expr. intros He. bind_inv He. inversion He; subst; clear He. simpl.
  pose proof (mapM_length _ _ _ Hm) as Hlen. rewrite length_seq in Hlen.
  repeat split; try assumption.
  intros i Hi.
  destruct (mapM_nth_error _ _ _ i _ Hm (nth_error_seq 0 _ i Hi)) as (b & Hb & Hr).
  simpl in Hr.
  assert (Hg : get_plane {| format := format c0; data := v; frame_props := frame_props c0 |} i = b)
    by now apply get_plane_nth_error.
  rewrite Hg. destruct (nth i exprs None); [assumption | now inversion Hr].
Qed.

End Structure.

Section NormExpr.

Context {T : Type} `{Arith T} `{Collaborators T}.

Lemma norm_expr_planes_inv (clip : VideoNode T) (e : list (token T)) (planes : list nat)
  (kwargs : list (string * seq_or T)) (exprs : list (option (list (token T)))) (i : nat) :
  norm_expr_planes clip e planes kwargs = Ok exprs ->
  if processed clip planes i
  then exists args ts, plane_args kwargs i = Ok args /\ format_expr e args = Ok ts /\
                       nth i exprs None = Some ts
  else nth i exprs None = None.
Proof.
  unfold norm_expr_planes. intros Hn. bind_inv Hn.
  destruct (Nat.ltb_spec i (num_planes (format clip))) as [Hlt|Hge].
  - destruct (mapM_nth_error _ _ _ i _ Hn (nth_error_seq 0 _ i Hlt)) as (b & Hb & Hr).
    cbv beta in Hr. rewrite Nat.add_0_l in Hr. rewrite mem_normalize_planes in Hr.
    rewrite (nth_error_nth _ _ None Hb).
    destruct (processed clip planes i).
    + bind_inv Hr. bind_inv Hr. inversion Hr; subst; clear Hr.
      exists v0, v1. unfold plane_args. rewrite Hm. simpl. auto.
    + now inversion Hr.
  - assert (Hp : processed clip planes i = false).
    { unfold processed. destruct (Nat.ltb_spec i (num_planes (format clip))); [lia|].
      apply andb_false_r. }
    rewrite Hp. apply nth_overflow.
    rewrite (mapM_length _ _ _ Hn), length_seq. assumption.
Qed.

(** What [norm_expr] returns: the format and the properties of the first
    clip; on a plane that is not processed, the plane of the first clip; on
    a processed plane, the formatted expression at every sample. *)
Lemma norm_expr_inv (aka : bool) (c0 : VideoNode T) (cs : list (VideoNode T))
  (e : list (token T)) (planes : list nat) (kwargs : list (string * seq_or T))
  (out : VideoNode T) :
  norm_expr aka (c0 :: cs) e planes kwargs = Ok out ->
  format out = format c0 /\ frame_props out = frame_props c0 /\
  List.length (data out) = List.length (data c0) /\
  forall i,
    if processed c0 planes i && Nat.ltb i (List.length (data c0))
    then exists args ts,
           plane_args kwargs i = Ok args /\ format_expr e args = Ok ts /\
           expr_plane aka ts (map (fun c => get_plane c i) (c0 :: cs))
             (map (@frame_props T) (c0 :: cs)) = Ok (get_plane out i)
    else get_plane out i = get_plane c0 i.
Proof.
  unfold norm_expr. intros Hn. bind_inv Hn.
  apply Expr_inv in Hn. destruct Hn as (Hf & Hp & Hl & Hpl).
  repeat split; try assumption.
  intros i. pose proof (norm_expr_planes_inv _ _ _ _ _ i Hm) as Hi.
  destruct (Nat.ltb_spec i (List.length (data c0))) as [Hlt|Hge].
  - specialize (Hpl i Hlt). rewrite andb_true_r.
    destruct (processed c0 planes i).
    + destruct Hi as (args & ts & Ha & Hts & Hnth).
      rewrite Hnth in Hpl. exists args, ts. auto.
    + now rewrite Hi in Hpl.
  - rewrite andb_false_r. rewrite (get_plane_overflow c0) by assumption.
    apply get_plane_overflow. now rewrite Hl.
Qed.

Lemma norm_expr_format (aka : bool) (c0 : VideoNode T) (cs : list (VideoNode T))
  (e : list (token T)) (planes : list nat) (kwargs : list (string * seq_or T))
  (out : VideoNode T) :
  norm_expr aka (c0 :: cs) e planes kwargs = Ok out -> format out = format c0.
Proof. intros Hn. now apply norm_expr_inv in Hn. Qed.

(** A plane that is not processed is the plane of the first clip. *)
Lemma norm_expr_passthrough (aka : bool) (c0 : VideoNode T) (cs : list (VideoNode T))
  (e : list (token T)) (planes : list nat) (kwargs : list (string * seq_or T))
  (out : VideoNode T) (i : nat) :
  norm_expr aka (c0 :: cs) e planes kwargs = Ok out ->
  processed c0 planes i = false ->
  get_plane out i = get_plane c0 i.
Proof.
  intros Hn Hp. apply norm_expr_inv in Hn. destruct Hn as (_ & _ & _ & Hi).
  specialize (Hi i). now rewrite Hp in Hi.
Qed.

(** The geometry of the output is the geometry of the first clip. *)
Lemma norm_expr_geometry (aka : bool) (c0 : VideoNode T) (cs : list (VideoNode T))
  (e : list (token T)) (planes : list nat) (kwargs : list (string * seq_or T))
  (out : VideoNode T) :
  norm_expr aka (c0 :: cs) e planes kwargs = Ok out -> geometry out = geometry c0.
Proof.
  intros Hn. apply norm_expr_inv in Hn. destruct Hn as (Hf & _ & Hl & Hi).
  unfold geometry. rewrite Hf. f_equal.
  apply nth_error_ext. intros i. rewrite !nth_error_map.
  destruct (Nat.ltb_spec i (List.length (data c0))) as [Hlt|Hge].
  - rewrite (nth_error_get_plane out i) by lia.
    rewrite (nth_error_get_plane c0 i) by lia. simpl. f_equal.
    specialize (Hi i). rewrite (proj2 (Nat.ltb_lt _ _) Hlt), andb_true_r in Hi.
    destruct (processed c0 planes i).
    + destruct Hi as (args & ts & _ & _ & He). simpl in He.
      apply expr_plane_inv in He. destruct He as (Hw & Hh & _). now rewrite Hw, Hh.
    + now rewrite Hi.
  - replace (nth_error (data out) i) with (@None (plane T))
      by (symmetry; apply nth_error_None; lia).
    replace (nth_error (data c0) i) with (@None (plane T))
      by (symmetry; apply nth_error_None; lia).
    reflexivity.
Qed.

End NormExpr.

(** ** Resolution reduction (lines 61-68) *)

Section DownRatio.

Context {T : Type} `{Arith T} `{Collaborators T}.

(** After line 58, [r] is the list that [normalize_seq] returned. *)
Lemma prepare_r_is_list (clip : VideoNode T) (guidance : option (VideoNode T))
  (radius : option Z) (thr : T) (regulation : option (list T)) (planes : PlanesT)
  (range_in : option ColorRange) (down_ratio : Z) (downscaler : Scaler) (s : setup T) :
  prepare clip guidance radius thr regulation planes range_in down_ratio downscaler = Ok s ->
  down_ratio = 0%Z /\ exists l, s_r s = Many l /\ List.length l = num_planes (format clip).
Proof.
  unfold prepare. intros Hp.
  bind_inv Hp. bind_inv Hp. destruct (expect_bits clip 32) as [p bits].
  bind_inv Hp. bind_inv Hp.
  destruct (Z.eqb_spec down_ratio 0) as [Hz|Hnz].
  - inversion Hp; subst; clear Hp. simpl. split; [reflexivity|].
    eexists; split; [reflexivity|]. eapply normalize_seq_length; eassumption.
  - rewrite py_truediv_list in Hp. discriminate.
Qed.

(** With a non-zero [down_ratio], line 68 divides the list [r] by an int. *)
Lemma prepare_down_ratio_raises (clip : VideoNode T) (guidance : option (VideoNode T))
  (radius : option Z) (thr : T) (regulation : option (list T)) (planes : PlanesT)
  (range_in : option ColorRange) (down_ratio : Z) (downscaler : Scaler) :
  down_ratio <> 0%Z ->
  (exists e, prepare clip guidance radius thr regulation planes range_in down_ratio
               downscaler = Raise e)
  /\ (check_ref_clip clip guidance = Ok tt -> regulation <> Some [] ->
      (0 < num_planes (format clip))%nat ->
      prepare clip guidance radius thr regulation planes range_in down_ratio downscaler
      = Raise TypeError).
Proof.
  intros Hnz. split.
  - destruct (prepare clip guidance radius thr regulation planes range_in down_ratio
                downscaler) as [s|e] eqn:Hp; [|eauto].
    apply prepare_r_is_list in Hp. tauto.
  - intros Hc Hr Hn. unfold prepare.
    assert (Hreg : exists v l, match regulation with
                               | Some l0 => Ok l0
                               | None => default_regulation clip thr range_in
                               end = Ok (v :: l)).
    { destruct regulation as [[|v l]|]; [congruence | eauto |].
      unfold default_regulation. rewrite normalize_seq_One.
      destruct (num_planes (format clip)) as [|n] eqn:En; [lia|].
      destruct (range_is_full range_in clip).
      - unfold normalize_seq; simpl. do 2 eexists; reflexivity.
      - rewrite normalize_seq_One. simpl. do 2 eexists; reflexivity. }
    destruct Hreg as (v & l & ->). simpl. rewrite Hc. simpl.
    destruct (expect_bits clip 32) as [p bits].
    assert (Hrad : exists l0, normalize_seq
                     match radius with
                     | Some n => One n
                     | None => default_radius (width clip) (height clip)
                                 (subsampling_w (format clip)) (subsampling_h (format clip))
                                 (num_planes (format clip))
                     end (num_planes (format clip)) = Ok l0).
    { destruct radius as [n|]; [rewrite normalize_seq_One; eauto|].
      apply normalize_seq_total. unfold default_radius.
      destruct (num_planes (format clip)) as [|n] eqn:En; [lia|]. discriminate. }
    destruct Hrad as (l0 & ->). simpl.
    assert (Heps : exists l1, normalize_seq (Many (v :: l)) (num_planes (format clip)) = Ok l1).
    { apply normalize_seq_total. discriminate. }
    destruct Heps as (l1 & ->). simpl.
    destruct (Z.eqb_spec down_ratio 0) as [Hz|_]; [contradiction|]. reflexivity.
Qed.

(** C4, on the code: for every input with a non-zero [down_ratio],
    [guided_filter] returns no clip: it raises, and the exception is the
    [TypeError] of line 68 ([r / down_ratio] with [r] a list) whenever the
    reference check passes and the parameters are not empty. *)
Theorem guided_filter_down_ratio_raises (aka : bool) (clip : VideoNode T)
  (guidance : option (VideoNode T)) (radius : option Z) (thr : T)
  (regulation : option (list T)) (mode : GuidedFilterMode) (use_gauss : bool)
  (planes : PlanesT) (range_in : option ColorRange) (down_ratio : Z)
  (downscaler upscaler : Scaler) :
  down_ratio <> 0%Z ->
  (exists e, guided_filter aka clip guidance radius thr regulation mode use_gauss planes
               range_in down_ratio downscaler upscaler = Raise e)
  /\ (check_ref_clip clip guidance = Ok tt -> regulation <> Some [] ->
      (0 < num_planes (format clip))%nat ->
      guided_filter aka clip guidance radius thr regulation mode use_gauss planes
        range_in down_ratio downscaler upscaler = Raise TypeError).
Proof.
  intros Hnz.
  destruct (prepare_down_ratio_raises clip guidance radius thr regulation planes range_in
              down_ratio downscaler Hnz) as [(e & He) Ht].
  split.
  - exists e. unfold guided_filter, guided_filter_q, solve. now rewrite He.
  - intros Hc Hr Hn. unfold guided_filter, guided_filter_q, solve.
    now rewrite (Ht Hc Hr Hn).
Qed.

End DownRatio.

(** ** Local statistics (lines 80-88) and the corrective pass (lines 93-98) *)

Section Statistics.

Context {T : Type} `{Arith T} `{Collaborators T}.

Lemma local_statistics_self_guided (aka : bool)
  (blur : VideoNode T -> result (VideoNode T)) (p g : VideoNode T) (planes : list nat)
  (st : statistics T) :
  local_statistics aka blur false p g planes = Ok st ->
  mean_I st = mean_p st /\ corr_Ip st = corr_I st /\ cov_Ip st = var_I st.
Proof.
  unfold local_statistics. intros Hs.
  repeat bind_inv Hs. inversion Hs; subst; clear Hs. simpl.
  inversion Hm0; inversion Hm3; inversion Hm5; subst. auto.
Qed.

(** C6: when [guidance] is absent, [mean_I] is [mean_p], [corr_Ip] is
    [corr_I] and [cov_Ip] is [var_I]: the solver reads one mean and one
    variance. *)
Theorem self_guided_statistics_coincide (aka : bool) (clip : VideoNode T)
  (radius : option Z) (thr : T) (regulation : option (list T)) (mode : GuidedFilterMode)
  (use_gauss : bool) (planes : PlanesT) (range_in : option ColorRange) (down_ratio : Z)
  (downscaler : Scaler) (sol : solution T) :
  solve aka clip None radius thr regulation mode use_gauss planes range_in down_ratio
    downscaler = Ok sol ->
  mean_I (sol_stats sol) = mean_p (sol_stats sol)
  /\ corr_Ip (sol_stats sol) = corr_I (sol_stats sol)
  /\ cov_Ip (sol_stats sol) = var_I (sol_stats sol)
  /\ s_g (sol_setup sol) = s_p (sol_setup sol).
Proof.
  unfold solve. intros Hs. repeat bind_inv Hs. inversion Hs; subst; clear Hs. simpl.
  apply local_statistics_self_guided in Hm1.
  destruct Hm1 as (H1 & H2 & H3). repeat split; try assumption.
  unfold prepare in Hm. repeat bind_inv Hm.
  destruct (expect_bits clip 32) as [p bits]. repeat bind_inv Hm.
  destruct (Z.eqb down_ratio 0); [|bind_inv Hm]; now inversion Hm.
Qed.

(** C1, on the code: whatever the configured radius, 1 included, the test
    [r == 1] of line 93 compares the list [r] with an int and is false, so
    [var_I_1] is always computed by the corrective pass: two more blurs and
    one more expression. *)
Theorem corrective_pass_not_skipped (clip : VideoNode T) (guidance : option (VideoNode T))
  (radius : option Z) (thr : T) (regulation : option (list T)) (planes : PlanesT)
  (range_in : option ColorRange) (down_ratio : Z) (downscaler : Scaler) (s : setup T)
  (aka use_gauss : bool) (st : statistics T) :
  prepare clip guidance radius thr regulation planes range_in down_ratio downscaler = Ok s ->
  py_eq (s_r s) (One 1%Z) = false
  /\ corrective_variance aka use_gauss (s_planes s) (s_r s) st (s_g s)
     = (mean_I_1 <- blur_filter_corr use_gauss (s_planes s) (s_g s) ;;
        corr_I_1 <- blur_filter_corr use_gauss (s_planes s) (I_square st) ;;
        norm_expr aka [corr_I_1; mean_I_1] expr_variance (s_planes s) []).
Proof.
  intros Hp. apply prepare_r_is_list in Hp. destruct Hp as (_ & l & Hl & _).
  unfold corrective_variance. rewrite Hl. split; reflexivity.
Qed.

End Statistics.

(** ** Samples of an expression *)

Arguments get_plane {T} clip i : simpl never.

Section Samples.

Context {T : Type} `{Arith T} `{Collaborators T}.

Lemma sample_in_range (clip : VideoNode T) (i j : nat) (v : T) :
  sample clip i j = Some v -> (i < List.length (data clip))%nat.
Proof.
  unfold sample. intros Hs.
  destruct (Nat.ltb_spec i (List.length (data clip))) as [Hlt|Hge]; [assumption|].
  rewrite (get_plane_overflow clip i Hge) in Hs. simpl in Hs. now destruct j.
Qed.

(** On a processed plane, the sample of the output at a position where the
    first clip has a sample is the value of the formatted expression there. *)
Lemma norm_expr_sample (aka : bool) (c0 : VideoNode T) (cs : list (VideoNode T))
  (e : list (token T)) (planes : list nat) (kwargs : list (string * seq_or T))
  (out : VideoNode T) (i j : nat) (v0 : T) :
  norm_expr aka (c0 :: cs) e planes kwargs = Ok out ->
  processed c0 planes i = true ->
  sample c0 i j = Some v0 ->
  exists args ts v,
    plane_args kwargs i = Ok args /\ format_expr e args = Ok ts /\
    sample out i j = Some v /\
    rpn aka (sample_at (map (fun c => get_plane c i) (c0 :: cs)) j)
        (prop_at (map (@frame_props T) (c0 :: cs))) ts [] = Ok v.
Proof.
  intros Hn Hp Hs. pose proof (sample_in_range _ _ _ _ Hs) as Hi.
  apply norm_expr_inv in Hn. destruct Hn as (_ & _ & _ & Hpl).
  specialize (Hpl i). rewrite Hp, (proj2 (Nat.ltb_lt _ _) Hi) in Hpl. simpl in Hpl.
  destruct Hpl as (args & ts & Ha & Hts & He).
  apply expr_plane_inv in He. destruct He as (_ & _ & Hlen & Hr).
  assert (Hj : (j < List.length (px (get_plane out i)))%nat).
  { rewrite Hlen. apply nth_error_Some. unfold sample in Hs. congruence. }
  destruct (nth_error (px (get_plane out i)) j) as [v|] eqn:Ev.
  - exists args, ts, v. repeat split; try assumption. now apply Hr.
  - apply nth_error_None in Ev. lia.
Qed.

Lemma plane_args_nil (i : nat) : plane_args (T := T) [] i = Ok [].
Proof. reflexivity. Qed.

Lemma plane_args_One (key : string) (c : T) (i : nat) (args : list (string * T)) :
  plane_args [(key, One c)] i = Ok args -> args = [(key, c)].
Proof.
  unfold plane_args. cbn [mapM snd fst]. rewrite normalize_seq_One. simpl.
  destruct i as [|[|[|i]]]; simpl; intros Ha; try (inversion Ha; reflexivity).
  destruct i; discriminate.
Qed.

Lemma normalize_seq_nth_error {A : Type} (l l' : list A) (n i : nat) (v u : A) :
  normalize_seq (Many l) n = Ok l' ->
  nth_error l' i = Some v -> nth_error l i = Some u -> v = u.
Proof.
  unfold normalize_seq; simpl. intros Hn Hv Hu. bind_inv Hn.
  inversion Hn; subst; clear Hn.
  assert (Hi : (i < n)%nat).
  { destruct (Nat.ltb_spec i n) as [Hlt|Hge]; [assumption|].
    assert (Hnone : nth_error (firstn n (l ++ repeat v0 (n - List.length l))) i = None).
    { apply nth_error_None. rewrite length_firstn. lia. }
    congruence. }
  rewrite nth_error_firstn in Hv.
  destruct (Nat.ltb_spec i n) as [_|Hge]; [|lia].
  rewrite nth_error_app1 in Hv by (apply nth_error_Some; congruence). congruence.
Qed.

Lemma plane_args_Many (key : string) (l : list T) (i : nat) (args : list (string * T)) :
  plane_args [(key, Many l)] i = Ok args ->
  exists v, args = [(key, v)] /\ forall u, nth_error l i = Some u -> v = u.
Proof.
  unfold plane_args. cbn [mapM snd fst]. intros Ha.
  destruct (normalize_seq (Many l) 3) as [l3|] eqn:El; [|discriminate]. simpl in Ha.
  destruct (nth_error l3 i) as [v|] eqn:Ev; [|discriminate].
  inversion Ha; subst; clear Ha.
  exists v. split; [reflexivity|]. intros u Hu.
  eapply normalize_seq_nth_error; eassumption.
Qed.

Lemma plane_eq (p q : plane T) :
  pw p = pw q -> ph p = ph q -> px p = px q -> p = q.
Proof. destruct p, q; simpl; intros; subst; reflexivity. Qed.

(** A processed plane of an expression on one clip, when the expression
    computes [f] of the sample. *)
Lemma norm_expr_plane_map (aka : bool) (c0 : VideoNode T) (e : list (token T))
  (planes : list nat) (kwargs : list (string * seq_or T)) (out : VideoNode T) (i : nat)
  (f : T -> T) :
  norm_expr aka [c0] e planes kwargs = Ok out ->
  processed c0 planes i = true -> (i < List.length (data c0))%nat ->
  (forall args ts u, plane_args kwargs i = Ok args -> format_expr e args = Ok ts ->
     rpn aka (fun k => match k with O => Some u | S _ => None end)
         (prop_at [frame_props c0]) ts [] = Ok (f u)) ->
  get_plane out i = plane_map f (get_plane c0 i).
Proof.
  intros Hn Hp Hi Hf. apply norm_expr_inv in Hn. destruct Hn as (_ & _ & _ & Hpl).
  specialize (Hpl i). rewrite Hp, (proj2 (Nat.ltb_lt _ _) Hi) in Hpl. cbn [andb] in Hpl.
  destruct Hpl as (args & ts & Ha & Hts & He). cbn [map] in He.
  apply expr_plane_inv in He. destruct He as (Hw & Hh & Hlen & Hr).
  apply plane_eq; [assumption | assumption |]. cbn [plane_map px].
  apply nth_error_ext. intros j. rewrite nth_error_map.
  destruct (nth_error (px (get_plane out i)) j) as [v|] eqn:Ev.
  - destruct (nth_error (px (get_plane c0 i)) j) as [u|] eqn:Eu.
    + cbn [option_map]. specialize (Hr j v Ev).
      rewrite (rpn_ext aka _ (fun k => match k with O => Some u | S _ => None end)
                 _ (prop_at [frame_props c0]) ts []) in Hr.
      * rewrite (Hf args ts u Ha Hts) in Hr. congruence.
      * intros [|[|k]]; cbn [sample_at nth_error]; [assumption | reflexivity | reflexivity].
      * reflexivity.
    + apply nth_error_None in Eu.
      assert (j < List.length (px (get_plane out i)))%nat
        by (apply nth_error_Some; congruence).
      lia.
  - apply nth_error_None in Ev.
    replace (nth_error (px (get_plane c0 i)) j) with (@None T)
      by (symmetry; apply nth_error_None; lia).
    reflexivity.
Qed.

Lemma nth_error_combine {A B : Type} (l : list A) (l' : list B) (j : nat) :
  nth_error (combine l l') j
  = match nth_error l j, nth_error l' j with
    | Some u, Some v => Some (u, v)
    | _, _ => None
    end.
Proof.
  revert l' j; induction l as [|u l IH]; intros [|v l'] [|j]; simpl; try reflexivity.
  - now destruct (nth_error l j).
  - apply IH.
Qed.

(** A processed plane of an expression on two clips, when the expression
    computes [f] of the two samples. *)
Lemma norm_expr_plane_map2 (aka : bool) (c0 c1 : VideoNode T) (e : list (token T))
  (planes : list nat) (kwargs : list (string * seq_or T)) (out : VideoNode T) (i : nat)
  (f : T -> T -> T) :
  norm_expr aka [c0; c1] e planes kwargs = Ok out ->
  processed c0 planes i = true -> (i < List.length (data c0))%nat ->
  (forall args ts u, plane_args kwargs i = Ok args -> format_expr e args = Ok ts ->
     (forall u', rpn aka (fun k => match k with
                                   | O => Some u
                                   | S O => Some u'
                                   | _ => None
                                   end)
                     (prop_at [frame_props c0; frame_props c1]) ts [] = Ok (f u u'))
     /\ forall v, rpn aka (fun k => match k with O => Some u | S _ => None end)
                      (prop_at [frame_props c0; frame_props c1]) ts [] <> Ok v) ->
  get_plane out i = plane_map2 f (get_plane c0 i) (get_plane c1 i).
Proof.
  intros Hn Hp Hi Hf. apply norm_expr_inv in Hn. destruct Hn as (_ & _ & _ & Hpl).
  specialize (Hpl i). rewrite Hp, (proj2 (Nat.ltb_lt _ _) Hi) in Hpl. cbn [andb] in Hpl.
  destruct Hpl as (args & ts & Ha & Hts & He). cbn [map] in He.
  apply expr_plane_inv in He. destruct He as (Hw & Hh & Hlen & Hr).
  apply plane_eq; [assumption | assumption |]. cbn [plane_map2 px].
  apply nth_error_ext. intros j. rewrite nth_error_map, nth_error_combine.
  destruct (nth_error (px (get_plane out i)) j) as [v|] eqn:Ev.
  - destruct (nth_error (px (get_plane c0 i)) j) as [u|] eqn:Eu.
    + specialize (Hr j v Ev). destruct (Hf args ts u Ha Hts) as [Hboth Hone].
      destruct (nth_error (px (get_plane c1 i)) j) as [u'|] eqn:Eu'.
      * cbn [option_map fst snd].
        rewrite (rpn_ext aka _ (fun k => match k with
                                         | O => Some u
                                         | S O => Some u'
                                         | _ => None
                                         end)
                   _ (prop_at [frame_props c0; frame_props c1]) ts []) in Hr.
        -- rewrite Hboth in Hr. congruence.
        -- intros [|[|[|k]]]; cbn [sample_at nth_error]; try assumption; reflexivity.
        -- reflexivity.
      * exfalso. apply (Hone v). rewrite <- Hr. apply rpn_ext; [|reflexivity].
        intros [|[|[|k]]]; cbn [sample_at nth_error]; try reflexivity.
        -- now rewrite Eu.
        -- now rewrite Eu'.
    + apply nth_error_None in Eu.
      assert (j < List.length (px (get_plane out i)))%nat
        by (apply nth_error_Some; congruence).
      lia.
  - apply nth_error_None in Ev.
    replace (nth_error (px (get_plane c0 i)) j) with (@None T)
      by (symmetry; apply nth_error_None; lia).
    reflexivity.
Qed.

End Samples.

(** Compute the formatted expression in [Hts : format_expr e args = Ok ts]. *)
Ltac format_eval Hts :=
  cbv -[f_lit f_add f_sub f_mul f_div f_sqrt f_exp f_int plane_average plane_minimum
        get_plane] in Hts;
  inversion Hts; subst; clear Hts.

(** Evaluate an expression in a hypothesis [Hr : rpn ... = Ok v] once the
    samples it reads are known. *)
Ltac rpn_eval Hr :=
  cbn [rpn step bind push binop unop sample_at prop_at nth_error map get_prop
       frame_props stats_average stats_min] in Hr.

(** ** Formats along the chain *)

Section Formats.

Context {T : Type} `{Arith T} `{Collaborators T}.

Lemma processed_format (c c' : VideoNode T) (planes : list nat) (i : nat) :
  format c = format c' -> processed c planes i = processed c' planes i.
Proof. unfold processed. now intros ->. Qed.

Lemma on_planes_keeps_frame (f : nat -> plane T -> plane T) (planes : list nat)
  (c : VideoNode T) :
  format (on_planes f planes c) = format c /\
  frame_props (on_planes f planes c) = frame_props c /\
  List.length (data (on_planes f planes c)) = List.length (data c) /\
  forall i, mem i planes = false -> get_plane (on_planes f planes c) i = get_plane c i.
Proof.
  repeat split; try reflexivity.
  - apply on_planes_length.
  - intros i Hi. rewrite on_planes_get_plane, Hi. reflexivity.
Qed.

Lemma box_blur_keeps_frame (radius : seq_or Z) (planes : list nat) :
  keeps_frame planes (box_blur radius planes).
Proof.
  intros c c' Hb. unfold box_blur in Hb. bind_inv Hb. inversion Hb; subst.
  apply on_planes_keeps_frame.
Qed.

Lemma gauss_blur_keeps_frame (sigma : seq_or T) (planes : list nat) :
  keeps_frame planes (gauss_blur sigma planes).
Proof.
  intros c c' Hb. unfold gauss_blur in Hb. bind_inv Hb. inversion Hb; subst.
  apply on_planes_keeps_frame.
Qed.

Lemma blur_filter_keeps_frame (use_gauss : bool) (r : seq_or Z) (planes : list nat)
  (blur : VideoNode T -> result (VideoNode T)) :
  blur_filter use_gauss r planes = Ok blur -> keeps_frame planes blur.
Proof.
  unfold blur_filter. destruct use_gauss; intros Hb; bind_inv Hb; inversion Hb; subst.
  - apply gauss_blur_keeps_frame.
  - apply box_blur_keeps_frame.
Qed.

Lemma blur_filter_corr_keeps_frame (use_gauss : bool) (planes : list nat) :
  keeps_frame planes (blur_filter_corr use_gauss planes).
Proof.
  unfold blur_filter_corr. destruct use_gauss.
  - apply gauss_blur_keeps_frame.
  - apply box_blur_keeps_frame.
Qed.

Lemma PlaneStats_inv (clip out : VideoNode T) :
  PlaneStats clip 0 = Ok out ->
  format out = format clip /\ data out = data clip /\
  frame_props out = {| stats_average := Some (plane_average (get_plane clip 0));
                       stats_min := Some (plane_minimum (get_plane clip 0)) |}.
Proof.
  unfold PlaneStats. destruct (nth_error (data clip) 0) as [p|] eqn:Ep; [|discriminate].
  intros Ho. inversion Ho; subst; clear Ho. simpl.
  now rewrite (get_plane_nth_error clip 0 p Ep).
Qed.

Lemma PlaneStats_sample (clip out : VideoNode T) (i j : nat) :
  PlaneStats clip 0 = Ok out -> sample out i j = sample clip i j.
Proof.
  intros Ho. apply PlaneStats_inv in Ho. destruct Ho as (_ & Hd & _).
  unfold sample, get_plane. now rewrite Hd.
Qed.

(** The formats of the statistics. *)
Lemma local_statistics_formats (aka : bool) (blur : VideoNode T -> result (VideoNode T))
  (guidance : bool) (p g : VideoNode T) (planes : list nat) (st : statistics T) :
  keeps_frame planes blur ->
  local_statistics aka blur guidance p g planes = Ok st ->
  format (mean_p st) = format p /\ format (I_square st) = format g /\
  format (var_I st) = format g /\ format (cov_Ip st) = format g.
Proof.
  intros Hk Hs. unfold local_statistics in Hs.
  bind_inv Hs. rename v into mp. rename Hm into Hmp.
  bind_inv Hs. rename v into mi. rename Hm into Hmi.
  bind_inv Hs. rename v into sq. rename Hm into Hsq.
  bind_inv Hs. rename v into ci. rename Hm into Hci.
  bind_inv Hs. rename v into cip. rename Hm into Hcip.
  bind_inv Hs. rename v into vi. rename Hm into Hvi.
  bind_inv Hs. rename v into cov. rename Hm into Hcov.
  inversion Hs; subst; clear Hs. simpl.
  pose proof (norm_expr_format _ _ _ _ _ _ _ Hsq) as Fsq.
  destruct (Hk _ _ Hmp) as (Fmp & _).
  destruct (Hk _ _ Hci) as (Fci & _).
  pose proof (norm_expr_format _ _ _ _ _ _ _ Hvi) as Fvi.
  assert (Fcov : format cov = format g).
  { destruct guidance.
    - bind_inv Hcip. destruct (Hk _ _ Hcip) as (Fcip & _).
      pose proof (norm_expr_format _ _ _ _ _ _ _ Hm) as Fgp.
      pose proof (norm_expr_format _ _ _ _ _ _ _ Hcov) as Fc. congruence.
    - inversion Hcov; subst. congruence. }
  repeat split; congruence.
Qed.

End Formats.

(** ** The weights (lines 93-116) *)

Section Weights.

Context {T : Type} `{Arith T} `{Collaborators T}.

Lemma corrective_variance_format (aka use_gauss : bool) (planes : list nat) (r : seq_or Z)
  (st : statistics T) (g v1 : VideoNode T) :
  format (I_square st) = format g -> format (var_I st) = format g ->
  corrective_variance aka use_gauss planes r st g = Ok v1 -> format v1 = format g.
Proof.
  intros Fsq Fv Hc. unfold corrective_variance in Hc.
  destruct (py_eq r (One 1%Z)).
  - inversion Hc; subst. assumption.
  - bind_inv Hc. bind_inv Hc.
    destruct (blur_filter_corr_keeps_frame use_gauss planes _ _ Hm0) as (Fc & _).
    pose proof (norm_expr_format _ _ _ _ _ _ _ Hc). congruence.
Qed.

(** The second branch of line 109 is [norm_expr] on the expression that
    carries the average as a literal. *)
Lemma FrameEval_weight (planes : list nat) (weight_in denominator : VideoNode T)
  (average : T) :
  frame_prop (frame_props denominator) PlaneStatsAverage = Ok average ->
  FrameEval denominator
    (fun f =>
       average <- frame_prop f PlaneStatsAverage ;;
       exprs <- norm_expr_planes weight_in (expr_weight_eval average) planes [] ;;
       Expr false [weight_in] exprs)
    denominator
  = norm_expr false [weight_in] (expr_weight_eval average) planes [].
Proof. intros Hf. unfold FrameEval. rewrite Hf. reflexivity. Qed.

(** What lines 100-116 compute on a processed plane. *)
Lemma weights_spec (aka use_gauss : bool) (mode : GuidedFilterMode) (planes : list nat)
  (r : seq_or Z) (st : statistics T) (g : VideoNode T) (w : weighting T) :
  format (I_square st) = format g -> format (var_I st) = format g ->
  weights aka use_gauss mode planes r st g = Ok w ->
  (mode = WEIGHTED -> weight_in w = var_I_1 w)
  /\ format (weight_in w) = format g
  /\ (mode <> WEIGHTED ->
      forall i j yv y1, processed g planes i = true ->
        sample (var_I st) i j = Some yv -> sample (var_I_1 w) i j = Some y1 ->
        sample (weight_in w) i j = Some (f_sqrt (f_mul yv y1)))
  /\ (forall i j Wv, processed g planes i = true ->
        sample (weight_in w) i j = Some Wv ->
        sample (denominator w) i j
          = Some (f_div (f_lit 1) (f_add Wv (f_lit (1 # 1000000))))
        /\ sample (weight w) i j
           = Some (f_mul (f_add Wv (f_lit (1 # 1000000)))
                         (plane_average (get_plane (denominator w) 0)))).
Proof.
  intros Fsq Fv Hw. unfold weights in Hw.
  bind_inv Hw. rename v into v1. rename Hm into Hv1.
  bind_inv Hw. rename v into win. rename Hm into Hwin.
  bind_inv Hw. rename v into den0. rename Hm into Hden0.
  bind_inv Hw. rename v into den. rename Hm into Hden.
  bind_inv Hw. rename v into wt. rename Hm into Hwt.
  inversion Hw; subst; clear Hw. simpl.
  pose proof (corrective_variance_format _ _ _ _ _ _ _ Fsq Fv Hv1) as Fv1.
  assert (Fwin : format win = format g).
  { destruct mode; try (inversion Hwin; subst; assumption);
      pose proof (norm_expr_format _ _ _ _ _ _ _ Hwin); congruence. }
  destruct (PlaneStats_inv _ _ Hden) as (Fden & Dden & Pden).
  split; [|split; [assumption|split]].
  - intros ->. now inversion Hwin.
  - intros Hmode i j yv y1 Hp Hy Hy1.
    assert (Hn : norm_expr aka [var_I st; v1] expr_weight_in planes [] = Ok win)
      by (destruct mode; [assumption | contradiction | assumption]).
    rewrite <- (processed_format (var_I st) g planes i Fv) in Hp.
    destruct (norm_expr_sample _ _ _ _ _ _ _ _ _ _ Hn Hp Hy)
      as (args & ts & v & Ha & Hts & Hv & Hr).
    rewrite plane_args_nil in Ha. inversion Ha; subst args. format_eval Hts.
    unfold sample in Hy, Hy1. rpn_eval Hr. rewrite Hy, Hy1 in Hr. rpn_eval Hr.
    inversion Hr; subst. assumption.
  - intros i j Wv Hp HW.
    rewrite <- (processed_format win g planes i Fwin) in Hp.
    destruct (norm_expr_sample _ _ _ _ _ _ _ _ _ _ Hden0 Hp HW)
      as (args & ts & v & Ha & Hts & Hv & Hr).
    apply plane_args_One in Ha. subst args. format_eval Hts.
    pose proof HW as HW'. unfold sample in HW'.
    rpn_eval Hr. rewrite HW' in Hr. rpn_eval Hr. inversion Hr; subst v; clear Hr.
    split.
    + rewrite (PlaneStats_sample _ _ i j Hden). assumption.
    + assert (Hg0 : get_plane den 0 = get_plane den0 0)
        by (unfold get_plane; now rewrite Dden).
      rewrite Hg0.
      destruct aka.
      * destruct (norm_expr_sample _ _ _ _ _ _ _ _ _ _ Hwt Hp HW)
          as (args & ts & v & Ha & Hts & Hv' & Hr).
        rewrite plane_args_nil in Ha. inversion Ha; subst args. format_eval Hts.
        rpn_eval Hr. rewrite HW', Pden in Hr. rpn_eval Hr.
        inversion Hr; subst. assumption.
      * rewrite (FrameEval_weight planes win den (plane_average (get_plane den0 0))) in Hwt
          by (now rewrite Pden).
        destruct (norm_expr_sample _ _ _ _ _ _ _ _ _ _ Hwt Hp HW)
          as (args & ts & v & Ha & Hts & Hv' & Hr).
        rewrite plane_args_nil in Ha. inversion Ha; subst args. format_eval Hts.
        rpn_eval Hr. rewrite HW' in Hr. rpn_eval Hr.
        inversion Hr; subst. assumption.
Qed.

(** Lines 100-107 on a processed plane [i]: the whole plane of the weight
    source and of [denominator], which is the plane that [PlaneStats]
    reduces when [i] is 0. *)
Lemma weights_planes (aka use_gauss : bool) (mode : GuidedFilterMode) (planes : list nat)
  (r : seq_or Z) (st : statistics T) (g : VideoNode T) (w : weighting T) (i : nat) :
  format (I_square st) = format g -> format (var_I st) = format g ->
  weights aka use_gauss mode planes r st g = Ok w ->
  processed g planes i = true -> (i < List.length (data (weight_in w)))%nat ->
  (mode <> WEIGHTED ->
   get_plane (weight_in w) i
   = plane_map2 (fun yv y1 => f_sqrt (f_mul yv y1))
       (get_plane (var_I st) i) (get_plane (var_I_1 w) i))
  /\ get_plane (denominator w) i
     = plane_map (fun Wv => f_div (f_lit 1) (f_add Wv (f_lit (1 # 1000000))))
         (get_plane (weight_in w) i).
Proof.
  intros Fsq Fv Hw Hp Hi. unfold weights in Hw.
  bind_inv Hw. rename v into v1. rename Hm into Hv1.
  bind_inv Hw. rename v into win. rename Hm into Hwin.
  bind_inv Hw. rename v into den0. rename Hm into Hden0.
  bind_inv Hw. rename v into den. rename Hm into Hden.
  bind_inv Hw. rename v into wt. rename Hm into Hwt.
  inversion Hw; subst; clear Hw. cbn [weight_in var_I_1 denominator] in *.
  pose proof (corrective_variance_format _ _ _ _ _ _ _ Fsq Fv Hv1) as Fv1.
  assert (Fwin : format win = format g).
  { destruct mode; try (inversion Hwin; subst; assumption);
      pose proof (norm_expr_format _ _ _ _ _ _ _ Hwin); congruence. }
  destruct (PlaneStats_inv _ _ Hden) as (_ & Dden & _).
  split.
  - intros Hmode.
    assert (Hn : norm_expr aka [var_I st; v1] expr_weight_in planes [] = Ok win)
      by (destruct mode; [assumption | contradiction | assumption]).
    apply (norm_expr_plane_map2 aka (var_I st) v1 expr_weight_in planes [] win i
             (fun yv y1 => f_sqrt (f_mul yv y1)) Hn).
    + rewrite <- Hp. apply processed_format. assumption.
    + pose proof Hn as Hinv. apply norm_expr_inv in Hinv.
      destruct Hinv as (_ & _ & Hlen & _). now rewrite <- Hlen.
    + intros args ts u Ha Hts. rewrite plane_args_nil in Ha. inversion Ha; subst args.
      format_eval Hts. split.
      * intros u'. reflexivity.
      * intros v Hr. discriminate Hr.
  - assert (Hg : get_plane den i = get_plane den0 i)
      by (unfold get_plane; now rewrite Dden).
    rewrite Hg.
    apply (norm_expr_plane_map aka win expr_denominator planes
             [("eps"%string, One (f_lit (1 # 1000000)))] den0 i
             (fun Wv => f_div (f_lit 1) (f_add Wv (f_lit (1 # 1000000)))) Hden0).
    + rewrite <- Hp. apply processed_format. assumption.
    + assumption.
    + intros args ts u Ha Hts. apply plane_args_One in Ha. subst args.
      format_eval Hts. reflexivity.
Qed.

(** When [weights] returns, the clips have a first plane. *)
Lemma weights_first_plane_exists (aka use_gauss : bool) (mode : GuidedFilterMode)
  (planes : list nat) (r : seq_or Z) (st : statistics T) (g : VideoNode T)
  (w : weighting T) :
  weights aka use_gauss mode planes r st g = Ok w ->
  (0 < List.length (data (weight_in w)))%nat.
Proof.
  intros Hw. unfold weights in Hw.
  bind_inv Hw. rename v into v1. rename Hm into Hv1.
  bind_inv Hw. rename v into win. rename Hm into Hwin.
  bind_inv Hw. rename v into den0. rename Hm into Hden0.
  bind_inv Hw. rename v into den. rename Hm into Hden.
  bind_inv Hw. inversion Hw; subst; clear Hw. cbn [weight_in].
  apply norm_expr_inv in Hden0. destruct Hden0 as (_ & _ & Hlen & _).
  rewrite <- Hlen. unfold PlaneStats in Hden.
  destruct (nth_error (data den0) 0) as [p|] eqn:Ep; [|discriminate].
  apply nth_error_Some. congruence.
Qed.

End Weights.

(** ** The coefficients (lines 90-142) *)

Section Coefficients.

Context {T : Type} `{Arith T} `{Collaborators T}.

(** The steps of a successful run up to line 142. *)
Lemma solve_inv (aka : bool) (clip : VideoNode T) (guidance : option (VideoNode T))
  (radius : option Z) (thr : T) (regulation : option (list T)) (mode : GuidedFilterMode)
  (use_gauss : bool) (planes : PlanesT) (range_in : option ColorRange) (down_ratio : Z)
  (downscaler : Scaler) (sol : solution T) :
  solve aka clip guidance radius thr regulation mode use_gauss planes range_in down_ratio
    downscaler = Ok sol ->
  let s := sol_setup sol in
  let st := sol_stats sol in
  prepare clip guidance radius thr regulation planes range_in down_ratio downscaler = Ok s
  /\ blur_filter use_gauss (s_r s) (s_planes s) = Ok (sol_blur sol)
  /\ local_statistics aka (sol_blur sol) (is_not_None guidance) (s_p s) (s_g s) (s_planes s)
     = Ok st
  /\ slope aka use_gauss mode (s_planes s) (s_r s) (s_eps s) st (s_g s) = Ok (coef_a sol)
  /\ norm_expr aka [mean_p st; coef_a sol; mean_I st] expr_b (s_planes s) []
     = Ok (coef_b sol).
Proof.
  unfold solve. intros Hs. repeat bind_inv Hs. inversion Hs; subst; clear Hs. simpl.
  auto.
Qed.

(** C5, as amended: in every mode [b = mean_p - a * mean_I]; in WEIGHTED
    mode the weight source is [var_I_1], [weight = (W + 1e-6) * mu] and
    [a = cov_Ip / (var_I + eps / weight)] on every processed plane, where
    [mu] is one scalar for all of them, the average of the first plane of
    the clip [denominator]; when the first plane is processed, that plane is
    [denom = 1 / (W + 1e-6)] at every sample. *)
Theorem weighted_slope_and_intercept (aka : bool) (clip : VideoNode T)
  (guidance : option (VideoNode T)) (radius : option Z) (thr : T)
  (regulation : option (list T)) (mode : GuidedFilterMode) (use_gauss : bool)
  (planes : PlanesT) (range_in : option ColorRange) (down_ratio : Z)
  (downscaler : Scaler) (sol : solution T) :
  solve aka clip guidance radius thr regulation mode use_gauss planes range_in down_ratio
    downscaler = Ok sol ->
  let s := sol_setup sol in
  let st := sol_stats sol in
  (forall i j mp av mi,
     processed (s_p s) (s_planes s) i = true ->
     sample (mean_p st) i j = Some mp -> sample (coef_a sol) i j = Some av ->
     sample (mean_I st) i j = Some mi ->
     sample (coef_b sol) i j = Some (f_sub mp (f_mul av mi)))
  /\ (mode = WEIGHTED ->
      exists w,
        weights aka use_gauss WEIGHTED (s_planes s) (s_r s) st (s_g s) = Ok w
        /\ weight_in w = var_I_1 w
        /\ (processed (s_g s) (s_planes s) 0 = true ->
            get_plane (denominator w) 0
            = plane_map (fun Wv => f_div (f_lit 1) (f_add Wv (f_lit (1 # 1000000))))
                (get_plane (var_I_1 w) 0))
        /\ forall i j, processed (s_g s) (s_planes s) i = true ->
             (forall Wv, sample (var_I_1 w) i j = Some Wv ->
                sample (denominator w) i j
                  = Some (f_div (f_lit 1) (f_add Wv (f_lit (1 # 1000000))))
                /\ sample (weight w) i j
                   = Some (f_mul (f_add Wv (f_lit (1 # 1000000)))
                                 (plane_average (get_plane (denominator w) 0))))
             /\ (forall xv yv zv eps,
                   sample (cov_Ip st) i j = Some xv -> sample (var_I st) i j = Some yv ->
                   sample (weight w) i j = Some zv -> nth_error (s_eps s) i = Some eps ->
                   sample (coef_a sol) i j
                     = Some (f_div xv (f_add yv (f_div eps zv))))).
Proof.
  intros Hs s st. apply solve_inv in Hs. fold s st in Hs.
  destruct Hs as (Hp & Hb & Hst & Ha & Hcb).
  pose proof (blur_filter_keeps_frame _ _ _ _ Hb) as Hk.
  destruct (local_statistics_formats _ _ _ _ _ _ _ Hk Hst) as (Fmp & Fsq & Fv & Fcov).
  split.
  - intros i j mp av mi Hi Hmp Hav Hmi.
    rewrite <- (processed_format (mean_p st) (s_p s) _ i Fmp) in Hi.
    destruct (norm_expr_sample _ _ _ _ _ _ _ _ _ _ Hcb Hi Hmp)
      as (args & ts & v & Hargs & Hts & Hv & Hr).
    rewrite plane_args_nil in Hargs. inversion Hargs; subst args. format_eval Hts.
    unfold sample in Hmp, Hav, Hmi. rpn_eval Hr. rewrite Hmp, Hav, Hmi in Hr.
    rpn_eval Hr. inversion Hr; subst. assumption.
  - intros ->. unfold slope in Ha. bind_inv Ha. rename v into w.
    exists w. split; [assumption|].
    destruct (weights_spec _ _ _ _ _ _ _ _ Fsq Fv Hm) as (Hwin & Fwin & _ & Hden).
    split; [now apply Hwin|]. split.
    + intros Hfirst. rewrite <- (Hwin eq_refl).
      exact (proj2 (weights_planes _ _ _ _ _ _ _ _ 0 Fsq Fv Hm Hfirst
                      (weights_first_plane_exists _ _ _ _ _ _ _ _ Hm))).
    + intros i j Hi. split.
      * intros Wv HW. apply Hden; [assumption|]. now rewrite Hwin.
      * intros xv yv zv eps Hx Hy Hz He.
        rewrite <- (processed_format (cov_Ip st) (s_g s) _ i Fcov) in Hi.
        destruct (norm_expr_sample _ _ _ _ _ _ _ _ _ _ Ha Hi Hx)
          as (args & ts & v & Hargs & Hts & Hv & Hr).
        apply plane_args_Many in Hargs. destruct Hargs as (e' & -> & He').
        rewrite (He' _ He) in Hts. format_eval Hts.
        unfold sample in Hx, Hy, Hz. rpn_eval Hr. rewrite Hx, Hy, Hz in Hr.
        rpn_eval Hr. inversion Hr; subst. assumption.
Qed.

End Coefficients.

(** ** The GRADIENT mode (lines 121-140) *)

Section Gradient.

Context {T : Type} `{Arith T} `{Collaborators T}.

Lemma plane_args_cons (key : string) (val : seq_or T) (kwargs : list (string * seq_or T))
  (i : nat) (args : list (string * T)) :
  plane_args ((key, val) :: kwargs) i = Ok args ->
  exists vs u rest,
    normalize_seq val 3 = Ok vs /\ nth_error vs i = Some u /\
    plane_args kwargs i = Ok rest /\ args = (key, u) :: rest.
Proof.
  unfold plane_args. cbn [mapM snd fst]. intros Ha.
  destruct (normalize_seq val 3) as [vs|] eqn:Ev; [|discriminate]. cbn [bind] in Ha.
  destruct (mapM _ kwargs) as [sa|] eqn:Es; [|discriminate].
  cbn [bind mapM snd fst] in Ha.
  destruct (nth_error vs i) as [u|] eqn:Eu; [|discriminate].
  destruct (mapM _ sa) as [rest|] eqn:Er; [|discriminate].
  inversion Ha; subst; clear Ha.
  exists vs, u, rest. cbn [bind]. auto.
Qed.

Lemma normalize_seq_One_nth_error (c u : T) (vs : list T) (n i : nat) :
  normalize_seq (One c) n = Ok vs -> nth_error vs i = Some u -> u = c.
Proof.
  rewrite normalize_seq_One. intros Hv Hu. inversion Hv; subst; clear Hv.
  apply nth_error_In, repeat_spec in Hu. assumption.
Qed.

(** The slope of the GRADIENT mode on a processed plane, for both
    evaluators: they differ by the constant [k]. *)
Lemma gradient_slope_spec (aka use_gauss : bool) (planes : list nat) (r : seq_or Z)
  (eps : list T) (st : statistics T) (g a_out : VideoNode T) :
  format (I_square st) = format g -> format (var_I st) = format g ->
  format (cov_Ip st) = format g ->
  slope aka use_gauss GRADIENT planes r eps st g = Ok a_out ->
  exists w,
    weights aka use_gauss GRADIENT planes r st g = Ok w
    /\ let average := plane_average (get_plane (weight_in w) 0) in
       let minimum := plane_minimum (get_plane (weight_in w) 0) in
       let k := if aka then k_akarin minimum average else k_python minimum average in
       forall i j xv Wv zv yv e,
         processed g planes i = true ->
         sample (cov_Ip st) i j = Some xv -> sample (weight_in w) i j = Some Wv ->
         sample (weight w) i j = Some zv -> sample (var_I st) i j = Some yv ->
         nth_error eps i = Some e ->
         sample a_out i j = Some (gradient_a k average e xv Wv zv yv).
Proof.
  intros Fsq Fv Fcov Ha. unfold slope in Ha. bind_inv Ha. rename v into w.
  bind_inv Ha. rename v into win. rename Hm0 into Hwin.
  exists w. split; [assumption|].
  intros average minimum k i j xv Wv zv yv e Hi Hx HW Hz Hy He.
  destruct (PlaneStats_inv _ _ Hwin) as (Fwin & Dwin & Pwin).
  rewrite <- (PlaneStats_sample _ _ i j Hwin) in HW.
  rewrite <- (processed_format (cov_Ip st) g planes i Fcov) in Hi.
  unfold sample in Hx, HW, Hz, Hy.
  destruct aka.
  - destruct (norm_expr_sample _ _ _ _ _ _ _ _ _ _ Ha Hi Hx)
      as (args & ts & v & Hargs & Hts & Hv & Hr).
    apply plane_args_Many in Hargs. destruct Hargs as (e' & -> & He').
    rewrite (He' _ He) in Hts. format_eval Hts.
    rpn_eval Hr. rewrite Hx, HW, Hz, Hy, Pwin in Hr. rpn_eval Hr.
    inversion Hr; subst. assumption.
  - unfold FrameEval, _gradient in Ha. rewrite Pwin in Ha.
    cbn [frame_prop get_prop stats_average stats_min bind] in Ha.
    destruct (norm_expr_sample _ _ _ _ _ _ _ _ _ _ Ha Hi Hx)
      as (args & ts & v & Hargs & Hts & Hv & Hr).
    apply plane_args_cons in Hargs.
    destruct Hargs as (vs1 & u1 & rest1 & Hn1 & Hu1 & Hargs & ->).
    apply plane_args_cons in Hargs.
    destruct Hargs as (vs2 & u2 & rest2 & Hn2 & Hu2 & Hargs & ->).
    apply plane_args_One in Hargs. subst rest2.
    rewrite (normalize_seq_nth_error _ _ _ _ _ _ Hn1 Hu1 He) in Hts.
    rewrite (normalize_seq_One_nth_error _ _ _ _ _ Hn2 Hu2) in Hts.
    format_eval Hts.
    rpn_eval Hr. rewrite Hx, HW, Hz, Hy in Hr. rpn_eval Hr.
    inversion Hr; subst. assumption.
Qed.

End Gradient.

Section GradientClaim.

Context {T : Type} `{Arith T} `{Collaborators T}.

(** C7, as amended: in GRADIENT mode the weight source is
    [W = sqrt(var_I * var_I_1)]; after the weight, the average and the
    minimum of the first plane of the clip [weight_in] are reduced and used
    on every processed plane; when the first plane is processed, that plane
    is [W] at every sample; on every processed plane the slope is
    [(cov_Ip + eps * (1 - 1/(1+exp(k*(W-alpha)))) / weight) / (var_I + eps / weight)]
    with [alpha] that average, and [k = -4 / (min - average - 1e-6)] when the
    Python callback evaluates it ([aka_expr_available] false). *)
Theorem gradient_slope_first_plane_statistics (aka : bool) (clip : VideoNode T)
  (guidance : option (VideoNode T)) (radius : option Z) (thr : T)
  (regulation : option (list T)) (use_gauss : bool) (planes : PlanesT)
  (range_in : option ColorRange) (down_ratio : Z) (downscaler : Scaler) (sol : solution T) :
  solve aka clip guidance radius thr regulation GRADIENT use_gauss planes range_in
    down_ratio downscaler = Ok sol ->
  let s := sol_setup sol in
  let st := sol_stats sol in
  exists w k,
    weights aka use_gauss GRADIENT (s_planes s) (s_r s) st (s_g s) = Ok w
    /\ let alpha := plane_average (get_plane (weight_in w) 0) in
       (aka = false -> k = k_python (plane_minimum (get_plane (weight_in w) 0)) alpha)
       /\ (processed (s_g s) (s_planes s) 0 = true ->
           get_plane (weight_in w) 0
           = plane_map2 (fun yv y1 => f_sqrt (f_mul yv y1))
               (get_plane (var_I st) 0) (get_plane (var_I_1 w) 0))
       /\ forall i j, processed (s_g s) (s_planes s) i = true ->
            (forall yv y1,
               sample (var_I st) i j = Some yv -> sample (var_I_1 w) i j = Some y1 ->
               sample (weight_in w) i j = Some (f_sqrt (f_mul yv y1)))
            /\ (forall Wv, sample (weight_in w) i j = Some Wv ->
                  sample (weight w) i j
                  = Some (f_mul (f_add Wv (f_lit (1 # 1000000)))
                                (plane_average (get_plane (denominator w) 0))))
            /\ (forall xv Wv zv yv e,
                  sample (cov_Ip st) i j = Some xv -> sample (weight_in w) i j = Some Wv ->
                  sample (weight w) i j = Some zv -> sample (var_I st) i j = Some yv ->
                  nth_error (s_eps s) i = Some e ->
                  sample (coef_a sol) i j = Some (gradient_a k alpha e xv Wv zv yv)).
Proof.
  intros Hs s st. apply solve_inv in Hs. fold s st in Hs.
  destruct Hs as (Hp & Hb & Hst & Ha & Hcb).
  pose proof (blur_filter_keeps_frame _ _ _ _ Hb) as Hk.
  destruct (local_statistics_formats _ _ _ _ _ _ _ Hk Hst) as (Fmp & Fsq & Fv & Fcov).
  destruct (gradient_slope_spec _ _ _ _ _ _ _ _ Fsq Fv Fcov Ha) as (w & Hw & Hform).
  destruct (weights_spec _ _ _ _ _ _ _ _ Fsq Fv Hw) as (_ & _ & Hsqrt & Hden).
  exists w.
  exists (if aka
          then k_akarin (plane_minimum (get_plane (weight_in w) 0))
                        (plane_average (get_plane (weight_in w) 0))
          else k_python (plane_minimum (get_plane (weight_in w) 0))
                        (plane_average (get_plane (weight_in w) 0))).
  split; [assumption|]. split; [now intros ->|]. split.
  - intros Hfirst.
    exact (proj1 (weights_planes _ _ _ _ _ _ _ _ 0 Fsq Fv Hw Hfirst
                    (weights_first_plane_exists _ _ _ _ _ _ _ _ Hw))
             ltac:(discriminate)).
  - intros i j Hi. split; [|split].
    + intros yv y1 Hy Hy1. apply (Hsqrt ltac:(discriminate) i j yv y1 Hi Hy Hy1).
    + intros Wv HW. apply (Hden i j Wv Hi HW).
    + intros xv Wv zv yv e Hx HW Hz Hy He. now apply Hform.
Qed.

End GradientClaim.

(** ** Planes that are not selected *)

Section Passthrough.

Context {T : Type} `{Arith T} `{Collaborators T}.

Lemma not_mem_not_processed (c : VideoNode T) (planes : list nat) (i : nat) :
  mem i planes = false -> processed c planes i = false.
Proof. unfold processed. now intros ->. Qed.

(** What [prepare] leaves in the local variables. *)
Lemma prepare_inv (clip : VideoNode T) (guidance : option (VideoNode T))
  (radius : option Z) (thr : T) (regulation : option (list T)) (planes : PlanesT)
  (range_in : option ColorRange) (down_ratio : Z) (downscaler : Scaler) (s : setup T) :
  prepare clip guidance radius thr regulation planes range_in down_ratio downscaler = Ok s ->
  down_ratio = 0%Z
  /\ s_planes s = normalize_planes clip planes
  /\ s_p s = fst (expect_bits clip 32)
  /\ s_bits s = snd (expect_bits clip 32)
  /\ s_guidance_clip s = match guidance with
                         | Some gd => depth gd 32
                         | None => fst (expect_bits clip 32)
                         end
  /\ s_g s = s_guidance_clip s.
Proof.
  intros Hp. destruct (prepare_r_is_list _ _ _ _ _ _ _ _ _ _ Hp) as (Hz & _).
  subst down_ratio. unfold prepare in Hp.
  bind_inv Hp. bind_inv Hp. destruct (expect_bits clip 32) as [p bits].
  bind_inv Hp. bind_inv Hp. cbn [Z.eqb] in Hp. inversion Hp; subst; clear Hp. simpl.
  repeat split.
Qed.

Lemma local_statistics_passthrough (aka : bool)
  (blur : VideoNode T -> result (VideoNode T)) (guidance : bool) (p g : VideoNode T)
  (planes : list nat) (st : statistics T) (i : nat) :
  keeps_frame planes blur ->
  local_statistics aka blur guidance p g planes = Ok st ->
  mem i planes = false ->
  get_plane (cov_Ip st) i = get_plane g i.
Proof.
  intros Hk Hs Hi. unfold local_statistics in Hs.
  bind_inv Hs. rename v into mp. rename Hm into Hmp.
  bind_inv Hs. rename v into mi. rename Hm into Hmi.
  bind_inv Hs. rename v into sq. rename Hm into Hsq.
  bind_inv Hs. rename v into ci. rename Hm into Hci.
  bind_inv Hs. rename v into cip. rename Hm into Hcip.
  bind_inv Hs. rename v into vi. rename Hm into Hvi.
  bind_inv Hs. rename v into cov. rename Hm into Hcov.
  inversion Hs; subst; clear Hs. simpl.
  destruct guidance.
  - bind_inv Hcip. rename v into gp.
    rewrite (norm_expr_passthrough _ _ _ _ _ _ _ i Hcov (not_mem_not_processed _ _ _ Hi)).
    destruct (Hk _ _ Hcip) as (_ & _ & _ & Hkeep). rewrite (Hkeep i Hi).
    apply (norm_expr_passthrough _ _ _ _ _ _ _ i Hm (not_mem_not_processed _ _ _ Hi)).
  - inversion Hcov; subst cov; clear Hcov. inversion Hcip; subst cip; clear Hcip.
    rewrite (norm_expr_passthrough _ _ _ _ _ _ _ i Hvi (not_mem_not_processed _ _ _ Hi)).
    destruct (Hk _ _ Hci) as (_ & _ & _ & Hkeep). rewrite (Hkeep i Hi).
    apply (norm_expr_passthrough _ _ _ _ _ _ _ i Hsq (not_mem_not_processed _ _ _ Hi)).
Qed.

Lemma slope_passthrough (aka use_gauss : bool) (mode : GuidedFilterMode)
  (planes : list nat) (r : seq_or Z) (eps : list T) (st : statistics T)
  (g a_out : VideoNode T) (i : nat) :
  slope aka use_gauss mode planes r eps st g = Ok a_out ->
  mem i planes = false ->
  get_plane a_out i = get_plane (cov_Ip st) i.
Proof.
  intros Ha Hi. pose proof (not_mem_not_processed (cov_Ip st) planes i Hi) as Hn.
  unfold slope in Ha. destruct mode.
  - apply (norm_expr_passthrough _ _ _ _ _ _ _ i Ha Hn).
  - bind_inv Ha. apply (norm_expr_passthrough _ _ _ _ _ _ _ i Ha Hn).
  - bind_inv Ha. bind_inv Ha. destruct aka.
    + apply (norm_expr_passthrough _ _ _ _ _ _ _ i Ha Hn).
    + unfold FrameEval, _gradient in Ha. bind_inv Ha. bind_inv Ha.
      apply (norm_expr_passthrough _ _ _ _ _ _ _ i Ha Hn).
Qed.

(** C8, on the code: at working precision, a plane that [planes] does not
    select comes out as the plane of the GUIDANCE clip ([depth(guidance, 32)]
    when a guidance is given); it is the plane of the input only when the
    clip is filtered by itself. *)
Theorem unselected_plane_is_guidance_plane (aka : bool) (clip : VideoNode T)
  (guidance : option (VideoNode T)) (radius : option Z) (thr : T)
  (regulation : option (list T)) (mode : GuidedFilterMode) (use_gauss : bool)
  (planes : PlanesT) (range_in : option ColorRange) (down_ratio : Z)
  (downscaler upscaler : Scaler) (q : VideoNode T) (bits : Z) (i : nat) :
  guided_filter_q aka clip guidance radius thr regulation mode use_gauss planes range_in
    down_ratio downscaler upscaler = Ok (q, bits) ->
  mem i (normalize_planes clip planes) = false ->
  get_plane q i = get_plane (match guidance with
                             | Some gd => depth gd 32
                             | None => fst (expect_bits clip 32)
                             end) i.
Proof.
  intros Hq Hi. unfold guided_filter_q in Hq.
  bind_inv Hq. rename v into sol. rename Hm into Hsol.
  bind_inv Hq. rename v into mean_a. rename Hm into Hma.
  bind_inv Hq. rename v into mean_b. rename Hm into Hmb.
  bind_inv Hq. inversion Hq; subst; clear Hq.
  apply solve_inv in Hsol. destruct Hsol as (Hp & Hb & Hst & Ha & Hcb).
  destruct (prepare_inv _ _ _ _ _ _ _ _ _ _ Hp) as (Hz & Hpl & _ & _ & Hgc & Hg).
  subst down_ratio. cbn [Z.eqb] in Hm. rewrite <- Hpl in Hi.
  pose proof (blur_filter_keeps_frame _ _ _ _ Hb) as Hk.
  rewrite (norm_expr_passthrough _ _ _ _ _ _ _ i Hm (not_mem_not_processed _ _ _ Hi)).
  destruct (Hk _ _ Hma) as (_ & _ & _ & Hkeep). rewrite (Hkeep i Hi).
  rewrite (slope_passthrough _ _ _ _ _ _ _ _ _ i Ha Hi).
  rewrite (local_statistics_passthrough _ _ _ _ _ _ _ i Hk Hst Hi).
  now rewrite Hg, Hgc.
Qed.

End Passthrough.

(** ** The statistics when the first plane is not selected *)

Section Unselected.

Context {T : Type} `{Arith T} `{Collaborators T}.

Lemma local_statistics_unselected (aka : bool)
  (blur : VideoNode T -> result (VideoNode T)) (guidance : bool) (p g : VideoNode T)
  (planes : list nat) (st : statistics T) (i : nat) :
  keeps_frame planes blur ->
  local_statistics aka blur guidance p g planes = Ok st ->
  mem i planes = false ->
  get_plane (I_square st) i = get_plane g i /\ get_plane (var_I st) i = get_plane g i.
Proof.
  intros Hk Hs Hi. unfold local_statistics in Hs.
  bind_inv Hs. rename v into mp. rename Hm into Hmp.
  bind_inv Hs. rename v into mi. rename Hm into Hmi.
  bind_inv Hs. rename v into sq. rename Hm into Hsq.
  bind_inv Hs. rename v into ci. rename Hm into Hci.
  bind_inv Hs. rename v into cip. rename Hm into Hcip.
  bind_inv Hs. rename v into vi. rename Hm into Hvi.
  bind_inv Hs. inversion Hs; subst; clear Hs. cbn [I_square var_I].
  pose proof (norm_expr_passthrough _ _ _ _ _ _ _ i Hsq (not_mem_not_processed _ _ _ Hi))
    as Esq.
  split; [assumption|].
  rewrite (norm_expr_passthrough _ _ _ _ _ _ _ i Hvi (not_mem_not_processed _ _ _ Hi)).
  destruct (Hk _ _ Hci) as (_ & _ & _ & Hkeep). now rewrite (Hkeep i Hi).
Qed.

(** On a plane that is not selected, the weight source and [denominator]
    are the plane of the guidance clip: lines 96-105 leave it alone. *)
Lemma weights_unselected (aka use_gauss : bool) (mode : GuidedFilterMode)
  (planes : list nat) (r : seq_or Z) (st : statistics T) (g : VideoNode T)
  (w : weighting T) (i : nat) :
  weights aka use_gauss mode planes r st g = Ok w ->
  mem i planes = false ->
  get_plane (I_square st) i = get_plane g i -> get_plane (var_I st) i = get_plane g i ->
  get_plane (weight_in w) i = get_plane g i /\ get_plane (denominator w) i = get_plane g i.
Proof.
  intros Hw Hi Esq Ev. unfold weights in Hw.
  bind_inv Hw. rename v into v1. rename Hm into Hv1.
  bind_inv Hw. rename v into win. rename Hm into Hwin.
  bind_inv Hw. rename v into den0. rename Hm into Hden0.
  bind_inv Hw. rename v into den. rename Hm into Hden.
  bind_inv Hw. inversion Hw; subst; clear Hw. cbn [weight_in denominator].
  assert (E1 : get_plane v1 i = get_plane g i).
  { unfold corrective_variance in Hv1. destruct (py_eq r (One 1%Z)).
    - inversion Hv1; subst. assumption.
    - apply bind_Ok in Hv1. destruct Hv1 as (m1 & Hm1 & Hv1).
      apply bind_Ok in Hv1. destruct Hv1 as (c1 & Hc1 & Hv1).
      rewrite (norm_expr_passthrough _ _ _ _ _ _ _ i Hv1 (not_mem_not_processed _ _ _ Hi)).
      destruct (blur_filter_corr_keeps_frame use_gauss planes _ _ Hc1) as (_ & _ & _ & Hkeep).
      now rewrite (Hkeep i Hi). }
  assert (Ewin : get_plane win i = get_plane g i).
  { destruct mode; try (inversion Hwin; subst; assumption);
      rewrite (norm_expr_passthrough _ _ _ _ _ _ _ i Hwin (not_mem_not_processed _ _ _ Hi));
      assumption. }
  split; [assumption|].
  destruct (PlaneStats_inv _ _ Hden) as (_ & Dden & _).
  assert (Hg : get_plane den i = get_plane den0 i) by (unfold get_plane; now rewrite Dden).
  rewrite Hg.
  now rewrite (norm_expr_passthrough _ _ _ _ _ _ _ i Hden0 (not_mem_not_processed _ _ _ Hi)).
Qed.

(** When the first plane is not selected, the statistics of lines 107 and
    121 are reduced from the first plane of the guidance clip as it came in,
    not from [denom] or [W]. *)
Lemma statistics_of_unselected_first_plane (aka : bool) (clip : VideoNode T)
  (guidance : option (VideoNode T)) (radius : option Z) (thr : T)
  (regulation : option (list T)) (mode : GuidedFilterMode) (use_gauss : bool)
  (planes : PlanesT) (range_in : option ColorRange) (down_ratio : Z)
  (downscaler : Scaler) (sol : solution T) (w : weighting T) :
  solve aka clip guidance radius thr regulation mode use_gauss planes range_in down_ratio
    downscaler = Ok sol ->
  weights aka use_gauss mode (s_planes (sol_setup sol)) (s_r (sol_setup sol))
    (sol_stats sol) (s_g (sol_setup sol)) = Ok w ->
  mem 0 (s_planes (sol_setup sol)) = false ->
  get_plane (weight_in w) 0 = get_plane (s_g (sol_setup sol)) 0
  /\ get_plane (denominator w) 0 = get_plane (s_g (sol_setup sol)) 0.
Proof.
  intros Hs Hw H0'. apply solve_inv in Hs. destruct Hs as (_ & Hb & Hst & _ & _).
  pose proof (blur_filter_keeps_frame _ _ _ _ Hb) as Hk.
  destruct (local_statistics_unselected _ _ _ _ _ _ _ 0 Hk Hst H0') as (Esq & Ev).
  exact (weights_unselected _ _ _ _ _ _ _ _ 0 Hw H0' Esq Ev).
Qed.

End Unselected.

(** ** The geometry of the output *)

Section Geometry.

Context {T : Type} `{Arith T} `{Collaborators T}.

Hypothesis kept : geometry_kept.

Lemma format_eqb_eq (f g : VideoFormat) : format_eqb f g = true -> f = g.
Proof.
  unfold format_eqb. intros He.
  apply andb_prop in He. destruct He as [He Hb].
  apply andb_prop in He. destruct He as [He Hh].
  apply andb_prop in He. destruct He as [Hn Hw].
  apply Nat.eqb_eq in Hn. apply N.eqb_eq in Hw. apply N.eqb_eq in Hh.
  apply Z.eqb_eq in Hb. destruct f, g; simpl in *; congruence.
Qed.

Lemma with_bits_same (f : VideoFormat) : with_bits f (bits_per_sample f) = f.
Proof. now destruct f. Qed.

Lemma with_bits_twice (f : VideoFormat) (b b' : Z) :
  with_bits (with_bits f b) b' = with_bits f b'.
Proof. reflexivity. Qed.

Lemma on_planes_dimensions (f : nat -> plane T -> plane T) (planes : list nat)
  (c : VideoNode T) :
  (forall i p, pw (f i p) = pw p /\ ph (f i p) = ph p) ->
  dimensions (on_planes f planes c) = dimensions c.
Proof.
  intros Hf. unfold dimensions, on_planes. cbn [data].
  apply nth_error_ext. intros i. rewrite nth_error_map, nth_error_indexed, nth_error_map.
  destruct (nth_error (data c) i) as [p|]; [|reflexivity]. cbn [option_map fst snd].
  destruct (mem (0 + i) planes); [|reflexivity].
  destruct (Hf (0 + i)%nat p) as [-> ->]. reflexivity.
Qed.

Lemma blur_filter_geometry (use_gauss : bool) (r : seq_or Z) (planes : list nat)
  (blur : VideoNode T -> result (VideoNode T)) (c c' : VideoNode T) :
  blur_filter use_gauss r planes = Ok blur -> blur c = Ok c' ->
  geometry c' = geometry c.
Proof.
  destruct kept as (_ & Hbox & Hgauss).
  unfold blur_filter. destruct use_gauss; intros Hb Hc; bind_inv Hb;
    inversion Hb; subst blur; clear Hb.
  - unfold gauss_blur in Hc. bind_inv Hc. inversion Hc; subst c'; clear Hc.
    unfold geometry. f_equal. apply (on_planes_dimensions _ planes c).
    intros i p. apply Hgauss.
  - unfold box_blur in Hc. bind_inv Hc. inversion Hc; subst c'; clear Hc.
    unfold geometry. f_equal. apply (on_planes_dimensions _ planes c).
    intros i p. apply Hbox.
Qed.

Lemma local_statistics_geometry (aka use_gauss : bool) (r : seq_or Z)
  (blur : VideoNode T -> result (VideoNode T)) (guidance : bool) (p g : VideoNode T)
  (planes : list nat) (st : statistics T) :
  blur_filter use_gauss r planes = Ok blur ->
  local_statistics aka blur guidance p g planes = Ok st ->
  geometry (cov_Ip st) = geometry g.
Proof.
  intros Hb Hs. unfold local_statistics in Hs.
  bind_inv Hs. rename v into mp. rename Hm into Hmp.
  bind_inv Hs. rename v into mi. rename Hm into Hmi.
  bind_inv Hs. rename v into sq. rename Hm into Hsq.
  bind_inv Hs. rename v into ci. rename Hm into Hci.
  bind_inv Hs. rename v into cip. rename Hm into Hcip.
  bind_inv Hs. rename v into vi. rename Hm into Hvi.
  bind_inv Hs. rename v into cov. rename Hm into Hcov.
  inversion Hs; subst; clear Hs. simpl.
  destruct guidance.
  - bind_inv Hcip. rename v into gp.
    rewrite (norm_expr_geometry _ _ _ _ _ _ _ Hcov).
    rewrite (blur_filter_geometry _ _ _ _ _ _ Hb Hcip).
    apply (norm_expr_geometry _ _ _ _ _ _ _ Hm).
  - inversion Hcov; subst cov; clear Hcov.
    rewrite (norm_expr_geometry _ _ _ _ _ _ _ Hvi).
    rewrite (blur_filter_geometry _ _ _ _ _ _ Hb Hci).
    apply (norm_expr_geometry _ _ _ _ _ _ _ Hsq).
Qed.

Lemma slope_geometry (aka use_gauss : bool) (mode : GuidedFilterMode)
  (planes : list nat) (r : seq_or Z) (eps : list T) (st : statistics T)
  (g a_out : VideoNode T) :
  slope aka use_gauss mode planes r eps st g = Ok a_out ->
  geometry a_out = geometry (cov_Ip st).
Proof.
  intros Ha. unfold slope in Ha. destruct mode.
  - apply (norm_expr_geometry _ _ _ _ _ _ _ Ha).
  - bind_inv Ha. apply (norm_expr_geometry _ _ _ _ _ _ _ Ha).
  - bind_inv Ha. bind_inv Ha. destruct aka.
    + apply (norm_expr_geometry _ _ _ _ _ _ _ Ha).
    + unfold FrameEval, _gradient in Ha. bind_inv Ha. bind_inv Ha.
      apply (norm_expr_geometry _ _ _ _ _ _ _ Ha).
Qed.

(** X2: whenever [guided_filter] returns a clip, the clip has the format of
    the input, depth included, and planes of the size of the planes of the
    guidance clip (of the input itself when it is filtered by itself), given
    that [depth] changes the depth only and that a blurred plane has the
    size of the plane. *)
Lemma output_geometry (aka : bool) (clip : VideoNode T) (guidance : option (VideoNode T))
  (radius : option Z) (thr : T) (regulation : option (list T)) (mode : GuidedFilterMode)
  (use_gauss : bool) (planes : PlanesT) (range_in : option ColorRange) (down_ratio : Z)
  (downscaler upscaler : Scaler) (out : VideoNode T) :
  guided_filter aka clip guidance radius thr regulation mode use_gauss planes range_in
    down_ratio downscaler upscaler = Ok out ->
  down_ratio = 0%Z
  /\ format out = format clip
  /\ dimensions out = dimensions (match guidance with
                                  | Some gd => gd
                                  | None => clip
                                  end).
Proof.
  destruct kept as (Hdepth & _).
  intros Hg. unfold guided_filter in Hg. bind_inv Hg. destruct v as [q bits].
  inversion Hg; subst out; clear Hg. cbn [fst snd].
  unfold guided_filter_q in Hm.
  bind_inv Hm. rename v into sol. rename Hm0 into Hsol.
  bind_inv Hm. rename v into mean_a. rename Hm0 into Hma.
  bind_inv Hm. rename v into mean_b. rename Hm0 into Hmb.
  bind_inv Hm. inversion Hm; subst q bits; clear Hm.
  apply solve_inv in Hsol. destruct Hsol as (Hp & Hb & Hst & Ha & Hcb).
  destruct (prepare_inv _ _ _ _ _ _ _ _ _ _ Hp) as (Hz & _ & _ & Hbits & Hgc & Hgg).
  subst down_ratio. cbn [Z.eqb] in Hm0. split; [reflexivity|].
  assert (Hgeo : geometry v = geometry (s_g (sol_setup sol))).
  { rewrite (norm_expr_geometry _ _ _ _ _ _ _ Hm0).
    rewrite (blur_filter_geometry _ _ _ _ _ _ Hb Hma).
    rewrite (slope_geometry _ _ _ _ _ _ _ _ _ Ha).
    apply (local_statistics_geometry _ _ _ _ _ _ _ _ _ Hb Hst). }
  unfold geometry in Hgeo. injection Hgeo as Hf Hd. fold (dimensions v) in Hd.
  fold (dimensions (s_g (sol_setup sol))) in Hd.
  destruct (Hdepth v (s_bits (sol_setup sol))) as (-> & ->).
  rewrite Hf, Hd, Hgg, Hgc, Hbits. unfold expect_bits. cbn [fst snd].
  assert (Hcheck : check_ref_clip clip guidance = Ok tt).
  { unfold prepare in Hp. bind_inv Hp. bind_inv Hp. now destruct v1. }
  destruct guidance as [gd|].
  - destruct (Hdepth gd 32%Z) as (-> & ->). rewrite with_bits_twice.
    unfold check_ref_clip in Hcheck.
    destruct (format_eqb (format clip) (format gd)) eqn:Ef; [|discriminate].
    apply format_eqb_eq in Ef. rewrite <- Ef. now rewrite with_bits_same.
  - destruct (Z.eqb_spec (bits_per_sample (format clip)) 32) as [He|Hne].
    + now rewrite with_bits_same.
    + destruct (Hdepth clip 32%Z) as (-> & ->). rewrite with_bits_twice.
      now rewrite with_bits_same.
Qed.

End Geometry.

(** ** The corrective pass at radius 1 *)

Section RadiusOne.

Context {T : Type} `{Arith T} `{Collaborators T}.

(** With a radius of 1 on every plane the two blurs are the same filter. *)
Lemma blur_filter_radius_one (use_gauss : bool) (n : nat) (planes : list nat)
  (blur : VideoNode T -> result (VideoNode T)) (c : VideoNode T) :
  blur_filter use_gauss (Many (repeat 1%Z (S n))) planes = Ok blur ->
  blur c = blur_filter_corr use_gauss planes c.
Proof.
  unfold blur_filter, blur_filter_corr. cbn [py_iter bind].
  destruct use_gauss; intros Hb;
    apply (f_equal (fun res => match res with
                               | Ok b => b c
                               | Raise e => Raise e
                               end)) in Hb;
    cbv beta iota in Hb; rewrite <- Hb.
  - unfold gauss_blur. rewrite map_repeat, normalize_seq_repeat, normalize_seq_One.
    reflexivity.
  - unfold box_blur. rewrite map_repeat, normalize_seq_repeat, normalize_seq_One.
    reflexivity.
Qed.

(** X12: at a configured radius of 1 the corrective pass, which the code
    does run, computes [var_I] a second time: its result is [var_I], because
    the blur of lines 70-74 and the blur of lines 76-78 are then the same
    call. *)
Lemma corrective_pass_recomputes_var_I (aka : bool) (clip : VideoNode T)
  (guidance : option (VideoNode T)) (thr : T) (regulation : option (list T))
  (mode : GuidedFilterMode) (use_gauss : bool) (planes : PlanesT)
  (range_in : option ColorRange) (down_ratio : Z) (downscaler : Scaler)
  (sol : solution T) :
  solve aka clip guidance (Some 1%Z) thr regulation mode use_gauss planes range_in
    down_ratio downscaler = Ok sol ->
  corrective_variance aka use_gauss (s_planes (sol_setup sol)) (s_r (sol_setup sol))
    (sol_stats sol) (s_g (sol_setup sol)) = Ok (var_I (sol_stats sol)).
Proof.
  intros Hs. apply solve_inv in Hs. destruct Hs as (Hp & Hb & Hst & _ & _).
  destruct (prepare_inv _ _ _ _ _ _ _ _ _ _ Hp) as (Hz & _ & Hsp & _ & Hgc & Hg).
  subst down_ratio.
  assert (Hr : s_r (sol_setup sol) = Many (repeat 1%Z (num_planes (format clip)))).
  { unfold prepare in Hp. bind_inv Hp. bind_inv Hp.
    destruct (expect_bits clip 32) as [p bits]. rewrite normalize_seq_One in Hp.
    cbn [bind] in Hp. bind_inv Hp. cbn [Z.eqb] in Hp. inversion Hp; reflexivity. }
  rewrite Hr in Hb |- *. unfold corrective_variance. rewrite py_eq_list_int.
  destruct (num_planes (format clip)) as [|n].
  - (* no plane: the first blur already fails *)
    exfalso. unfold local_statistics in Hst. bind_inv Hst.
    unfold blur_filter in Hb. cbn [py_iter bind repeat map] in Hb.
    destruct use_gauss; inversion Hb as [Hblur]; rewrite <- Hblur in Hm;
      [unfold gauss_blur in Hm | unfold box_blur in Hm]; discriminate Hm.
  - pose proof (blur_filter_radius_one use_gauss n _ _ (s_g (sol_setup sol)) Hb) as Eg.
    pose proof (blur_filter_radius_one use_gauss n _ _ (I_square (sol_stats sol)) Hb) as Es.
    rewrite <- Eg, <- Es. clear Eg Es.
    unfold local_statistics in Hst.
    bind_inv Hst. rename v into mp. rename Hm into Hmp.
    bind_inv Hst. rename v into mi. rename Hm into Hmi.
    bind_inv Hst. rename v into sq. rename Hm into Hsq.
    bind_inv Hst. rename v into ci. rename Hm into Hci.
    bind_inv Hst. rename v into cip. rename Hm into Hcip.
    bind_inv Hst. rename v into vi. rename Hm into Hvi.
    bind_inv Hst. inversion Hst as [Est]. cbn [I_square var_I].
    assert (Hmg : sol_blur sol (s_g (sol_setup sol)) = Ok mi).
    { destruct guidance; cbn [is_not_None] in Hmi; [assumption|].
      inversion Hmi; subst mi. rewrite Hg, Hgc, <- Hsp. assumption. }
    rewrite Hmg, Hci. cbn [bind]. exact Hvi.
Qed.

End RadiusOne.

(** ** A flat image *)

Section Flat.

Context {T : Type} `{Arith T} `{Collaborators T}.

Lemma map_const_seq {A : Type} (v : A) (start n : nat) :
  map (fun _ => v) (seq start n) = repeat v n.
Proof.
  revert start; induction n as [|n IH]; intros start; simpl; [reflexivity|].
  now rewrite IH.
Qed.

Lemma nth_error_repeat_lt {A : Type} (v : A) (n j : nat) :
  (j < n)%nat -> nth_error (repeat v n) j = Some v.
Proof.
  revert j; induction n as [|n IH]; intros j Hj; [lia|].
  destruct j as [|j]; simpl; [reflexivity | apply IH; lia].
Qed.

Lemma expr_plane_uniform (aka : bool) (w h : Z) (v0 : T) (vs : list T)
  (ts : list (token T)) (v : T) :
  rpn aka (nth_error (v0 :: vs)) (fun _ _ => None) ts [] = Ok v ->
  expr_plane aka ts (map (uniform_plane w h) (v0 :: vs))
    (map (fun _ => no_props) (v0 :: vs)) = Ok (uniform_plane w h v).
Proof.
  intros Hr. unfold expr_plane. cbn [map uniform_plane px pw ph].
  rewrite repeat_length. rewrite (mapM_total _ (fun _ => v)).
  - cbn [bind]. rewrite map_const_seq. reflexivity.
  - intros j Hj. apply in_seq in Hj. rewrite <- Hr. apply rpn_ext.
    + intros i. unfold sample_at.
      change ({| pw := w; ph := h; px := repeat v0 (Z.to_nat (w * h)) |})
        with (uniform_plane w h v0).
      rewrite <- (map_cons (uniform_plane w h) v0 vs), nth_error_map. destruct (nth_error (v0 :: vs) i) as [u|]; [|reflexivity].
      simpl. apply nth_error_repeat_lt. lia.
    + intros i p. unfold prop_at.
      rewrite <- (map_cons (fun _ : T => @no_props T) v0 vs), nth_error_map. destruct (nth_error (v0 :: vs) i); [|reflexivity].
      now destruct p.
Qed.

(** An expression on constant one-plane clips gives a constant clip, whose
    value is the value of the expression on the constants. *)
Lemma norm_expr_uniform (aka : bool) (bits w h : Z) (clips : list (VideoNode T))
  (v0 : T) (vs : list T) (e : list (token T)) (planes : list nat)
  (kwargs : list (string * seq_or T)) (args : list (string * T)) (ts : list (token T))
  (v : T) :
  clips = map (uniform_gray bits w h) (v0 :: vs) ->
  mem 0 planes = true ->
  plane_args kwargs 0 = Ok args -> format_expr e args = Ok ts ->
  rpn aka (nth_error (v0 :: vs)) (fun _ _ => None) ts [] = Ok v ->
  norm_expr aka clips e planes kwargs = Ok (uniform_gray bits w h v).
Proof.
  intros -> Hm Ha Hts Hr. unfold plane_args in Ha. bind_inv Ha. rename v1 into sa.
  cbn [map norm_expr]. unfold norm_expr_planes. rewrite Hm0. cbn [bind].
  change (num_planes (format (uniform_gray bits w h v0))) with 1%nat.
  cbn [seq mapM]. rewrite mem_normalize_planes. unfold processed. rewrite Hm.
  change (num_planes (format (uniform_gray bits w h v0))) with 1%nat.
  cbn [andb Nat.ltb Nat.leb]. rewrite Ha. cbn [bind]. rewrite Hts. cbn [bind].
  unfold Expr. change (data (uniform_gray bits w h v0)) with [uniform_plane w h v0].
  cbn [List.length seq mapM nth].
  assert (Hps : map (fun c => get_plane c 0)
                  (uniform_gray bits w h v0 :: map (uniform_gray bits w h) vs)
                = map (uniform_plane w h) (v0 :: vs)).
  { change (uniform_gray bits w h v0 :: map (uniform_gray bits w h) vs)
      with (map (uniform_gray bits w h) (v0 :: vs)).
    rewrite map_map. apply map_ext. reflexivity. }
  assert (Hfs : map (@frame_props T)
                  (uniform_gray bits w h v0 :: map (uniform_gray bits w h) vs)
                = map (fun _ => no_props) (v0 :: vs)).
  { change (uniform_gray bits w h v0 :: map (uniform_gray bits w h) vs)
      with (map (uniform_gray bits w h) (v0 :: vs)).
    rewrite map_map. apply map_ext. reflexivity. }
  rewrite Hps, Hfs. rewrite (expr_plane_uniform aka w h v0 vs ts v Hr). reflexivity.
Qed.

(** The box blur of a constant one-plane clip, when the blur of a plane
    turns constants into constants. *)
Lemma box_blur_uniform (beta : Z -> T -> T) (bits w h r : Z) (v : T) (planes : list nat) :
  (forall r' u, box_blur_plane r' (uniform_plane w h u) = uniform_plane w h (beta r' u)) ->
  mem 0 planes = true ->
  box_blur (Many [r]) planes (uniform_gray bits w h v)
  = Ok (uniform_gray bits w h (beta r v)).
Proof.
  intros Hb Hm. unfold box_blur, on_planes. simpl. rewrite Hm, Hb. reflexivity.
Qed.

(** The reference box blur turns a constant plane into a constant plane. *)
Lemma nth_repeat_lt {A : Type} (v d : A) (n k : nat) :
  (k < n)%nat -> nth k (repeat v n) d = v.
Proof.
  revert k; induction n as [|n IH]; intros k Hk; [lia|].
  destruct k as [|k]; simpl; [reflexivity | apply IH; lia].
Qed.

Lemma pixel_uniform (w h : Z) (v : T) (col row : Z) :
  (0 < w)%Z -> (0 < h)%Z -> pixel (uniform_plane w h v) col row = v.
Proof.
  intros Hw Hh. unfold pixel, uniform_plane, clamp. cbn [pw ph px].
  apply nth_repeat_lt. apply Z2Nat.inj_lt; nia.
Qed.

Lemma box_mean_uniform (w h r : Z) (v : T) :
  (0 < w)%Z -> (0 < h)%Z ->
  box_mean_plane r (uniform_plane w h v) = uniform_plane w h (box_mean_constant r v).
Proof.
  intros Hw Hh. unfold box_mean_plane, box_mean_constant.
  destruct (Z.leb r 0); [reflexivity|].
  unfold uniform_plane at 2 3 4. cbn [pw ph px]. unfold uniform_plane at 2. f_equal.
  rewrite repeat_length.
  etransitivity; [|apply (map_const_seq _ 0)].
  apply map_ext. intros i. unfold window_mean. f_equal. f_equal.
  apply map_ext. intros d. f_equal. now apply pixel_uniform.
Qed.

Section FlatRun.

Variables (beta : Z -> T -> T) (w h : Z).
Hypothesis blur_constant :
  forall r u, box_blur_plane r (uniform_plane w h u) = uniform_plane w h (beta r u).

Local Abbreviation U := (uniform_gray 32 w h).

Lemma prepare_uniform (bits : Z) (v c : T) (r : Z) (thr eps : T)
  (range_in : option ColorRange) (downscaler : Scaler) :
  bits <> 32%Z ->
  depth (uniform_gray bits w h v) 32 = U c ->
  prepare (uniform_gray bits w h v) None (Some r) thr (Some [eps]) None range_in 0
    downscaler
  = Ok {| s_planes := [0%nat]; s_width := w; s_height := h; s_bits := bits;
          s_guidance_clip := U c; s_p := U c; s_g := U c; s_r := Many [r];
          s_eps := [eps] |}.
Proof.
  intros Hbits Hup. unfold prepare, expect_bits.
  change (bits_per_sample (format (uniform_gray bits w h v))) with bits.
  change (num_planes (format (uniform_gray bits w h v))) with 1%nat.
  destruct (Z.eqb_spec bits 32) as [Heq|_]; [contradiction|].
  rewrite Hup. rewrite normalize_seq_One.
  change (normalize_seq (Many [eps]) 1) with (Ok [eps]).
  reflexivity.
Qed.

Lemma blur_uniform (r : Z) (v : T) :
  box_blur (Many [r]) [0%nat] (U v) = Ok (U (beta r v)).
Proof. apply box_blur_uniform; [exact blur_constant | reflexivity]. Qed.

Lemma local_statistics_uniform (aka : bool) (r : Z) (c : T) :
  let mean := beta r c in
  let corr := beta r (f_mul c c) in
  let var := f_sub corr (f_mul mean mean) in
  local_statistics aka (box_blur (Many [r]) [0%nat]) false (U c) (U c) [0%nat]
  = Ok {| mean_p := U mean; mean_I := U mean; I_square := U (f_mul c c);
          corr_I := U corr; corr_Ip := U corr; var_I := U var; cov_Ip := U var |}.
Proof.
  intros mean corr var. unfold local_statistics.
  rewrite blur_uniform. cbn [bind].
  rewrite (norm_expr_uniform aka 32 w h [U c] c [] expr_square [0%nat] [] []
             expr_square (f_mul c c)) by reflexivity.
  cbn [bind]. rewrite blur_uniform. cbn [bind].
  rewrite (norm_expr_uniform aka 32 w h [U (beta r (f_mul c c)); U (beta r c)]
             (beta r (f_mul c c)) [beta r c] expr_variance [0%nat] [] [] expr_variance var)
    by reflexivity.
  reflexivity.
Qed.

(** The clip [q] of a flat one-plane input. *)
Lemma guided_filter_q_uniform (aka : bool) (bits : Z) (v c : T) (r : Z) (thr eps : T)
  (range_in : option ColorRange) (downscaler upscaler : Scaler) :
  bits <> 32%Z ->
  depth (uniform_gray bits w h v) 32 = U c ->
  guided_filter_q aka (uniform_gray bits w h v) None (Some r) thr (Some [eps]) ORIGINAL
    false None range_in 0 downscaler upscaler
  = Ok (U (flat_output (beta (r + 1)) c eps), bits).
Proof.
  intros Hbits Hup. unfold guided_filter_q, solve.
  rewrite (prepare_uniform bits v c r thr eps range_in downscaler Hbits Hup).
  cbn [bind s_r s_planes s_p s_g s_eps blur_filter py_iter map is_not_None].
  rewrite local_statistics_uniform. cbn [bind slope cov_Ip var_I mean_p mean_I].
  set (mean := beta (r + 1) c).
  set (var := f_sub (beta (r + 1) (f_mul c c)) (f_mul mean mean)).
  rewrite (norm_expr_uniform aka 32 w h [U var; U var] var [var] expr_a_original
             [0%nat] [("eps"%string, Many [eps])] [("eps"%string, eps)]
             [x_; y_; Val eps; Add; Div] (f_div var (f_add var eps)))
    by reflexivity.
  cbn [bind].
  set (a0 := f_div var (f_add var eps)).
  rewrite (norm_expr_uniform aka 32 w h [U mean; U a0; U mean] mean [a0; mean] expr_b
             [0%nat] [] [] expr_b (f_sub mean (f_mul a0 mean))) by reflexivity.
  cbn [bind sol_setup sol_blur coef_a coef_b s_planes s_guidance_clip s_bits s_width
       s_height].
  rewrite !blur_uniform. cbn [bind Z.eqb].
  rewrite (norm_expr_uniform aka 32 w h
             [U (beta (r + 1) a0); U c; U (beta (r + 1) (f_sub mean (f_mul a0 mean)))]
             (beta (r + 1) a0) [c; beta (r + 1) (f_sub mean (f_mul a0 mean))] expr_output
             [0%nat] [] [] expr_output (flat_output (beta (r + 1)) c eps))
    by reflexivity.
  reflexivity.
Qed.

End FlatRun.

(** C3: a uniform 64x64 one-plane 8-bit clip of value 128, filtered by
    itself with radius 3, ORIGINAL mode and regulation 1e-6, comes out with
    every sample equal to 128, given what the collaborators do with constant
    planes: [depth] promotes the clip to a constant clip of some value [c],
    the box blur turns a constant plane into a constant plane, and [depth]
    takes the constant that the filter computes from [c] back to 128. *)
Theorem flat_image_is_reproduced (aka : bool) (thr c : T) (beta : Z -> T -> T)
  (range_in : option ColorRange) (downscaler upscaler : Scaler) :
  let eps := f_lit (1 # 1000000) in
  let clip := uniform_gray 8 64 64 (f_int 128) in
  depth clip 32 = uniform_gray 32 64 64 c ->
  (forall r u, box_blur_plane r (uniform_plane 64 64 u) = uniform_plane 64 64 (beta r u)) ->
  depth (uniform_gray 32 64 64 (flat_output (beta 4%Z) c eps)) 8 = clip ->
  guided_filter aka clip None (Some 3%Z) thr (Some [eps]) ORIGINAL false None range_in 0
    downscaler upscaler = Ok clip.
Proof.
  intros eps clip Hup Hblur Hdown. unfold guided_filter.
  unfold clip.
  rewrite (guided_filter_q_uniform beta 64 64 Hblur aka 8 (f_int 128) c 3 thr eps range_in
             downscaler upscaler ltac:(discriminate) Hup).
  cbn [bind fst snd]. change (3 + 1)%Z with 4%Z. now rewrite Hdown.
Qed.

End Flat.

(** ** Runs in binary32 *)

Module Evaluation.

Import Binary32 Example.

(** Run [r] in the virtual machine and name its result. *)
Ltac run r sol E :=
  let Ho := fresh "Ho" in
  assert (Ho : observe r (fun _ => tt) = Some tt) by (vm_compute; reflexivity);
  apply observe_Some in Ho; destruct Ho as (sol & E & _).

(** C4, witness: [down_ratio = 2] on the two-sample clip. *)
Lemma guided_filter_down_ratio_raises_witness :
  (2 <> 0)%Z /\
  guided_filter true near_flat None (Some 2%Z) thr None GRADIENT false None None 2
    Point Bilinear = Raise TypeError.
Proof.
  split; [discriminate|].
  apply (proj2 (guided_filter_down_ratio_raises true near_flat None (Some 2%Z) thr None
                  GRADIENT false None None 2 Point Bilinear ltac:(discriminate)));
    [reflexivity | discriminate | simpl; lia].
Defined.

(** C1, witness: the configured radius is 1 and the mode WEIGHTED. *)
Lemma corrective_pass_not_skipped_witness :
  exists s,
    prepare near_flat None (Some 1%Z) thr None None None 0 Point = Ok s
    /\ py_eq (s_r s) (One 1%Z) = false
    /\ forall st, corrective_variance true false (s_planes s) (s_r s) st (s_g s)
         = (mean_I_1 <- blur_filter_corr false (s_planes s) (s_g s) ;;
            corr_I_1 <- blur_filter_corr false (s_planes s) (I_square st) ;;
            norm_expr true [corr_I_1; mean_I_1] expr_variance (s_planes s) []).
Proof.
  run (prepare near_flat None (Some 1%Z) thr None None None 0 Point) s E.
  exists s. split; [exact E|]. split.
  - apply (proj1 (corrective_pass_not_skipped near_flat None (Some 1%Z) thr None None
                    None 0 Point s true false
                    {| mean_p := s_p s; mean_I := s_p s; I_square := s_p s;
                       corr_I := s_p s; corr_Ip := s_p s; var_I := s_p s;
                       cov_Ip := s_p s |} E)).
  - intros st.
    apply (proj2 (corrective_pass_not_skipped near_flat None (Some 1%Z) thr None None
                    None 0 Point s true false st E)).
Defined.

(** C6, witness: the three-plane clip filters itself. *)
Lemma self_guided_statistics_coincide_witness :
  exists sol,
    solve true colour None (Some 2%Z) thr None GRADIENT false None None 0 Point = Ok sol
    /\ mean_I (sol_stats sol) = mean_p (sol_stats sol)
    /\ corr_Ip (sol_stats sol) = corr_I (sol_stats sol)
    /\ cov_Ip (sol_stats sol) = var_I (sol_stats sol)
    /\ s_g (sol_setup sol) = s_p (sol_setup sol).
Proof.
  run (solve true colour None (Some 2%Z) thr None GRADIENT false None None 0 Point) sol E.
  exists sol. split; [exact E|].
  exact (self_guided_statistics_coincide true colour (Some 2%Z) thr None GRADIENT false
           None None 0 Point sol E).
Defined.

Lemma same_eq (u v : float32) : same u v = true -> u = v.
Proof.
  destruct u as [s|s| |s m e], v as [s'|s'| |s' m' e']; simpl; try discriminate;
    try reflexivity.
  - intros Hs. apply eqb_prop in Hs. now subst.
  - intros Hs. apply eqb_prop in Hs. now subst.
  - intros Hs. apply andb_prop in Hs. destruct Hs as [Hs He].
    apply andb_prop in Hs. destruct Hs as [Hs Hm].
    apply eqb_prop in Hs. apply Pos.eqb_eq in Hm. apply Z.eqb_eq in He. now subst.
Qed.

Lemma same_samples_eq (l l' : list (option float32)) : same_samples l l' = true -> l = l'.
Proof.
  revert l'; induction l as [|[u|] l IH]; intros [|[v|] l']; simpl; try discriminate;
    try reflexivity.
  - intros Hs. apply andb_prop in Hs. destruct Hs as [Hu Hl].
    apply same_eq in Hu. apply IH in Hl. now subst.
  - intros Hl. apply IH in Hl. now subst.
Qed.

Lemma solve_weights_Ok (aka : bool) (clip : VideoNode float32) (radius : Z)
  (mode : GuidedFilterMode) (sw : solution float32 * weighting float32) :
  solve_weights aka clip radius mode = Ok sw ->
  solve aka clip None (Some radius) thr None mode false None None 0 Point = Ok (fst sw)
  /\ weights aka false mode (s_planes (sol_setup (fst sw))) (s_r (sol_setup (fst sw)))
       (sol_stats (fst sw)) (s_g (sol_setup (fst sw))) = Ok (snd sw).
Proof.
  unfold solve_weights. intros Hs. bind_inv Hs. bind_inv Hs.
  inversion Hs; subst; clear Hs. simpl. auto.
Qed.

(** C5, witness: the three-plane clip in WEIGHTED mode. *)
Lemma weighted_slope_and_intercept_witness :
  exists sol,
    solve true colour None (Some 2%Z) thr None WEIGHTED false None None 0 Point = Ok sol
    /\ (forall i j mp av mi,
          processed (s_p (sol_setup sol)) (s_planes (sol_setup sol)) i = true ->
          sample (mean_p (sol_stats sol)) i j = Some mp ->
          sample (coef_a sol) i j = Some av ->
          sample (mean_I (sol_stats sol)) i j = Some mi ->
          sample (coef_b sol) i j = Some (f_sub mp (f_mul av mi)))
    /\ exists w,
         weights true false WEIGHTED (s_planes (sol_setup sol)) (s_r (sol_setup sol))
           (sol_stats sol) (s_g (sol_setup sol)) = Ok w
         /\ weight_in w = var_I_1 w
         /\ processed (s_g (sol_setup sol)) (s_planes (sol_setup sol)) 0 = true
         /\ get_plane (denominator w) 0
            = plane_map (fun Wv => f_div (f_lit 1) (f_add Wv (f_lit (1 # 1000000))))
                (get_plane (var_I_1 w) 0).
Proof.
  assert (Ho : observe (solve true colour None (Some 2%Z) thr None WEIGHTED false None None
                          0 Point)
                 (fun sol => processed (s_g (sol_setup sol)) (s_planes (sol_setup sol)) 0)
               = Some true) by (vm_compute; reflexivity).
  apply observe_Some in Ho. destruct Ho as (sol & E & Hp0).
  exists sol. split; [exact E|].
  destruct (weighted_slope_and_intercept true colour None (Some 2%Z) thr None WEIGHTED
              false None None 0 Point sol E) as (Hb & Ha).
  split; [exact Hb|].
  destruct (Ha eq_refl) as (w & Hw & Hin & Hden & _). exists w.
  split; [exact Hw|]. split; [exact Hin|]. split; [exact Hp0|]. exact (Hden Hp0).
Defined.

(** C5, counterexample: on the three-plane clip in WEIGHTED mode the weight
    of the second plane is the one computed with the average of the first
    plane of [denom] (0.0372 at the first sample), not with the average of
    its own plane (0.9475); on the first plane the two agree. *)
Lemma weight_not_from_own_plane_mean :
  exists sol w,
    solve true colour None (Some 2%Z) thr None WEIGHTED false None None 0 Point = Ok sol
    /\ weights true false WEIGHTED (s_planes (sol_setup sol)) (s_r (sol_setup sol))
         (sol_stats sol) (s_g (sol_setup sol)) = Ok w
    /\ processed (s_g (sol_setup sol)) (s_planes (sol_setup sol)) 1 = true
    /\ nth_error (samples (weight w) 1) 0 = Some (Some (S754_finite false 9981899 (-28)))
    /\ nth_error (weight_from_own_plane w 1) 0
       = Some (Some (S754_finite false 15896794 (-24)))
    /\ samples (weight w) 1 <> weight_from_own_plane w 1
    /\ samples (weight w) 0 = weight_from_own_plane w 0.
Proof.
  assert (Ho : observe (solve_weights true colour 2 WEIGHTED)
                 (fun sw =>
                    (processed (s_g (sol_setup (fst sw))) (s_planes (sol_setup (fst sw))) 1,
                     nth_error (samples (weight (snd sw)) 1) 0,
                     nth_error (weight_from_own_plane (snd sw) 1) 0,
                     same_samples (samples (weight (snd sw)) 0)
                       (weight_from_own_plane (snd sw) 0)))
               = Some (true, Some (Some (S754_finite false 9981899 (-28))),
                       Some (Some (S754_finite false 15896794 (-24))), true)).
  { vm_compute. reflexivity. }
  apply observe_Some in Ho. destruct Ho as ([sol w] & E & Ho).
  apply solve_weights_Ok in E. destruct E as (E1 & E2). cbn [fst snd] in E1, E2, Ho.
  injection Ho as Hp H1 H2 H0.
  exists sol, w. repeat split; try assumption.
  - intros Heq. rewrite Heq in H1. rewrite H1 in H2. discriminate H2.
  - now apply same_samples_eq.
Qed.

(** C7, witness: the three-plane clip in GRADIENT mode, evaluated by the
    Python callback. *)
Lemma gradient_slope_first_plane_statistics_witness :
  exists sol w k,
    solve false colour None (Some 2%Z) thr None GRADIENT false None None 0 Point = Ok sol
    /\ weights false false GRADIENT (s_planes (sol_setup sol)) (s_r (sol_setup sol))
         (sol_stats sol) (s_g (sol_setup sol)) = Ok w
    /\ k = k_python (plane_minimum (get_plane (weight_in w) 0))
                    (plane_average (get_plane (weight_in w) 0))
    /\ processed (s_g (sol_setup sol)) (s_planes (sol_setup sol)) 0 = true
    /\ get_plane (weight_in w) 0
       = plane_map2 (fun yv y1 => f_sqrt (f_mul yv y1))
           (get_plane (var_I (sol_stats sol)) 0) (get_plane (var_I_1 w) 0)
    /\ forall i j xv Wv zv yv e,
         processed (s_g (sol_setup sol)) (s_planes (sol_setup sol)) i = true ->
         sample (cov_Ip (sol_stats sol)) i j = Some xv ->
         sample (weight_in w) i j = Some Wv ->
         sample (weight w) i j = Some zv -> sample (var_I (sol_stats sol)) i j = Some yv ->
         nth_error (s_eps (sol_setup sol)) i = Some e ->
         sample (coef_a sol) i j
         = Some (gradient_a k (plane_average (get_plane (weight_in w) 0)) e xv Wv zv yv).
Proof.
  assert (Ho : observe (solve false colour None (Some 2%Z) thr None GRADIENT false None None
                          0 Point)
                 (fun sol => processed (s_g (sol_setup sol)) (s_planes (sol_setup sol)) 0)
               = Some true) by (vm_compute; reflexivity).
  apply observe_Some in Ho. destruct Ho as (sol & E & Hp0).
  destruct (gradient_slope_first_plane_statistics false colour None (Some 2%Z) thr None
              false None None 0 Point sol E) as (w & k & Hw & Hk & Hfirst & Hform).
  exists sol, w, k. split; [exact E|]. split; [exact Hw|]. split; [exact (Hk eq_refl)|].
  split; [exact Hp0|]. split; [exact (Hfirst Hp0)|].
  intros i j xv Wv zv yv e Hi. apply (Hform i j Hi).
Defined.

(** C7, counterexample: on the three-plane clip in GRADIENT mode, evaluated
    by the Python callback, the slope of the second plane is the one formed
    with the average and the minimum of the first plane of [W] (0.1348 at the
    first sample), not with those of its own plane (0.2530); on the first
    plane the two agree. *)
Lemma slope_not_from_own_plane_statistics :
  exists sol w,
    solve false colour None (Some 2%Z) thr None GRADIENT false None None 0 Point = Ok sol
    /\ weights false false GRADIENT (s_planes (sol_setup sol)) (s_r (sol_setup sol))
         (sol_stats sol) (s_g (sol_setup sol)) = Ok w
    /\ processed (s_g (sol_setup sol)) (s_planes (sol_setup sol)) 1 = true
    /\ nth_error (samples (coef_a sol) 1) 0 = Some (Some (S754_finite false 9043204 (-26)))
    /\ nth_error (slope_from_own_plane (sol_stats sol) w (s_eps (sol_setup sol)) 1) 0
       = Some (Some (S754_finite false 8490915 (-25)))
    /\ samples (coef_a sol) 1
       <> slope_from_own_plane (sol_stats sol) w (s_eps (sol_setup sol)) 1
    /\ samples (coef_a sol) 0
       = slope_from_own_plane (sol_stats sol) w (s_eps (sol_setup sol)) 0.
Proof.
  assert (Ho : observe (solve_weights false colour 2 GRADIENT)
                 (fun sw =>
                    let sol := fst sw in
                    let w := snd sw in
                    (processed (s_g (sol_setup sol)) (s_planes (sol_setup sol)) 1,
                     nth_error (samples (coef_a sol) 1) 0,
                     nth_error (slope_from_own_plane (sol_stats sol) w
                                  (s_eps (sol_setup sol)) 1) 0,
                     same_samples (samples (coef_a sol) 0)
                       (slope_from_own_plane (sol_stats sol) w (s_eps (sol_setup sol)) 0)))
               = Some (true, Some (Some (S754_finite false 9043204 (-26))),
                       Some (Some (S754_finite false 8490915 (-25))), true)).
  { vm_compute. reflexivity. }
  apply observe_Some in Ho. destruct Ho as ([sol w] & E & Ho).
  apply solve_weights_Ok in E. destruct E as (E1 & E2). cbn [fst snd] in E1, E2, Ho.
  injection Ho as Hp H1 H2 H0.
  exists sol, w. repeat split; try assumption.
  - intros Heq. rewrite Heq in H1. rewrite H1 in H2. discriminate H2.
  - now apply same_samples_eq.
Qed.

(** C10, on the code: on the two-sample clip in GRADIENT mode the two
    evaluators receive the same [W] and compute the same weight, but the
    expression of lines 126-127 computes [k = -4 / (min - (mean - 1e-6))],
    here -4059230.75, where the callback of line 137 computes
    [k = -4 / (min - mean - 1e-6)], here 3942471.75, and the two slopes
    differ: (0.5080, 0.5362) against (0.5359, 0.5083). *)
Theorem gradient_evaluators_disagree :
  exists s1 w1 s2 w2,
    solve true near_flat None (Some 2%Z) thr None GRADIENT false None None 0 Point = Ok s1
    /\ weights true false GRADIENT (s_planes (sol_setup s1)) (s_r (sol_setup s1))
         (sol_stats s1) (s_g (sol_setup s1)) = Ok w1
    /\ solve false near_flat None (Some 2%Z) thr None GRADIENT false None None 0 Point
       = Ok s2
    /\ weights false false GRADIENT (s_planes (sol_setup s2)) (s_r (sol_setup s2))
         (sol_stats s2) (s_g (sol_setup s2)) = Ok w2
    /\ samples (weight_in w1) 0 = samples (weight_in w2) 0
    /\ samples (weight w1) 0 = samples (weight w2) 0
    /\ k_akarin (plane_minimum (get_plane (weight_in w1) 0))
                (plane_average (get_plane (weight_in w1) 0))
       = S754_finite true 16236923 (-2)
    /\ k_python (plane_minimum (get_plane (weight_in w2) 0))
                (plane_average (get_plane (weight_in w2) 0))
       = S754_finite false 15769887 (-2)
    /\ samples (coef_a s1) 0
       = [Some (S754_finite false 8522401 (-24)); Some (S754_finite false 8996530 (-24))]
    /\ samples (coef_a s2) 0
       = [Some (S754_finite false 8990440 (-24)); Some (S754_finite false 8528567 (-24))]
    /\ samples (coef_a s1) 0 <> samples (coef_a s2) 0.
Proof.
  pose (obs := fun sw : solution float32 * weighting float32 =>
                 let w := snd sw in
                 let W0 := get_plane (weight_in w) 0 in
                 (samples (weight_in w) 0, samples (weight w) 0,
                  k_akarin (plane_minimum W0) (plane_average W0),
                  k_python (plane_minimum W0) (plane_average W0),
                  samples (coef_a (fst sw)) 0)).
  assert (Ho1 : observe (solve_weights true near_flat 2 GRADIENT) obs
                = Some ([Some (S754_finite false 16389176 (-38));
                         Some (S754_finite false 16381153 (-38))],
                        [Some (S754_finite false 8390628 (-23));
                         Some (S754_finite false 16773177 (-24))],
                        S754_finite true 16236923 (-2), S754_finite false 15769887 (-2),
                        [Some (S754_finite false 8522401 (-24));
                         Some (S754_finite false 8996530 (-24))])).
  { vm_compute. reflexivity. }
  assert (Ho2 : observe (solve_weights false near_flat 2 GRADIENT) obs
                = Some ([Some (S754_finite false 16389176 (-38));
                         Some (S754_finite false 16381153 (-38))],
                        [Some (S754_finite false 8390628 (-23));
                         Some (S754_finite false 16773177 (-24))],
                        S754_finite true 16236923 (-2), S754_finite false 15769887 (-2),
                        [Some (S754_finite false 8990440 (-24));
                         Some (S754_finite false 8528567 (-24))])).
  { vm_compute. reflexivity. }
  apply observe_Some in Ho1. destruct Ho1 as ([s1 w1] & E1 & Ho1).
  apply observe_Some in Ho2. destruct Ho2 as ([s2 w2] & E2 & Ho2).
  apply solve_weights_Ok in E1. destruct E1 as (E1 & E1').
  apply solve_weights_Ok in E2. destruct E2 as (E2 & E2').
  unfold obs in Ho1, Ho2. cbn [fst snd] in E1, E1', E2, E2', Ho1, Ho2.
  injection Ho1 as HW1 Hw1 Hka1 Hkp1 Ha1.
  injection Ho2 as HW2 Hw2 Hka2 Hkp2 Ha2.
  exists s1, w1, s2, w2. repeat split; try assumption; try congruence.
Qed.

(** C3, witness: binary32 samples, 8-bit full-range conversion and the
    reference box blur.  The promoted value is 128/255, the filter computes
    128/255 from it, and every sample of the output is 128. *)
Lemma flat_image_is_reproduced_witness :
  depth (uniform_gray 8 64 64 (f_int 128)) 32
    = uniform_gray 32 64 64 (S754_finite false 8421505 (-24))
  /\ (forall r u, box_blur_plane r (uniform_plane 64 64 u)
                  = uniform_plane 64 64 (box_mean_constant r u))
  /\ flat_output (box_mean_constant 4) (S754_finite false 8421505 (-24))
       (f_lit (1 # 1000000)) = S754_finite false 8421505 (-24)
  /\ guided_filter true (uniform_gray 8 64 64 (f_int 128)) None (Some 3%Z) thr
       (Some [f_lit (1 # 1000000)]) ORIGINAL false None None 0 Point Bilinear
     = Ok (uniform_gray 8 64 64 (f_int 128)).
Proof.
  assert (Hup : depth (uniform_gray 8 64 64 (f_int 128)) 32
                = uniform_gray 32 64 64 (S754_finite false 8421505 (-24)))
    by (vm_compute; reflexivity).
  assert (Hblur : forall r u, box_blur_plane r (uniform_plane 64 64 u)
                              = uniform_plane 64 64 (box_mean_constant r u))
    by (intros r u; apply box_mean_uniform; reflexivity).
  assert (Hflat : flat_output (box_mean_constant 4) (S754_finite false 8421505 (-24))
                    (f_lit (1 # 1000000)) = S754_finite false 8421505 (-24))
    by (vm_compute; reflexivity).
  assert (Hdown : depth (uniform_gray 32 64 64
                           (flat_output (box_mean_constant 4)
                              (S754_finite false 8421505 (-24)) (f_lit (1 # 1000000)))) 8
                  = uniform_gray 8 64 64 (f_int 128))
    by (rewrite Hflat; vm_compute; reflexivity).
  split; [exact Hup|]. split; [exact Hblur|]. split; [exact Hflat|].
  exact (flat_image_is_reproduced true thr (S754_finite false 8421505 (-24))
           box_mean_constant None Point Bilinear Hup Hblur Hdown).
Defined.

(** C8, witness: the three-plane clip guided by the other clip, with only
    the first plane selected.  At working precision the second plane of [q]
    is the second plane of the guidance (60/255 at its first sample), not of
    the input (100/255). *)
Lemma unselected_plane_is_guidance_plane_witness :
  exists q bits,
    guided_filter_q true colour (Some other) (Some 2%Z) thr None GRADIENT false
      (Some (One 0%nat)) None 0 Point Bilinear = Ok (q, bits)
    /\ mem 1 (normalize_planes colour (Some (One 0%nat))) = false
    /\ get_plane q 1 = get_plane (depth other 32) 1
    /\ sample q 1 0 = Some (S754_finite false 15790321 (-26))
    /\ sample (fst (expect_bits colour 32)) 1 0 = Some (S754_finite false 13158601 (-25))
    /\ get_plane q 1 <> get_plane (fst (expect_bits colour 32)) 1.
Proof.
  assert (Ho : observe (guided_filter_q true colour (Some other) (Some 2%Z) thr None
                          GRADIENT false (Some (One 0%nat)) None 0 Point Bilinear)
                 (fun qb => sample (fst qb) 1 0)
               = Some (Some (S754_finite false 15790321 (-26))))
    by (vm_compute; reflexivity).
  apply observe_Some in Ho. destruct Ho as ([q bits] & E & Ho). cbn [fst] in Ho.
  assert (Hin : sample (fst (expect_bits colour 32)) 1 0
                = Some (S754_finite false 13158601 (-25))) by (vm_compute; reflexivity).
  exists q, bits. split; [exact E|]. split; [reflexivity|]. split.
  - exact (unselected_plane_is_guidance_plane true colour (Some other) (Some 2%Z) thr None
             GRADIENT false (Some (One 0%nat)) None 0 Point Bilinear q bits 1 E eq_refl).
  - split; [exact Ho|]. split; [exact Hin|].
    intros Heq. unfold sample in Ho, Hin. rewrite Heq, Hin in Ho. discriminate Ho.
Defined.

(** The same run to the end: the second and third planes of the output are
    the chroma planes of the guidance clip. *)
Lemma unselected_planes_of_the_output :
  exists out,
    guided_filter true colour (Some other) (Some 2%Z) thr None GRADIENT false
      (Some (One 0%nat)) None 0 Point Bilinear = Ok out
    /\ get_plane out 1 = get_plane other 1
    /\ get_plane out 2 = get_plane other 2
    /\ get_plane out 1 <> get_plane colour 1.
Proof.
  assert (Ho : observe (guided_filter true colour (Some other) (Some 2%Z) thr None
                          GRADIENT false (Some (One 0%nat)) None 0 Point Bilinear)
                 (fun out => (get_plane out 1, get_plane out 2))
               = Some (get_plane other 1, get_plane other 2))
    by (vm_compute; reflexivity).
  apply observe_Some in Ho. destruct Ho as (out & E & Ho).
  injection Ho as H1 H2.
  exists out. split; [exact E|]. split; [exact H1|]. split; [exact H2|].
  rewrite H1. vm_compute. discriminate.
Qed.

(** C9, on the code: with [down_ratio = 2] the two-sample clip gets no
    output at all, [r / down_ratio] on line 68 raises [TypeError]; with
    [down_ratio = 0] the output has the format, the depth and the plane
    dimensions of the input. *)
Theorem no_output_with_down_ratio :
  guided_filter true near_flat None (Some 2%Z) thr None GRADIENT false None None 2
    Point Bilinear = Raise TypeError
  /\ exists out,
       guided_filter true near_flat None (Some 2%Z) thr None GRADIENT false None None 0
         Point Bilinear = Ok out
       /\ geometry out = geometry near_flat.
Proof.
  split; [vm_compute; reflexivity|].
  assert (Ho : observe (guided_filter true near_flat None (Some 2%Z) thr None GRADIENT
                          false None None 0 Point Bilinear)
                 (fun out => geometry out) = Some (geometry near_flat))
    by (vm_compute; reflexivity).
  apply observe_Some in Ho. destruct Ho as (out & E & Ho).
  exists out. split; [exact E | exact Ho].
Qed.

End Evaluation.

(** ** In real arithmetic *)

Module Ideal.

Import Real.

Local Open Scope R_scope.

Lemma Q2R_minus_four : Q2R (-4) = -4.
Proof. unfold Q2R. simpl. lra. Qed.

Lemma Q2R_millionth_pos : 0 < Q2R (1 # 1000000).
Proof. unfold Q2R. simpl. lra. Qed.

(** The constant [k] of the expression of lines 126-127 and the constant
    [k] of the callback of line 137 are different numbers whatever the
    minimum and the average of [W] are. *)
Lemma k_constants_differ (minimum average : R) :
  k_akarin minimum average <> k_python minimum average.
Proof.
  unfold k_akarin, k_python, f_int. cbn [f_div f_sub f_lit arith].
  change (Q2R (inject_Z (-4))) with (Q2R (-4)). rewrite Q2R_minus_four.
  pose proof Q2R_millionth_pos as He. intros Hk. unfold Rdiv in Hk.
  apply Rmult_eq_reg_l in Hk; [|lra]. apply Rinv_eq_reg in Hk. lra.
Qed.

Lemma fold_left_Rplus_const (c acc : R) (l : list (Z * Z)) :
  fold_left Rplus (map (fun _ => c) l) acc = acc + INR (List.length l) * c.
Proof.
  revert acc; induction l as [|d l IH]; intros acc.
  - simpl. lra.
  - cbn [map fold_left]. rewrite IH. change (List.length (d :: l)) with (S (List.length l)).
    rewrite S_INR. lra.
Qed.

Lemma window_not_empty (r : Z) : (0 < r)%Z -> (0 < List.length (window r))%nat.
Proof.
  intros Hr. unfold window. rewrite length_prod. unfold offsets.
  rewrite length_map, length_seq.
  assert (0 < Z.to_nat (2 * r + 1))%nat by lia. nia.
Qed.

(** The mean of equal values is that value. *)
Lemma box_mean_constant_exact (r : Z) (v : R) : box_mean_constant r v = v.
Proof.
  unfold box_mean_constant. destruct (Z.leb_spec r 0) as [Hle|Hgt]; [reflexivity|].
  unfold total. cbn [f_div f_mul f_add f_int f_lit arith].
  rewrite !fold_left_Rplus_const.
  pose proof (window_not_empty r Hgt) as Hn. apply lt_INR in Hn. simpl INR in Hn.
  assert (H1 : Q2R (inject_Z 1) = 1) by (unfold Q2R; simpl; lra).
  assert (H0 : Q2R (inject_Z 0) = 0) by (unfold Q2R; simpl; lra).
  rewrite H1, H0. field. lra.
Qed.

(** Any linear fit reproduces a constant: with a blur that keeps constants,
    the filter gives [c] back, for every [c] and every regulation. *)
Lemma flat_output_exact (blur : R -> R) (c eps : R) :
  (forall v, blur v = v) -> flat_output blur c eps = c.
Proof.
  intros Hb. unfold flat_output. cbn [f_div f_mul f_add f_sub arith]. rewrite !Hb.
  replace (c * c - c * c) with 0 by ring. unfold Rdiv. rewrite Rmult_0_l. ring.
Qed.

(** The flat image of C3 in real arithmetic, with the reference box blur. *)
Lemma flat_image_in_real_arithmetic (aka : bool) (thr : R) (range_in : option ColorRange)
  (downscaler upscaler : Scaler) :
  guided_filter aka (uniform_gray 8 64 64 (f_int 128)) None (Some 3%Z) thr
    (Some [f_lit (1 # 1000000)%Q]) ORIGINAL false None range_in 0 downscaler upscaler
  = Ok (uniform_gray 8 64 64 (f_int 128)).
Proof.
  assert (Hblur : forall (r : Z) (u : R),
             box_blur_plane r (uniform_plane 64 64 u)
             = uniform_plane 64 64 (box_mean_constant r u))
    by (intros r u; apply box_mean_uniform; reflexivity).
  unfold guided_filter.
  rewrite (guided_filter_q_uniform box_mean_constant 64 64 Hblur
             aka 8 (f_int 128) (f_int 128) 3 thr (f_lit (1 # 1000000)%Q) range_in
             downscaler upscaler ltac:(discriminate) eq_refl).
  cbn [bind fst snd].
  rewrite (flat_output_exact _ _ _ (box_mean_constant_exact (3 + 1))). reflexivity.
Qed.

End Ideal.

(** * Further properties of [guided_filter] *)

(** ** A run with [down_ratio = 0] returns a clip *)

Section Returns.

Context {T : Type} `{Arith T} `{Collaborators T}.

Lemma mapM_returns {A B : Type} (f : A -> result B) (l : list A) :
  (forall a0, In a0 l -> exists b, f a0 = Ok b) -> exists l', mapM f l = Ok l'.
Proof.
  induction l as [|a1 l IH]; intros Hf; [now exists []|].
  destruct (Hf a1 (or_introl eq_refl)) as (b & Hb).
  destruct IH as (l' & Hl'); [intros a0 Ha; apply Hf; now right|].
  exists (b :: l'). cbn [mapM]. now rewrite Hb, Hl'.
Qed.

Lemma well_formed_spec (clip : VideoNode T) :
  well_formed clip = true ->
  List.length (data clip) = num_planes (format clip)
  /\ (1 <= num_planes (format clip) <= 3)%nat.
Proof.
  unfold well_formed. intros Hw.
  apply andb_prop in Hw. destruct Hw as [Hw H3].
  apply andb_prop in Hw. destruct Hw as [Hl H1].
  apply Nat.eqb_eq in Hl. apply Nat.leb_le in H1, H3. lia.
Qed.

Lemma layout_length (c : VideoNode T) : List.length (layout c) = List.length (data c).
Proof. unfold layout. apply length_map. Qed.

Lemma fits_refl (p : VideoNode T) : fits p p.
Proof. split; reflexivity. Qed.

Lemma fits_trans (p c c' : VideoNode T) : fits p c -> fits c c' -> fits p c'.
Proof. intros [Hn Hl] [Hn' Hl']. split; congruence. Qed.

Lemma fits_well_formed (p c : VideoNode T) :
  well_formed p = true -> fits p c -> well_formed c = true.
Proof.
  intros Hw [Hn Hl]. apply well_formed_spec in Hw. destruct Hw as (Hd & H1 & H3).
  apply (f_equal (@List.length nat)) in Hl. rewrite !layout_length in Hl.
  unfold well_formed. rewrite Hn, Hl, Hd, Nat.eqb_refl.
  rewrite (proj2 (Nat.leb_le _ _) H1), (proj2 (Nat.leb_le _ _) H3). reflexivity.
Qed.

Lemma layout_plane (c c' : VideoNode T) (i : nat) :
  layout c = layout c' ->
  List.length (px (get_plane c i)) = List.length (px (get_plane c' i)).
Proof.
  intros Hl. pose proof (f_equal (@List.length nat) Hl) as Hlen.
  rewrite !layout_length in Hlen.
  destruct (Nat.ltb_spec i (List.length (data c))) as [Hlt|Hge].
  - apply (f_equal (fun l => nth_error l i)) in Hl. unfold layout in Hl.
    rewrite !nth_error_map in Hl.
    rewrite (nth_error_get_plane c i), (nth_error_get_plane c' i) in Hl by lia.
    now inversion Hl.
  - rewrite (get_plane_overflow c i), (get_plane_overflow c' i) by lia. reflexivity.
Qed.

Lemma layout_ext (c c' : VideoNode T) :
  List.length (data c) = List.length (data c') ->
  (forall i, (i < List.length (data c'))%nat ->
     List.length (px (get_plane c i)) = List.length (px (get_plane c' i))) ->
  layout c = layout c'.
Proof.
  intros Hlen Hpl. unfold layout. apply nth_error_ext. intros i.
  rewrite !nth_error_map.
  destruct (Nat.ltb_spec i (List.length (data c'))) as [Hlt|Hge].
  - rewrite (nth_error_get_plane c i), (nth_error_get_plane c' i) by lia.
    cbn [option_map]. f_equal. now apply Hpl.
  - replace (nth_error (data c) i) with (@None (plane T))
      by (symmetry; apply nth_error_None; lia).
    replace (nth_error (data c') i) with (@None (plane T))
      by (symmetry; apply nth_error_None; lia).
    reflexivity.
Qed.

(** An expression keeps the layout of its first clip. *)
Lemma norm_expr_fits (aka : bool) (c0 : VideoNode T) (cs : list (VideoNode T))
  (e : list (token T)) (planes : list nat) (kwargs : list (string * seq_or T))
  (out : VideoNode T) :
  norm_expr aka (c0 :: cs) e planes kwargs = Ok out -> fits c0 out.
Proof.
  intros Hn. apply norm_expr_inv in Hn. destruct Hn as (Hf & _ & Hl & Hi).
  split; [now rewrite Hf|].
  apply layout_ext; [assumption|]. intros i Hlt. specialize (Hi i).
  rewrite (proj2 (Nat.ltb_lt _ _) Hlt), andb_true_r in Hi.
  destruct (processed c0 planes i).
  - destruct Hi as (args & ts & _ & _ & He). cbn [map] in He.
    apply expr_plane_inv in He. tauto.
  - now rewrite Hi.
Qed.

Lemma plane_args_returns (kwargs : list (string * seq_or T)) (i : nat) :
  (i < 3)%nat -> Forall (fun kv => to_arr (snd kv) <> []) kwargs ->
  exists vals, List.length vals = List.length kwargs
               /\ plane_args kwargs i = Ok (combine (map fst kwargs) vals).
Proof.
  intros Hi. induction 1 as [|kv kwargs Hkv Hall IH]; [now exists []|].
  destruct IH as (vals & Hlen & Hargs).
  unfold plane_args in Hargs. bind_inv Hargs. rename v into sa.
  destruct (normalize_seq_total (snd kv) 3 Hkv) as (vs & Hvs).
  pose proof (normalize_seq_length _ _ _ Hvs) as Hl3.
  destruct (nth_error vs i) as [u|] eqn:Eu; [|apply nth_error_None in Eu; lia].
  exists (u :: vals). split; [simpl; now rewrite Hlen|].
  unfold plane_args. cbn [mapM]. rewrite Hvs. cbn [bind]. rewrite Hm.
  cbn [bind mapM snd fst]. rewrite Eu, Hargs. reflexivity.
Qed.

Lemma plane_args_functional (kwargs : list (string * seq_or T)) (i : nat)
  (args : list (string * T)) :
  plane_args kwargs i = Ok args ->
  exists sa, mapM (fun kv => vs <- normalize_seq (snd kv) 3 ;; Ok (fst kv, vs)) kwargs = Ok sa
             /\ mapM (fun kv => match nth_error (snd kv) i with
                                | Some v => Ok (fst kv, v)
                                | None => Raise IndexError
                                end) sa = Ok args.
Proof. unfold plane_args. intros Ha. bind_inv Ha. eauto. Qed.

(** When every plane has its keyword values and the formatted expression
    has a value on any samples, [norm_expr] returns a clip. *)
Lemma norm_expr_returns (aka : bool) (c0 : VideoNode T) (cs : list (VideoNode T))
  (e : list (token T)) (planes : list nat) (kwargs : list (string * seq_or T)) :
  well_formed c0 = true ->
  Forall (fun c => layout c = layout c0) cs ->
  (forall i, (i < 3)%nat ->
     exists args ts,
       plane_args kwargs i = Ok args /\ format_expr e args = Ok ts /\
       forall vs, List.length vs = S (List.length cs) ->
         exists v, rpn aka (nth_error vs) (prop_at (map (@frame_props T) (c0 :: cs))) ts []
                   = Ok v) ->
  exists out, norm_expr aka (c0 :: cs) e planes kwargs = Ok out.
Proof.
  intros Hw Hcs Hex. destruct (well_formed_spec _ Hw) as (Hd & H1 & H3).
  assert (Hplanes : exists exprs, norm_expr_planes c0 e planes kwargs = Ok exprs).
  { unfold norm_expr_planes.
    destruct (Hex 0%nat ltac:(lia)) as (args0 & _ & Ha0 & _).
    destruct (plane_args_functional _ _ _ Ha0) as (sa & Hsa & _).
    rewrite Hsa. cbn [bind]. apply mapM_returns. intros i Hin.
    apply in_seq in Hin. destruct (mem i _); [|eauto].
    destruct (Hex i ltac:(lia)) as (args & ts & Ha & Hts & _).
    destruct (plane_args_functional _ _ _ Ha) as (sa' & Hsa' & Hargs).
    assert (sa' = sa) by congruence. subst sa'.
    rewrite Hargs. cbn [bind]. rewrite Hts. cbn [bind]. eauto. }
  destruct Hplanes as (exprs & En). unfold norm_expr. rewrite En. cbn [bind].
  unfold Expr.
  assert (Hpl : exists planes', mapM (fun i =>
                   match nth i exprs None with
                   | None => Ok (get_plane c0 i)
                   | Some ts => expr_plane aka ts (map (fun c => get_plane c i) (c0 :: cs))
                                           (map (@frame_props T) (c0 :: cs))
                   end) (seq 0 (List.length (data c0))) = Ok planes').
  { apply mapM_returns. intros i Hin. apply in_seq in Hin.
    pose proof (norm_expr_planes_inv _ _ _ _ _ i En) as Hi.
    destruct (nth i exprs None) as [ts|] eqn:Ei; [|eauto].
    destruct (processed c0 planes i); [|discriminate].
    destruct Hi as (args & ts' & Ha & Hts & Hnth). inversion Hnth; subst ts'; clear Hnth.
    destruct (Hex i ltac:(lia)) as (args' & ts' & Ha' & Hts' & Hr).
    assert (args' = args) by congruence. subst args'.
    assert (ts' = ts) by congruence. subst ts'.
    unfold expr_plane. cbn [map].
    assert (Hs : exists samples,
               mapM (fun j => rpn aka
                                (sample_at (get_plane c0 i :: map (fun c => get_plane c i) cs) j)
                                (prop_at (frame_props c0 :: map (@frame_props T) cs)) ts [])
                    (seq 0 (List.length (px (get_plane c0 i)))) = Ok samples).
    { apply mapM_returns. intros j Hj. apply in_seq in Hj.
      destruct (Hr (map (fun c => nth j (px (get_plane c i)) (f_int 0)) (c0 :: cs)))
        as (v & Hv); [cbn [map List.length]; now rewrite length_map|].
      exists v. rewrite <- Hv. apply rpn_ext; [|reflexivity].
      intros k. unfold sample_at.
      change (get_plane c0 i :: map (fun c => get_plane c i) cs)
        with (map (fun c => get_plane c i) (c0 :: cs)).
      rewrite !nth_error_map.
      destruct (nth_error (c0 :: cs) k) as [c|] eqn:Ec; [|reflexivity].
      cbn [option_map].
      assert (Hlen : List.length (px (get_plane c i)) = List.length (px (get_plane c0 i))).
      { destruct k as [|k]; [inversion Ec; reflexivity|].
        cbn [nth_error] in Ec. apply nth_error_In in Ec.
        rewrite Forall_forall in Hcs. apply layout_plane. now apply Hcs. }
      apply nth_error_nth'. lia. }
    destruct Hs as (samples & ->). cbn [bind]. eauto. }
  destruct Hpl as (planes' & ->). cbn [bind]. eauto.
Qed.

End Returns.

(** Keyword values and formatted expression of a plane, in a goal
    [exists args ts, plane_args kw i = Ok args /\ format_expr e args = Ok ts /\ _]. *)
Ltac kwargs_returns i Hi :=
  match goal with
  | |- exists args ts, plane_args ?kw i = Ok args /\ _ =>
      let vals := fresh "vals" in
      let Hl := fresh "Hl" in
      let Ha := fresh "Ha" in
      destruct (plane_args_returns kw i Hi) as (vals & Hl & Ha);
      [ repeat constructor; cbn [snd to_arr]; try discriminate; try assumption | ];
      repeat (destruct vals as [|? vals]; try discriminate Hl);
      cbn [map fst combine] in Ha;
      eexists; eexists; split; [exact Ha | split;
        [cbv -[f_lit f_add f_sub f_mul f_div f_sqrt f_exp f_int]; reflexivity|]]
  end.

(** The value of a formatted expression on any samples. *)
Ltac rpn_returns :=
  let vs := fresh "vs" in
  let Hvs := fresh "Hvs" in
  intros vs Hvs;
  repeat (destruct vs as [|? vs]; try discriminate Hvs);
  cbn [rpn step bind push binop unop prop_at nth_error map get_prop frame_props
       stats_average stats_min];
  eauto.

Section Chain.

Context {T : Type} `{Arith T} `{Collaborators T}.

Hypothesis kept : layout_kept.

Lemma on_planes_fits (f : nat -> plane T -> plane T) (planes : list nat) (c : VideoNode T) :
  (forall i p, List.length (px (f i p)) = List.length (px p)) ->
  fits c (on_planes f planes c).
Proof.
  intros Hf. split; [reflexivity|].
  apply layout_ext; [apply on_planes_length|].
  intros i _. rewrite on_planes_get_plane.
  destruct (mem i planes && Nat.ltb i (List.length (data c))); [apply Hf | reflexivity].
Qed.

Lemma box_blur_returns (radius : seq_or Z) (planes : list nat) (c : VideoNode T) :
  to_arr radius <> [] ->
  exists c', box_blur radius planes c = Ok c' /\ fits c c'
             /\ frame_props c' = frame_props c.
Proof.
  destruct kept as (_ & Hbox & _). intros Hr. unfold box_blur.
  destruct (normalize_seq_total radius (num_planes (format c)) Hr) as (rs & ->).
  cbn [bind]. eexists. split; [reflexivity|]. split; [|reflexivity].
  apply on_planes_fits. intros i p. apply Hbox.
Qed.

Lemma gauss_blur_returns (sigma : seq_or T) (planes : list nat) (c : VideoNode T) :
  to_arr sigma <> [] ->
  exists c', gauss_blur sigma planes c = Ok c' /\ fits c c'
             /\ frame_props c' = frame_props c.
Proof.
  destruct kept as (_ & _ & Hgauss). intros Hr. unfold gauss_blur.
  destruct (normalize_seq_total sigma (num_planes (format c)) Hr) as (rs & ->).
  cbn [bind]. eexists. split; [reflexivity|]. split; [|reflexivity].
  apply on_planes_fits. intros i p. apply Hgauss.
Qed.

Lemma blur_filter_returns (use_gauss : bool) (l : list Z) (planes : list nat) :
  l <> [] ->
  exists blur, blur_filter use_gauss (Many l) planes = Ok blur /\ blur_returns blur.
Proof.
  intros Hl. unfold blur_filter. cbn [py_iter bind].
  destruct use_gauss; eexists; (split; [reflexivity|]); intros c.
  - apply gauss_blur_returns. cbn [to_arr]. destruct l; [congruence | discriminate].
  - apply box_blur_returns. cbn [to_arr]. destruct l; [congruence | discriminate].
Qed.

Lemma blur_filter_corr_returns (use_gauss : bool) (planes : list nat) :
  blur_returns (blur_filter_corr use_gauss planes).
Proof.
  intros c. unfold blur_filter_corr. destruct use_gauss.
  - apply gauss_blur_returns. discriminate.
  - apply box_blur_returns. discriminate.
Qed.

Lemma PlaneStats_returns (c : VideoNode T) :
  well_formed c = true ->
  exists c', PlaneStats c 0 = Ok c' /\ fits c c'
             /\ frame_props c' = {| stats_average := Some (plane_average (get_plane c 0));
                                    stats_min := Some (plane_minimum (get_plane c 0)) |}.
Proof.
  intros Hw. apply well_formed_spec in Hw. destruct Hw as (Hd & H1 & _).
  unfold PlaneStats. rewrite (nth_error_get_plane c 0) by lia.
  eexists. split; [reflexivity|]. split; [split; reflexivity | reflexivity].
Qed.

End Chain.

Section Run.

Context {T : Type} `{Arith T} `{Collaborators T}.

Hypothesis kept : layout_kept.

Lemma default_regulation_returns (clip : VideoNode T) (thr : T)
  (range_in : option ColorRange) :
  (1 <= num_planes (format clip))%nat ->
  exists e l, default_regulation clip thr range_in = Ok (e :: l).
Proof.
  intros Hn. unfold default_regulation. rewrite normalize_seq_One.
  destruct (num_planes (format clip)) as [|n] eqn:En; [lia|].
  destruct (range_is_full range_in clip).
  - unfold normalize_seq; simpl. do 2 eexists; reflexivity.
  - rewrite normalize_seq_One. simpl. do 2 eexists; reflexivity.
Qed.

Lemma check_ref_clip_format (clip gd : VideoNode T) :
  check_ref_clip clip (Some gd) = Ok tt -> format clip = format gd.
Proof.
  unfold check_ref_clip. destruct (format_eqb (format clip) (format gd)) eqn:Ef.
  - intros _. now apply format_eqb_eq.
  - discriminate.
Qed.

(** Lines 27-59 with [down_ratio = 0]. *)
Lemma prepare_returns (clip : VideoNode T) (guidance : option (VideoNode T))
  (radius : option Z) (thr : T) (regulation : option (list T)) (planes : PlanesT)
  (range_in : option ColorRange) (downscaler : Scaler) :
  well_formed clip = true -> regulation <> Some [] ->
  check_ref_clip clip guidance = Ok tt ->
  (forall gd, guidance = Some gd -> layout gd = layout clip) ->
  exists s l,
    prepare clip guidance radius thr regulation planes range_in 0 downscaler = Ok s
    /\ s_r s = Many l /\ l <> [] /\ s_eps s <> []
    /\ well_formed (s_p s) = true /\ fits (s_p s) (s_g s)
    /\ s_guidance_clip s = s_g s.
Proof.
  destruct kept as (Hdepth & _).
  intros Hw Hreg Hcheck Hgd. destruct (well_formed_spec _ Hw) as (Hd & H1 & H3).
  unfold prepare.
  assert (Hr : exists e l, match regulation with
                           | Some l0 => Ok l0
                           | None => default_regulation clip thr range_in
                           end = Ok (e :: l)).
  { destruct regulation as [[|e l]|]; [congruence | eauto |].
    now apply default_regulation_returns. }
  destruct Hr as (e & l & ->). cbn [bind]. rewrite Hcheck. cbn [bind].
  assert (Hp : well_formed (fst (expect_bits clip 32)) = true
               /\ fits clip (fst (expect_bits clip 32))).
  { unfold expect_bits. cbn [fst].
    destruct (Z.eqb (bits_per_sample (format clip)) 32).
    - split; [assumption | apply fits_refl].
    - assert (Hf : fits clip (depth clip 32)) by (split; apply Hdepth).
      split; [apply (fits_well_formed clip); assumption | assumption]. }
  destruct (expect_bits clip 32) as [p bits]. cbn [fst] in Hp. destruct Hp as [Hwp Hfp].
  assert (Hrad : exists r0 rs, normalize_seq
                     match radius with
                     | Some n => One n
                     | None => default_radius (width clip) (height clip)
                                 (subsampling_w (format clip)) (subsampling_h (format clip))
                                 (num_planes (format clip))
                     end (num_planes (format clip)) = Ok (r0 :: rs)).
  { destruct (normalize_seq_total
                match radius with
                | Some n => One n
                | None => default_radius (width clip) (height clip)
                            (subsampling_w (format clip)) (subsampling_h (format clip))
                            (num_planes (format clip))
                end (num_planes (format clip))) as (rs & Hrs).
    - destruct radius as [n|]; [discriminate|]. unfold default_radius.
      destruct (num_planes (format clip)); [lia | discriminate].
    - pose proof (normalize_seq_length _ _ _ Hrs) as Hlen.
      destruct rs as [|r0 rs]; [simpl in Hlen; lia | eauto]. }
  destruct Hrad as (r0 & rs & ->). cbn [bind].
  assert (Heps : exists e0 es, normalize_seq (Many (e :: l)) (num_planes (format clip))
                               = Ok (e0 :: es)).
  { destruct (normalize_seq_total (Many (e :: l)) (num_planes (format clip)))
      as (es & Hes); [discriminate|].
    pose proof (normalize_seq_length _ _ _ Hes) as Hlen.
    destruct es as [|e0 es]; [simpl in Hlen; lia | eauto]. }
  destruct Heps as (e0 & es & ->). cbn [bind Z.eqb].
  eexists. exists (r0 :: rs). split; [reflexivity|].
  cbn [s_r s_eps s_p s_g s_guidance_clip].
  split; [reflexivity|]. split; [discriminate|]. split; [discriminate|].
  split; [assumption|]. split; [|reflexivity].
  destruct guidance as [gd|]; [|apply fits_refl].
  destruct Hfp as [Hn Hl]. destruct (Hdepth gd 32%Z) as [Hgn Hgl].
  pose proof (check_ref_clip_format _ _ Hcheck) as Hf.
  split; [rewrite Hgn, Hn; now rewrite Hf | rewrite Hgl, Hl; now apply Hgd].
Qed.

(** Lines 80-88. *)
Lemma local_statistics_returns (aka : bool) (blur : VideoNode T -> result (VideoNode T))
  (guidance : bool) (p g : VideoNode T) (planes : list nat) :
  well_formed p = true -> fits p g -> blur_returns blur ->
  exists st,
    local_statistics aka blur guidance p g planes = Ok st
    /\ fits p (mean_p st) /\ fits p (mean_I st) /\ fits p (I_square st)
    /\ fits p (var_I st) /\ fits p (cov_Ip st).
Proof.
  intros Hwp Hg Hblur. unfold local_statistics.
  pose proof (fits_well_formed _ _ Hwp Hg) as Hwg.
  destruct (Hblur p) as (mp & -> & Fmp & _). cbn [bind].
  assert (Hmi : exists mi, (if guidance then blur g else Ok mp) = Ok mi /\ fits p mi).
  { destruct guidance; [|eauto].
    destruct (Hblur g) as (mi & Hmi & Fmi & _). exists mi.
    split; [assumption | now apply (fits_trans p g)]. }
  destruct Hmi as (mi & -> & Fmi). cbn [bind].
  destruct (norm_expr_returns aka g [] expr_square planes []) as (sq & Hsq);
    [assumption | constructor | intros i Hi; kwargs_returns i Hi; rpn_returns |].
  rewrite Hsq. cbn [bind].
  pose proof (fits_trans _ _ _ Hg (norm_expr_fits _ _ _ _ _ _ _ Hsq)) as Fsq.
  destruct (Hblur sq) as (ci & -> & Fci & _). cbn [bind].
  pose proof (fits_trans _ _ _ Fsq Fci) as Fci'.
  assert (Hcip : exists cip, (if guidance
                              then gp <- norm_expr aka [g; p] expr_product planes [] ;; blur gp
                              else Ok ci) = Ok cip /\ fits p cip).
  { destruct guidance; [|eauto].
    destruct (norm_expr_returns aka g [p] expr_product planes []) as (gp & Hgp);
      [assumption | repeat constructor; symmetry; apply Hg
      | intros i Hi; kwargs_returns i Hi; rpn_returns |].
    rewrite Hgp. cbn [bind].
    pose proof (fits_trans _ _ _ Hg (norm_expr_fits _ _ _ _ _ _ _ Hgp)) as Fgp.
    destruct (Hblur gp) as (cip & Hcip & Fcip & _). exists cip.
    split; [assumption | now apply (fits_trans p gp)]. }
  destruct Hcip as (cip & -> & Fcip). cbn [bind].
  destruct (norm_expr_returns aka ci [mi] expr_variance planes []) as (vi & Hvi);
    [now apply (fits_well_formed p)
    | repeat constructor; destruct Fmi, Fci'; congruence
    | intros i Hi; kwargs_returns i Hi; rpn_returns |].
  rewrite Hvi. cbn [bind].
  pose proof (fits_trans _ _ _ Fci' (norm_expr_fits _ _ _ _ _ _ _ Hvi)) as Fvi.
  assert (Hcov : exists cov, (if guidance
                              then norm_expr aka [cip; mi; mp] expr_covariance planes []
                              else Ok vi) = Ok cov /\ fits p cov).
  { destruct guidance; [|eauto].
    destruct (norm_expr_returns aka cip [mi; mp] expr_covariance planes [])
      as (cov & Hcov);
      [now apply (fits_well_formed p)
      | repeat constructor; destruct Fmi, Fmp, Fcip; congruence
      | intros i Hi; kwargs_returns i Hi; rpn_returns |].
    exists cov. split; [assumption|].
    apply (fits_trans _ _ _ Fcip (norm_expr_fits _ _ _ _ _ _ _ Hcov)). }
  destruct Hcov as (cov & -> & Fcov). cbn [bind].
  eexists. split; [reflexivity|]. cbn [mean_p mean_I I_square var_I cov_Ip]. tauto.
Qed.

End Run.

Section RunSlope.

Context {T : Type} `{Arith T} `{Collaborators T}.

Hypothesis kept : layout_kept.

Lemma corrective_variance_returns (aka use_gauss : bool) (planes : list nat) (r : seq_or Z)
  (st : statistics T) (p g : VideoNode T) :
  well_formed p = true -> fits p g -> fits p (I_square st) -> fits p (var_I st) ->
  exists v1, corrective_variance aka use_gauss planes r st g = Ok v1 /\ fits p v1.
Proof.
  intros Hwp Fg Fsq Fv. unfold corrective_variance.
  destruct (py_eq r (One 1%Z)); [eauto|].
  destruct (blur_filter_corr_returns kept use_gauss planes g) as (m1 & -> & Fm1 & _).
  cbn [bind].
  destruct (blur_filter_corr_returns kept use_gauss planes (I_square st))
    as (c1 & -> & Fc1 & _).
  cbn [bind].
  pose proof (fits_trans _ _ _ Fg Fm1) as Fm1'.
  pose proof (fits_trans _ _ _ Fsq Fc1) as Fc1'.
  destruct (norm_expr_returns aka c1 [m1] expr_variance planes []) as (v1 & Hv1);
    [now apply (fits_well_formed p)
    | repeat constructor; destruct Fm1', Fc1'; congruence
    | intros i Hi; kwargs_returns i Hi; rpn_returns |].
  exists v1. split; [assumption|].
  apply (fits_trans _ _ _ Fc1' (norm_expr_fits _ _ _ _ _ _ _ Hv1)).
Qed.

(** Lines 93-116. *)
Lemma weights_returns (aka use_gauss : bool) (mode : GuidedFilterMode) (planes : list nat)
  (r : seq_or Z) (st : statistics T) (p g : VideoNode T) :
  well_formed p = true -> fits p g -> fits p (I_square st) -> fits p (var_I st) ->
  exists w, weights aka use_gauss mode planes r st g = Ok w
            /\ fits p (weight_in w) /\ fits p (weight w).
Proof.
  intros Hwp Fg Fsq Fv. unfold weights.
  destruct (corrective_variance_returns aka use_gauss planes r st p g Hwp Fg Fsq Fv)
    as (v1 & -> & Fv1).
  cbn [bind].
  assert (Hwin : exists win, match mode with
                             | WEIGHTED => Ok v1
                             | _ => norm_expr aka [var_I st; v1] expr_weight_in planes []
                             end = Ok win /\ fits p win).
  { assert (Hn : exists win, norm_expr aka [var_I st; v1] expr_weight_in planes [] = Ok win
                             /\ fits p win).
    { destruct (norm_expr_returns aka (var_I st) [v1] expr_weight_in planes [])
        as (win & Hwin);
        [now apply (fits_well_formed p)
        | repeat constructor; destruct Fv, Fv1; congruence
        | intros i Hi; kwargs_returns i Hi; rpn_returns |].
      exists win. split; [assumption|].
      apply (fits_trans _ _ _ Fv (norm_expr_fits _ _ _ _ _ _ _ Hwin)). }
    destruct mode; eauto. }
  destruct Hwin as (win & -> & Fwin). cbn [bind].
  pose proof (fits_well_formed _ _ Hwp Fwin) as Hwwin.
  destruct (norm_expr_returns aka win [] expr_denominator planes
              [("eps"%string, One (f_lit (1 # 1000000)))]) as (den0 & Hden0);
    [assumption | constructor | intros i Hi; kwargs_returns i Hi; rpn_returns |].
  rewrite Hden0. cbn [bind].
  pose proof (fits_trans _ _ _ Fwin (norm_expr_fits _ _ _ _ _ _ _ Hden0)) as Fden0.
  destruct (PlaneStats_returns den0 (fits_well_formed _ _ Hwp Fden0))
    as (den & -> & Fden & Pden).
  cbn [bind].
  pose proof (fits_trans _ _ _ Fden0 Fden) as Fden'.
  assert (Hwt : exists wt,
             (if aka
              then norm_expr aka [win; den] expr_weight_aka planes []
              else FrameEval den
                     (fun f =>
                        average <- frame_prop f PlaneStatsAverage ;;
                        exprs <- norm_expr_planes win (expr_weight_eval average) planes [] ;;
                        Expr false [win] exprs)
                     den) = Ok wt /\ fits p wt).
  { destruct aka.
    - destruct (norm_expr_returns true win [den] expr_weight_aka planes [])
        as (wt & Hwt);
        [assumption
        | repeat constructor; destruct Fwin, Fden'; congruence
        | intros i Hi; kwargs_returns i Hi; cbn [map]; rewrite Pden; rpn_returns |].
      exists wt. split; [assumption|].
      apply (fits_trans _ _ _ Fwin (norm_expr_fits _ _ _ _ _ _ _ Hwt)).
    - rewrite (FrameEval_weight planes win den (plane_average (get_plane den0 0)))
        by (now rewrite Pden).
      destruct (norm_expr_returns false win []
                  (expr_weight_eval (plane_average (get_plane den0 0))) planes [])
        as (wt & Hwt);
        [assumption | constructor | intros i Hi; kwargs_returns i Hi; rpn_returns |].
      exists wt. split; [assumption|].
      apply (fits_trans _ _ _ Fwin (norm_expr_fits _ _ _ _ _ _ _ Hwt)). }
  destruct Hwt as (wt & -> & Fwt). cbn [bind].
  eexists. split; [reflexivity|]. cbn [weight_in weight]. tauto.
Qed.

(** Lines 90-140. *)
Lemma slope_returns (aka use_gauss : bool) (mode : GuidedFilterMode) (planes : list nat)
  (r : seq_or Z) (eps : list T) (st : statistics T) (p g : VideoNode T) :
  well_formed p = true -> fits p g -> eps <> [] ->
  fits p (I_square st) -> fits p (var_I st) -> fits p (cov_Ip st) ->
  exists a_out, slope aka use_gauss mode planes r eps st g = Ok a_out /\ fits p a_out
                /\ frame_props a_out = frame_props (cov_Ip st).
Proof.
  intros Hwp Fg Heps Fsq Fv Fcov.
  pose proof (fits_well_formed _ _ Hwp Fcov) as Hwcov.
  unfold slope. destruct mode.
  - destruct (norm_expr_returns aka (cov_Ip st) [var_I st] expr_a_original planes
                [("eps"%string, Many eps)]) as (a_out & Ha);
      [assumption
      | repeat constructor; destruct Fv, Fcov; congruence
      | intros i Hi; kwargs_returns i Hi; rpn_returns |].
    exists a_out. split; [assumption|]. split.
    + apply (fits_trans _ _ _ Fcov (norm_expr_fits _ _ _ _ _ _ _ Ha)).
    + now apply norm_expr_inv in Ha.
  - destruct (weights_returns aka use_gauss WEIGHTED planes r st p g Hwp Fg Fsq Fv)
      as (w & -> & Fwin & Fwt).
    cbn [bind].
    destruct (norm_expr_returns aka (cov_Ip st) [var_I st; weight w] expr_a_weighted planes
                [("eps"%string, Many eps)]) as (a_out & Ha);
      [assumption
      | repeat constructor; destruct Fv, Fcov, Fwt; congruence
      | intros i Hi; kwargs_returns i Hi; rpn_returns |].
    exists a_out. split; [assumption|]. split.
    + apply (fits_trans _ _ _ Fcov (norm_expr_fits _ _ _ _ _ _ _ Ha)).
    + now apply norm_expr_inv in Ha.
  - destruct (weights_returns aka use_gauss GRADIENT planes r st p g Hwp Fg Fsq Fv)
      as (w & -> & Fwin & Fwt).
    cbn [bind].
    destruct (PlaneStats_returns (weight_in w) (fits_well_formed _ _ Hwp Fwin))
      as (win & -> & Fwin' & Pwin).
    cbn [bind].
    pose proof (fits_trans _ _ _ Fwin Fwin') as Fwin''.
    assert (Hcs : Forall (fun c => layout c = layout (cov_Ip st)) [win; weight w; var_I st])
      by (repeat constructor; destruct Fv, Fcov, Fwt, Fwin''; congruence).
    destruct aka.
    + destruct (norm_expr_returns true (cov_Ip st) [win; weight w; var_I st]
                  expr_a_gradient_aka planes [("eps"%string, Many eps)]) as (a_out & Ha);
        [assumption | assumption
        | intros i Hi; kwargs_returns i Hi; cbn [map]; rewrite Pwin; rpn_returns |].
      exists a_out. split; [assumption|]. split.
      * apply (fits_trans _ _ _ Fcov (norm_expr_fits _ _ _ _ _ _ _ Ha)).
      * now apply norm_expr_inv in Ha.
    + unfold FrameEval, _gradient. rewrite Pwin.
      cbn [frame_prop get_prop stats_average stats_min bind].
      match goal with
      | |- exists a_out, norm_expr false ?cs ?e planes ?kw = Ok a_out /\ _ =>
          destruct (norm_expr_returns false (cov_Ip st) [win; weight w; var_I st] e planes kw)
            as (a_out & Ha);
            [assumption | assumption
            | intros i Hi; kwargs_returns i Hi; rpn_returns |]
      end.
      exists a_out. split; [assumption|]. split.
      * apply (fits_trans _ _ _ Fcov (norm_expr_fits _ _ _ _ _ _ _ Ha)).
      * now apply norm_expr_inv in Ha.
Qed.

End RunSlope.

Section Total.

Context {T : Type} `{Arith T} `{Collaborators T}.


End Total.

(** ** What the stages compute *)

Section Formulas.

Context {T : Type} `{Arith T} `{Collaborators T}.

(** The steps of lines 80-88 in a successful run. *)
Lemma local_statistics_inv (aka : bool) (blur : VideoNode T -> result (VideoNode T))
  (guidance : bool) (p g : VideoNode T) (planes : list nat) (st : statistics T) :
  local_statistics aka blur guidance p g planes = Ok st ->
  blur p = Ok (mean_p st)
  /\ norm_expr aka [g] expr_square planes [] = Ok (I_square st)
  /\ blur (I_square st) = Ok (corr_I st)
  /\ norm_expr aka [corr_I st; mean_I st] expr_variance planes [] = Ok (var_I st)
  /\ (guidance = true ->
      blur g = Ok (mean_I st)
      /\ (exists gp, norm_expr aka [g; p] expr_product planes [] = Ok gp
                     /\ blur gp = Ok (corr_Ip st))
      /\ norm_expr aka [corr_Ip st; mean_I st; mean_p st] expr_covariance planes []
         = Ok (cov_Ip st)).
Proof.
  intros Hs. unfold local_statistics in Hs.
  bind_inv Hs. rename v into mp. rename Hm into Hmp.
  bind_inv Hs. rename v into mi. rename Hm into Hmi.
  bind_inv Hs. rename v into sq. rename Hm into Hsq.
  bind_inv Hs. rename v into ci. rename Hm into Hci.
  bind_inv Hs. rename v into cip. rename Hm into Hcip.
  bind_inv Hs. rename v into vi. rename Hm into Hvi.
  bind_inv Hs. rename v into cov. rename Hm into Hcov.
  inversion Hs; subst; clear Hs. cbn [mean_p mean_I I_square corr_I corr_Ip var_I cov_Ip].
  split; [assumption|]. split; [assumption|]. split; [assumption|].
  split; [assumption|]. intros ->.
  split; [assumption|]. split; [|assumption].
  bind_inv Hcip. eauto.
Qed.

(** X3: the statistics of lines 83-88 on a processed plane:
    [I_square = g * g], [var_I = corr_I - mean_I * mean_I], and with a
    guidance clip [cov_Ip = corr_Ip - mean_I * mean_p], where [corr_Ip] is
    the blur of [g * p]; every mean is the blur of its clip. *)
Theorem local_statistics_formulas (aka : bool) (clip : VideoNode T)
  (guidance : option (VideoNode T)) (radius : option Z) (thr : T)
  (regulation : option (list T)) (mode : GuidedFilterMode) (use_gauss : bool)
  (planes : PlanesT) (range_in : option ColorRange) (down_ratio : Z)
  (downscaler : Scaler) (sol : solution T) :
  solve aka clip guidance radius thr regulation mode use_gauss planes range_in down_ratio
    downscaler = Ok sol ->
  let s := sol_setup sol in
  let st := sol_stats sol in
  sol_blur sol (s_p s) = Ok (mean_p st)
  /\ sol_blur sol (I_square st) = Ok (corr_I st)
  /\ (forall i j, processed (s_g s) (s_planes s) i = true ->
        (forall gv, sample (s_g s) i j = Some gv ->
           sample (I_square st) i j = Some (f_mul gv gv))
        /\ (forall ci mi, sample (corr_I st) i j = Some ci ->
              sample (mean_I st) i j = Some mi ->
              sample (var_I st) i j = Some (f_sub ci (f_mul mi mi))))
  /\ (guidance <> None ->
      sol_blur sol (s_g s) = Ok (mean_I st)
      /\ exists gp,
           sol_blur sol gp = Ok (corr_Ip st)
           /\ forall i j, processed (s_g s) (s_planes s) i = true ->
                (forall gv pv, sample (s_g s) i j = Some gv -> sample (s_p s) i j = Some pv ->
                   sample gp i j = Some (f_mul gv pv))
                /\ (forall cip mi mp, sample (corr_Ip st) i j = Some cip ->
                      sample (mean_I st) i j = Some mi -> sample (mean_p st) i j = Some mp ->
                      sample (cov_Ip st) i j = Some (f_sub cip (f_mul mi mp)))).
Proof.
  intros Hs s st. apply solve_inv in Hs. fold s st in Hs.
  destruct Hs as (Hp & Hb & Hst & _ & _).
  pose proof (blur_filter_keeps_frame _ _ _ _ Hb) as Hk.
  destruct (local_statistics_inv _ _ _ _ _ _ _ Hst) as (Hmp & Hsq & Hci & Hvi & Hgd).
  pose proof (norm_expr_format _ _ _ _ _ _ _ Hsq) as Fsq.
  destruct (Hk _ _ Hci) as (Fci & _).
  split; [assumption|]. split; [assumption|]. split.
  - intros i j Hi. split.
    + intros gv Hg.
      destruct (norm_expr_sample _ _ _ _ _ _ _ _ _ _ Hsq Hi Hg)
        as (args & ts & v & Ha & Hts & Hv & Hr).
      rewrite plane_args_nil in Ha. inversion Ha; subst args. format_eval Hts.
      unfold sample in Hg. rpn_eval Hr. rewrite Hg in Hr. rpn_eval Hr.
      inversion Hr; subst. assumption.
    + intros ci mi Hc Hmi.
      assert (Hi' : processed (corr_I st) (s_planes s) i = true)
        by (rewrite <- Hi; apply processed_format; congruence).
      destruct (norm_expr_sample _ _ _ _ _ _ _ _ _ _ Hvi Hi' Hc)
        as (args & ts & v & Ha & Hts & Hv & Hr).
      rewrite plane_args_nil in Ha. inversion Ha; subst args. format_eval Hts.
      unfold sample in Hc, Hmi. rpn_eval Hr. rewrite Hc, Hmi in Hr. rpn_eval Hr.
      inversion Hr; subst. assumption.
  - intros Hguid.
    assert (Hg : is_not_None guidance = true) by (destruct guidance; [reflexivity | congruence]).
    destruct (Hgd Hg) as (Hmi & (gp & Hgp & Hcip) & Hcov).
    split; [assumption|]. exists gp. split; [assumption|].
    pose proof (norm_expr_format _ _ _ _ _ _ _ Hgp) as Fgp.
    destruct (Hk _ _ Hcip) as (Fcip & _).
    intros i j Hi. split.
    + intros gv pv Hgv Hpv.
      destruct (norm_expr_sample _ _ _ _ _ _ _ _ _ _ Hgp Hi Hgv)
        as (args & ts & v & Ha & Hts & Hv & Hr).
      rewrite plane_args_nil in Ha. inversion Ha; subst args. format_eval Hts.
      unfold sample in Hgv, Hpv. rpn_eval Hr. rewrite Hgv, Hpv in Hr. rpn_eval Hr.
      inversion Hr; subst. assumption.
    + intros cip mi mp Hc Hmi' Hmp'.
      assert (Hi' : processed (corr_Ip st) (s_planes s) i = true)
        by (rewrite <- Hi; apply processed_format; congruence).
      destruct (norm_expr_sample _ _ _ _ _ _ _ _ _ _ Hcov Hi' Hc)
        as (args & ts & v & Ha & Hts & Hv & Hr).
      rewrite plane_args_nil in Ha. inversion Ha; subst args. format_eval Hts.
      unfold sample in Hc, Hmi', Hmp'. rpn_eval Hr. rewrite Hc, Hmi', Hmp' in Hr.
      rpn_eval Hr. inversion Hr; subst. assumption.
Qed.

(** X4: in ORIGINAL mode the slope of a processed plane is
    [a = cov_Ip / (var_I + eps)] at every sample, with the regulation of
    that plane. *)
Theorem original_slope (aka : bool) (clip : VideoNode T)
  (guidance : option (VideoNode T)) (radius : option Z) (thr : T)
  (regulation : option (list T)) (use_gauss : bool) (planes : PlanesT)
  (range_in : option ColorRange) (down_ratio : Z) (downscaler : Scaler)
  (sol : solution T) :
  solve aka clip guidance radius thr regulation ORIGINAL use_gauss planes range_in
    down_ratio downscaler = Ok sol ->
  let s := sol_setup sol in
  let st := sol_stats sol in
  forall i j xv yv eps,
    processed (s_g s) (s_planes s) i = true ->
    sample (cov_Ip st) i j = Some xv -> sample (var_I st) i j = Some yv ->
    nth_error (s_eps s) i = Some eps ->
    sample (coef_a sol) i j = Some (f_div xv (f_add yv eps)).
Proof.
  intros Hs s st. apply solve_inv in Hs. fold s st in Hs.
  destruct Hs as (Hp & Hb & Hst & Ha & _).
  pose proof (blur_filter_keeps_frame _ _ _ _ Hb) as Hk.
  destruct (local_statistics_formats _ _ _ _ _ _ _ Hk Hst) as (_ & _ & _ & Fcov).
  intros i j xv yv eps Hi Hx Hy He. cbn [slope] in Ha.
  rewrite <- (processed_format (cov_Ip st) (s_g s) _ i Fcov) in Hi.
  destruct (norm_expr_sample _ _ _ _ _ _ _ _ _ _ Ha Hi Hx)
    as (args & ts & v & Hargs & Hts & Hv & Hr).
  apply plane_args_Many in Hargs. destruct Hargs as (e' & -> & He').
  rewrite (He' _ He) in Hts. format_eval Hts.
  unfold sample in Hx, Hy. rpn_eval Hr. rewrite Hx, Hy in Hr. rpn_eval Hr.
  inversion Hr; subst. assumption.
Qed.

Lemma local_statistics_props (aka : bool) (blur : VideoNode T -> result (VideoNode T))
  (guidance : bool) (p g : VideoNode T) (planes : list nat) (st : statistics T) :
  keeps_frame planes blur ->
  local_statistics aka blur guidance p g planes = Ok st ->
  frame_props (cov_Ip st) = frame_props g /\ format (cov_Ip st) = format g.
Proof.
  intros Hk Hs.
  destruct (local_statistics_formats _ _ _ _ _ _ _ Hk Hs) as (_ & _ & _ & Fcov).
  split; [|assumption].
  destruct (local_statistics_inv _ _ _ _ _ _ _ Hs) as (_ & Hsq & Hci & Hvi & Hgd).
  destruct guidance.
  - destruct (Hgd eq_refl) as (_ & (gp & Hgp & Hcip) & Hcov).
    apply norm_expr_inv in Hcov. destruct Hcov as (_ & -> & _).
    destruct (Hk _ _ Hcip) as (_ & -> & _).
    apply norm_expr_inv in Hgp. tauto.
  - unfold local_statistics in Hs. repeat bind_inv Hs. inversion Hs; subst st; clear Hs.
    cbn [cov_Ip var_I corr_I I_square mean_I] in *. inversion Hm5; subst v5.
    apply norm_expr_inv in Hvi. destruct Hvi as (_ & -> & _).
    destruct (Hk _ _ Hci) as (_ & -> & _).
    apply norm_expr_inv in Hsq. tauto.
Qed.

Lemma slope_props (aka use_gauss : bool) (mode : GuidedFilterMode)
  (planes : list nat) (r : seq_or Z) (eps : list T) (st : statistics T)
  (g a_out : VideoNode T) :
  slope aka use_gauss mode planes r eps st g = Ok a_out ->
  frame_props a_out = frame_props (cov_Ip st) /\ format a_out = format (cov_Ip st).
Proof.
  intros Ha. unfold slope in Ha. destruct mode.
  - apply norm_expr_inv in Ha. tauto.
  - bind_inv Ha. apply norm_expr_inv in Ha. tauto.
  - bind_inv Ha. bind_inv Ha. destruct aka.
    + apply norm_expr_inv in Ha. tauto.
    + unfold FrameEval, _gradient in Ha. bind_inv Ha. bind_inv Ha.
      apply norm_expr_inv in Ha. tauto.
Qed.

(** The steps of lines 144-150 in a successful run with [down_ratio = 0]. *)
Lemma guided_filter_q_inv (aka : bool) (clip : VideoNode T)
  (guidance : option (VideoNode T)) (radius : option Z) (thr : T)
  (regulation : option (list T)) (mode : GuidedFilterMode) (use_gauss : bool)
  (planes : PlanesT) (range_in : option ColorRange) (down_ratio : Z)
  (downscaler upscaler : Scaler) (q : VideoNode T) (bits : Z) :
  guided_filter_q aka clip guidance radius thr regulation mode use_gauss planes range_in
    down_ratio downscaler upscaler = Ok (q, bits) ->
  exists sol mean_a mean_b,
    solve aka clip guidance radius thr regulation mode use_gauss planes range_in down_ratio
      downscaler = Ok sol
    /\ sol_blur sol (coef_a sol) = Ok mean_a
    /\ sol_blur sol (coef_b sol) = Ok mean_b
    /\ norm_expr aka [mean_a; s_g (sol_setup sol); mean_b] expr_output
         (s_planes (sol_setup sol)) [] = Ok q
    /\ bits = s_bits (sol_setup sol).
Proof.
  intros Hq. unfold guided_filter_q in Hq.
  bind_inv Hq. rename v into sol. rename Hm into Hsol.
  bind_inv Hq. rename v into mean_a. rename Hm into Hma.
  bind_inv Hq. rename v into mean_b. rename Hm into Hmb.
  bind_inv Hq. inversion Hq; subst; clear Hq.
  exists sol, mean_a, mean_b.
  pose proof Hsol as Hinv. apply solve_inv in Hinv. destruct Hinv as (Hp & _).
  destruct (prepare_inv _ _ _ _ _ _ _ _ _ _ Hp) as (Hz & _ & _ & _ & _ & Hg).
  subst down_ratio. cbn [Z.eqb] in Hm. rewrite <- Hg in Hm. auto.
Qed.

(** X5: on a processed plane the output at working precision is
    [q = mean_a * I + mean_b] at every sample, where [mean_a] and [mean_b]
    are the blurs of the two coefficients and [I] is the guidance clip at 32
    bits (the input itself when it is filtered by itself). *)
Theorem output_is_affine_in_guidance (aka : bool) (clip : VideoNode T)
  (guidance : option (VideoNode T)) (radius : option Z) (thr : T)
  (regulation : option (list T)) (mode : GuidedFilterMode) (use_gauss : bool)
  (planes : PlanesT) (range_in : option ColorRange) (down_ratio : Z)
  (downscaler upscaler : Scaler) (q : VideoNode T) (bits : Z) :
  guided_filter_q aka clip guidance radius thr regulation mode use_gauss planes range_in
    down_ratio downscaler upscaler = Ok (q, bits) ->
  let I := match guidance with
           | Some gd => depth gd 32
           | None => fst (expect_bits clip 32)
           end in
  exists sol mean_a mean_b,
    solve aka clip guidance radius thr regulation mode use_gauss planes range_in down_ratio
      downscaler = Ok sol
    /\ sol_blur sol (coef_a sol) = Ok mean_a
    /\ sol_blur sol (coef_b sol) = Ok mean_b
    /\ forall i j ma gv mb,
         processed I (normalize_planes clip planes) i = true ->
         sample mean_a i j = Some ma -> sample I i j = Some gv ->
         sample mean_b i j = Some mb ->
         sample q i j = Some (f_add (f_mul ma gv) mb).
Proof.
  intros Hq I.
  destruct (guided_filter_q_inv _ _ _ _ _ _ _ _ _ _ _ _ _ _ _ Hq)
    as (sol & mean_a & mean_b & Hsol & Hma & Hmb & Hout & _).
  exists sol, mean_a, mean_b. repeat split; try assumption.
  apply solve_inv in Hsol. destruct Hsol as (Hp & Hb & Hst & Ha & _).
  destruct (prepare_inv _ _ _ _ _ _ _ _ _ _ Hp) as (_ & Hpl & _ & _ & Hgc & Hg).
  fold I in Hgc. rewrite Hg, Hgc in *. rewrite Hpl in *.
  pose proof (blur_filter_keeps_frame _ _ _ _ Hb) as Hk.
  destruct (local_statistics_props _ _ _ _ _ _ _ Hk Hst) as (_ & Fcov).
  destruct (slope_props _ _ _ _ _ _ _ _ _ Ha) as (_ & Fa).
  destruct (Hk _ _ Hma) as (Fma & _).
  intros i j ma gv mb Hi Hsa Hsg Hsb.
  assert (Hi' : processed mean_a (normalize_planes clip planes) i = true)
    by (rewrite <- Hi; apply processed_format; congruence).
  destruct (norm_expr_sample _ _ _ _ _ _ _ _ _ _ Hout Hi' Hsa)
    as (args & ts & v & Hargs & Hts & Hv & Hr).
  rewrite plane_args_nil in Hargs. inversion Hargs; subst args. format_eval Hts.
  unfold sample in Hsa, Hsg, Hsb. rpn_eval Hr. rewrite Hsa, Hsg, Hsb in Hr.
  rpn_eval Hr. inversion Hr; subst. assumption.
Qed.

(** X6: the frame properties and the format of the output at working
    precision are those of the guidance clip at 32 bits (of the input when it
    is filtered by itself): the statistics that [PlaneStats] attaches inside
    the filter never reach the output. *)
Theorem output_properties_are_the_guidance_properties (aka : bool) (clip : VideoNode T)
  (guidance : option (VideoNode T)) (radius : option Z) (thr : T)
  (regulation : option (list T)) (mode : GuidedFilterMode) (use_gauss : bool)
  (planes : PlanesT) (range_in : option ColorRange) (down_ratio : Z)
  (downscaler upscaler : Scaler) (q : VideoNode T) (bits : Z) :
  guided_filter_q aka clip guidance radius thr regulation mode use_gauss planes range_in
    down_ratio downscaler upscaler = Ok (q, bits) ->
  let I := match guidance with
           | Some gd => depth gd 32
           | None => fst (expect_bits clip 32)
           end in
  frame_props q = frame_props I /\ format q = format I
  /\ bits = bits_per_sample (format clip).
Proof.
  intros Hq I.
  destruct (guided_filter_q_inv _ _ _ _ _ _ _ _ _ _ _ _ _ _ _ Hq)
    as (sol & mean_a & mean_b & Hsol & Hma & Hmb & Hout & Hbits).
  apply solve_inv in Hsol. destruct Hsol as (Hp & Hb & Hst & Ha & _).
  destruct (prepare_inv _ _ _ _ _ _ _ _ _ _ Hp) as (_ & _ & _ & Hsb & Hgc & Hg).
  fold I in Hgc.
  pose proof (blur_filter_keeps_frame _ _ _ _ Hb) as Hk.
  destruct (local_statistics_props _ _ _ _ _ _ _ Hk Hst) as (Pcov & Fcov).
  destruct (slope_props _ _ _ _ _ _ _ _ _ Ha) as (Pa & Fa).
  destruct (Hk _ _ Hma) as (Fma & Pma & _).
  apply norm_expr_inv in Hout. destruct Hout as (Fq & Pq & _).
  split; [|split]; [congruence | congruence |].
  rewrite Hbits, Hsb. reflexivity.
Qed.

End Formulas.

(** ** Parameters: errors and defaults *)

Lemma chroma_dimension_le_self (w d : Z) :
  (1 <= d)%Z -> (0 <= w)%Z -> (inject_Z w / inject_Z d <= inject_Z w)%Q.
Proof. intros Hd Hw. apply chroma_dimension_le; [assumption | assumption | lia]. Qed.

Section Parameters.

Context {T : Type} `{Arith T} `{Collaborators T}.

Lemma normalize_seq_raises {A : Type} (val : seq_or A) (n : nat) (e : exn) :
  normalize_seq val n = Raise e -> e = IndexError.
Proof.
  unfold normalize_seq, py_last. destruct (rev (to_arr val)); cbn [bind]; intros Hn;
    now inversion Hn.
Qed.

Lemma default_regulation_total (clip : VideoNode T) (thr : T) (range_in : option ColorRange) :
  exists l, default_regulation clip thr range_in = Ok l.
Proof.
  unfold default_regulation. rewrite normalize_seq_One. cbn [bind].
  destruct (normalize_seq_total
              (if range_is_full range_in clip then Many [220; 225; 225]%Z else One 256%Z)
              (num_planes (format clip))) as (size & ->);
    [destruct (range_is_full range_in clip); discriminate|].
  cbn [bind]. eauto.
Qed.

Lemma format_eqb_refl (f : VideoFormat) : format_eqb f f = true.
Proof.
  unfold format_eqb. now rewrite Nat.eqb_refl, !N.eqb_refl, Z.eqb_refl.
Qed.

(** X7: a guidance clip whose format, width or height is not the input's
    makes the call raise at line 53, before anything is filtered, whatever
    the other arguments are. *)
Theorem mismatched_guidance_raises (aka : bool) (clip gd : VideoNode T)
  (radius : option Z) (thr : T) (regulation : option (list T)) (mode : GuidedFilterMode)
  (use_gauss : bool) (planes : PlanesT) (range_in : option ColorRange) (down_ratio : Z)
  (downscaler upscaler : Scaler) :
  format clip <> format gd \/ width clip <> width gd \/ height clip <> height gd ->
  guided_filter aka clip (Some gd) radius thr regulation mode use_gauss planes range_in
    down_ratio downscaler upscaler = Raise RefClipMismatchError.
Proof.
  intros Hne.
  assert (Hc : check_ref_clip clip (Some gd) = Raise RefClipMismatchError).
  { unfold check_ref_clip.
    destruct (format_eqb (format clip) (format gd)) eqn:Ef; [|reflexivity].
    apply format_eqb_eq in Ef.
    destruct (Z.eqb_spec (width clip) (width gd)) as [Ew|_]; [|reflexivity].
    destruct (Z.eqb_spec (height clip) (height gd)) as [Eh|_]; [|reflexivity].
    tauto. }
  unfold guided_filter, guided_filter_q, solve, prepare.
  assert (Hr : exists l, match regulation with
                         | Some l0 => Ok l0
                         | None => default_regulation clip thr range_in
                         end = Ok l)
    by (destruct regulation; [eauto | apply default_regulation_total]).
  destruct Hr as (l & ->). cbn [bind]. rewrite Hc. reflexivity.
Qed.

(** X8: an empty [regulation] list makes the call raise [IndexError]
    ([normalize_seq] reads its last element, lines 58-59) whenever the
    reference check passes, whatever the other arguments are. *)
Theorem empty_regulation_raises (aka : bool) (clip : VideoNode T)
  (guidance : option (VideoNode T)) (radius : option Z) (thr : T)
  (mode : GuidedFilterMode) (use_gauss : bool) (planes : PlanesT)
  (range_in : option ColorRange) (down_ratio : Z) (downscaler upscaler : Scaler) :
  check_ref_clip clip guidance = Ok tt ->
  guided_filter aka clip guidance radius thr (Some []) mode use_gauss planes range_in
    down_ratio downscaler upscaler = Raise IndexError.
Proof.
  intros Hc. unfold guided_filter, guided_filter_q, solve, prepare.
  cbn [bind]. rewrite Hc. cbn [bind]. destruct (expect_bits clip 32) as [p bits].
  destruct (normalize_seq _ (num_planes (format clip))) as [rs|e] eqn:Er.
  - reflexivity.
  - apply normalize_seq_raises in Er. now subst e.
Qed.

Lemma nth_error_sizes (n i : nat) (l : list Z) :
  normalize_seq (Many [220; 225; 225]%Z) n = Ok l -> (i < n)%nat ->
  nth_error l i = Some (if Nat.eqb i 0 then 220%Z else 225%Z).
Proof.
  unfold normalize_seq. cbn [to_arr py_last rev app bind List.length]. intros Hl Hi.
  inversion Hl; subst l; clear Hl.
  rewrite nth_error_firstn. destruct (Nat.ltb_spec i n) as [_|Hge]; [|lia].
  destruct i as [|[|[|i]]]; try reflexivity.
  cbn [nth_error app Nat.eqb]. apply nth_error_repeat_lt. lia.
Qed.

(** X9: without [regulation], the regulation of a plane is [thr / 256]
    for a limited-range clip, and for a full-range clip [thr / 220] on the
    first plane and [thr / 225] on the others. *)
Theorem default_regulation_per_plane (clip : VideoNode T)
  (guidance : option (VideoNode T)) (radius : option Z) (thr : T) (planes : PlanesT)
  (range_in : option ColorRange) (down_ratio : Z) (downscaler : Scaler) (s : setup T)
  (i : nat) :
  prepare clip guidance radius thr None planes range_in down_ratio downscaler = Ok s ->
  (i < num_planes (format clip))%nat ->
  nth_error (s_eps s) i
  = Some (f_div thr (f_int (if range_is_full range_in clip
                            then if Nat.eqb i 0 then 220 else 225
                            else 256)%Z)).
Proof.
  intros Hp Hi.
  assert (Heps : exists reg, default_regulation clip thr range_in = Ok reg
                             /\ normalize_seq (Many reg) (num_planes (format clip))
                                = Ok (s_eps s)).
  { unfold prepare in Hp. bind_inv Hp. rename v into reg. bind_inv Hp.
    destruct (expect_bits clip 32) as [p bits]. bind_inv Hp. bind_inv Hp.
    exists reg. split; [assumption|].
    destruct (Z.eqb down_ratio 0); [|bind_inv Hp]; inversion Hp; subst s; assumption. }
  destruct Heps as (reg & Hreg & Hn).
  unfold default_regulation in Hreg. rewrite normalize_seq_One in Hreg. cbn [bind] in Hreg.
  bind_inv Hreg. rename v into size. inversion Hreg; subst reg; clear Hreg.
  pose proof (normalize_seq_length _ _ _ Hm) as Hlen.
  assert (Hsize : nth_error size i
                  = Some (if range_is_full range_in clip
                          then if Nat.eqb i 0 then 220 else 225
                          else 256)%Z).
  { destruct (range_is_full range_in clip).
    - now apply (nth_error_sizes (num_planes (format clip))).
    - rewrite normalize_seq_One in Hm. inversion Hm; subst size.
      now apply nth_error_repeat_lt. }
  assert (Hreg : nth_error (map (fun ts => f_div (fst ts) (f_int (snd ts)))
                              (combine (repeat thr (num_planes (format clip))) size)) i
                 = Some (f_div thr (f_int (if range_is_full range_in clip
                                           then if Nat.eqb i 0 then 220 else 225
                                           else 256)%Z))).
  { rewrite nth_error_map.
    assert (Hc : nth_error (combine (repeat thr (num_planes (format clip))) size) i
                 = Some (thr, (if range_is_full range_in clip
                               then if Nat.eqb i 0 then 220 else 225
                               else 256)%Z)).
    { clear Hn Hm. revert Hsize.
      generalize (if range_is_full range_in clip
                  then if Nat.eqb i 0 then 220 else 225
                  else 256)%Z as z0.
      intros z0. revert size Hlen i Hi. generalize (num_planes (format clip)) as n.
      induction n as [|n IH]; intros size Hlen i Hi Hsize; [lia|].
      destruct size as [|z size]; [discriminate|]. cbn [repeat combine].
      destruct i as [|i]; cbn [nth_error] in *.
      - now inversion Hsize.
      - apply IH; [now inversion Hlen | lia | assumption]. }
    rewrite Hc. reflexivity. }
  destruct (nth_error (s_eps s) i) as [e|] eqn:Ee.
  - f_equal. eapply normalize_seq_nth_error; eassumption.
  - apply nth_error_None in Ee. rewrite (normalize_seq_length _ _ _ Hn) in Ee. lia.
Qed.

(** X10: without [radius], the radius of the first plane is
    [round(max((width-1280)/160+12, (height-720)/90+12))], the radius of
    every other plane is the same formula on the subsampled width and
    height (the third plane reuses the second entry of the list), and for
    non-negative dimensions it is at most the radius of the first plane. *)
Theorem default_radius_per_plane (clip : VideoNode T)
  (guidance : option (VideoNode T)) (thr : T) (regulation : option (list T))
  (planes : PlanesT) (range_in : option ColorRange) (down_ratio : Z)
  (downscaler : Scaler) (s : setup T) :
  prepare clip guidance None thr regulation planes range_in down_ratio downscaler = Ok s ->
  let rad := py_round (rad_formula (inject_Z (width clip)) (inject_Z (height clip))) in
  let radc := py_round (rad_formula
                (inject_Z (width clip)
                 / inject_Z (Z.shiftl 1 (Z.of_N (subsampling_w (format clip)))))
                (inject_Z (height clip)
                 / inject_Z (Z.shiftl 1 (Z.of_N (subsampling_h (format clip)))))) in
  (exists l, s_r s = Many l /\ List.length l = num_planes (format clip)
             /\ forall i, (i < num_planes (format clip))%nat ->
                  nth_error l i = Some (if Nat.eqb i 0 then rad else radc))
  /\ ((0 <= width clip)%Z -> (0 <= height clip)%Z -> (radc <= rad)%Z).
Proof.
  intros Hp rad radc. split.
  - destruct (prepare_r_is_list _ _ _ _ _ _ _ _ _ _ Hp) as (Hz & l & Hl & Hlen).
    exists l. split; [assumption|]. split; [assumption|].
    assert (Hn : normalize_seq (Many (firstn (num_planes (format clip)) [rad; radc]))
                   (num_planes (format clip)) = Ok l).
    { subst down_ratio. unfold prepare in Hp. bind_inv Hp. bind_inv Hp.
      destruct (expect_bits clip 32) as [p bits]. bind_inv Hp. bind_inv Hp.
      cbn [Z.eqb] in Hp. inversion Hp; subst s; clear Hp. cbn [s_r] in Hl.
      inversion Hl; subst l. exact Hm1. }
    intros i Hi. unfold normalize_seq in Hn. cbn [to_arr] in Hn. bind_inv Hn.
    inversion Hn; subst l; clear Hn.
    rewrite nth_error_firstn. destruct (Nat.ltb_spec i (num_planes (format clip))) as [_|Hge];
      [|lia].
    destruct (num_planes (format clip)) as [|[|n]]; [lia| |].
    + assert (i = 0%nat) by lia. subst i. reflexivity.
    + cbn [firstn] in Hm |- *. rewrite firstn_nil in Hm |- *.
      change (py_last [rad; radc]) with (Ok radc) in Hm.
      inversion Hm; subst v. destruct i as [|[|i]]; try reflexivity.
      cbn [nth_error app List.length Nat.eqb]. apply nth_error_repeat_lt. simpl. lia.
  - intros Hw Hh. apply py_round_le, rad_formula_le.
    + apply (chroma_dimension_le_self (width clip)); [apply shiftl_1_pos | assumption].
    + apply (chroma_dimension_le_self (height clip)); [apply shiftl_1_pos | assumption].
Qed.

End Parameters.

(** X11: when the width is at least 1280 or the height at least 720, the
    default radius of the first plane is at least 12. *)
Theorem default_radius_at_least_12 (width height : Z) (ssw ssh : N) (n : nat) :
  (1280 <= width)%Z \/ (720 <= height)%Z ->
  exists r, nth_error (to_arr (default_radius width height ssw ssh (S n))) 0 = Some r
            /\ (12 <= r)%Z.
Proof.
  intros Hd. eexists. split; [reflexivity|].
  rewrite <- (py_round_Z 12). apply py_round_le. unfold rad_formula.
  apply py_max_ge. destruct Hd as [Hw|Hh]; [left | right].
  - apply Qle_trans with ((inject_Z 1280 - 1280) / 160 + 12)%Q; [now vm_compute|].
    apply rad_term_le; [reflexivity | now rewrite <- Zle_Qle].
  - apply Qle_trans with ((inject_Z 720 - 720) / 90 + 12)%Q; [now vm_compute|].
    apply rad_term_le; [reflexivity | now rewrite <- Zle_Qle].
Qed.

(** ** A flat clip in every mode *)

(** Side conditions of [norm_expr_flat]: everything but the sample
    arithmetic is computed. *)
Ltac flat_eval :=
  cbv -[f_lit f_add f_sub f_mul f_div f_sqrt f_exp f_int plane_average plane_minimum
        uniform_plane flat];
  reflexivity.

Section FlatAnyMode.

Context {T : Type} `{Arith T} `{Collaborators T}.

Lemma expr_plane_flat (aka : bool) (w h : Z) (v0 : T) (vs : list T) (fps : list (props T))
  (ts : list (token T)) (v : T) :
  rpn aka (nth_error (v0 :: vs)) (prop_at fps) ts [] = Ok v ->
  expr_plane aka ts (map (uniform_plane w h) (v0 :: vs)) fps = Ok (uniform_plane w h v).
Proof.
  intros Hr. unfold expr_plane. cbn [map uniform_plane px pw ph].
  rewrite repeat_length. rewrite (mapM_total _ (fun _ => v)).
  - cbn [bind]. rewrite map_const_seq. reflexivity.
  - intros j Hj. apply in_seq in Hj. rewrite <- Hr. apply rpn_ext; [|reflexivity].
    intros i. unfold sample_at.
    change ({| pw := w; ph := h; px := repeat v0 (Z.to_nat (w * h)) |})
      with (uniform_plane w h v0).
    rewrite <- (map_cons (uniform_plane w h) v0 vs), nth_error_map.
    destruct (nth_error (v0 :: vs) i) as [u|]; [|reflexivity].
    simpl. apply nth_error_repeat_lt. lia.
Qed.

(** An expression on flat clips gives a flat clip with the properties of
    the first clip; its value is the value of the expression on the values
    and the properties of the clips. *)
Lemma norm_expr_flat (aka : bool) (bits w h : Z) (clips : list (VideoNode T))
  (fv0 : props T * T) (fvs : list (props T * T)) (e : list (token T)) (planes : list nat)
  (kwargs : list (string * seq_or T)) (args : list (string * T)) (ts : list (token T))
  (v : T) :
  clips = map (fun fv => flat (fst fv) bits w h (snd fv)) (fv0 :: fvs) ->
  mem 0 planes = true ->
  plane_args kwargs 0 = Ok args -> format_expr e args = Ok ts ->
  rpn aka (nth_error (map snd (fv0 :: fvs))) (prop_at (map fst (fv0 :: fvs))) ts [] = Ok v ->
  norm_expr aka clips e planes kwargs = Ok (flat (fst fv0) bits w h v).
Proof.
  intros -> Hm Ha Hts Hr. unfold plane_args in Ha.
  apply bind_Ok in Ha. destruct Ha as (sa & Hm0 & Ha).
  cbn [map norm_expr]. unfold norm_expr_planes. rewrite Hm0. cbn [bind].
  change (num_planes (format (flat (fst fv0) bits w h (snd fv0)))) with 1%nat.
  cbn [seq mapM]. rewrite mem_normalize_planes. unfold processed. rewrite Hm.
  change (num_planes (format (flat (fst fv0) bits w h (snd fv0)))) with 1%nat.
  cbn [andb Nat.ltb Nat.leb]. rewrite Ha. cbn [bind]. rewrite Hts. cbn [bind].
  unfold Expr.
  change (data (flat (fst fv0) bits w h (snd fv0))) with [uniform_plane w h (snd fv0)].
  cbn [List.length seq mapM nth].
  assert (Hps : map (fun c => get_plane c 0)
                  (flat (fst fv0) bits w h (snd fv0)
                   :: map (fun fv => flat (fst fv) bits w h (snd fv)) fvs)
                = map (uniform_plane w h) (map snd (fv0 :: fvs))).
  { change (flat (fst fv0) bits w h (snd fv0)
            :: map (fun fv => flat (fst fv) bits w h (snd fv)) fvs)
      with (map (fun fv => flat (fst fv) bits w h (snd fv)) (fv0 :: fvs)).
    rewrite !map_map. apply map_ext. reflexivity. }
  assert (Hfs : map (@frame_props T)
                  (flat (fst fv0) bits w h (snd fv0)
                   :: map (fun fv => flat (fst fv) bits w h (snd fv)) fvs)
                = map fst (fv0 :: fvs)).
  { change (flat (fst fv0) bits w h (snd fv0)
            :: map (fun fv => flat (fst fv) bits w h (snd fv)) fvs)
      with (map (fun fv => flat (fst fv) bits w h (snd fv)) (fv0 :: fvs)).
    rewrite map_map. apply map_ext. reflexivity. }
  rewrite Hps, Hfs.
  change (map snd (fv0 :: fvs)) with (snd fv0 :: map snd fvs) in Hr |- *.
  rewrite (expr_plane_flat aka w h (snd fv0) (map snd fvs) _ ts v Hr). reflexivity.
Qed.

Section FlatSelf.

Variables (w h : Z).

(** The blurs keep a constant plane as it is. *)
Hypothesis box_constant :
  forall r u, box_blur_plane r (uniform_plane w h u) = uniform_plane w h u.
Hypothesis gauss_constant :
  forall sg u, gauss_blur_plane sg (uniform_plane w h u) = uniform_plane w h u.

Local Abbreviation F := (flat no_props 32 w h).

Lemma box_blur_flat (radius : seq_or Z) (fp : props T) (v : T) :
  to_arr radius <> [] ->
  box_blur radius [0%nat] (flat fp 32 w h v) = Ok (flat fp 32 w h v).
Proof.
  intros Hr. unfold box_blur.
  destruct (normalize_seq_total radius 1 Hr) as (rs & Hrs).
  change (num_planes (format (flat fp 32 w h v))) with 1%nat. rewrite Hrs. cbn [bind].
  unfold on_planes, flat. cbn [data format frame_props List.length seq combine map fst snd mem
                                existsb Nat.eqb orb].
  now rewrite box_constant.
Qed.

Lemma gauss_blur_flat (sigma : seq_or T) (fp : props T) (v : T) :
  to_arr sigma <> [] ->
  gauss_blur sigma [0%nat] (flat fp 32 w h v) = Ok (flat fp 32 w h v).
Proof.
  intros Hr. unfold gauss_blur.
  destruct (normalize_seq_total sigma 1 Hr) as (rs & Hrs).
  change (num_planes (format (flat fp 32 w h v))) with 1%nat. rewrite Hrs. cbn [bind].
  unfold on_planes, flat. cbn [data format frame_props List.length seq combine map fst snd mem
                                existsb Nat.eqb orb].
  now rewrite gauss_constant.
Qed.

Lemma blur_filter_flat (use_gauss : bool) (r : Z) :
  exists blur, blur_filter use_gauss (Many [r]) [0%nat] = Ok blur
               /\ forall fp v, blur (flat fp 32 w h v) = Ok (flat fp 32 w h v).
Proof.
  unfold blur_filter. cbn [py_iter bind map].
  destruct use_gauss; eexists; (split; [reflexivity|]); intros fp v.
  - apply gauss_blur_flat. discriminate.
  - apply box_blur_flat. discriminate.
Qed.

Lemma blur_filter_corr_flat (use_gauss : bool) (fp : props T) (v : T) :
  blur_filter_corr use_gauss [0%nat] (flat fp 32 w h v) = Ok (flat fp 32 w h v).
Proof.
  unfold blur_filter_corr. destruct use_gauss.
  - apply gauss_blur_flat. discriminate.
  - apply box_blur_flat. discriminate.
Qed.

Lemma local_statistics_flat (aka : bool) (blur : VideoNode T -> result (VideoNode T))
  (c : T) :
  (forall fp v, blur (flat fp 32 w h v) = Ok (flat fp 32 w h v)) ->
  let var := f_sub (f_mul c c) (f_mul c c) in
  local_statistics aka blur false (F c) (F c) [0%nat]
  = Ok {| mean_p := F c; mean_I := F c; I_square := F (f_mul c c);
          corr_I := F (f_mul c c); corr_Ip := F (f_mul c c); var_I := F var;
          cov_Ip := F var |}.
Proof.
  intros Hblur var. unfold local_statistics. rewrite Hblur. cbn [bind].
  rewrite (norm_expr_flat aka 32 w h [F c] (no_props, c) [] expr_square [0%nat] [] []
             expr_square (f_mul c c)) by reflexivity.
  cbn [bind fst]. rewrite Hblur. cbn [bind].
  rewrite (norm_expr_flat aka 32 w h [F (f_mul c c); F c] (no_props, f_mul c c)
             [(no_props, c)] expr_variance [0%nat] [] [] expr_variance var) by reflexivity.
  reflexivity.
Qed.

Lemma weights_flat (aka use_gauss : bool) (mode : GuidedFilterMode) (r : Z) (c : T)
  (st : statistics T) :
  let var := f_sub (f_mul c c) (f_mul c c) in
  let W := match mode with
           | WEIGHTED => var
           | _ => f_sqrt (f_mul var var)
           end in
  let den := f_div (f_lit 1) (f_add W (f_lit (1 # 1000000))) in
  let wt := f_mul (f_add W (f_lit (1 # 1000000)))
                  (plane_average (uniform_plane w h den)) in
  I_square st = F (f_mul c c) -> var_I st = F var ->
  weights aka use_gauss mode [0%nat] (Many [r]) st (F c)
  = Ok {| var_I_1 := F var; weight_in := F W;
          denominator := flat (flat_stats w h den) 32 w h den; weight := F wt |}.
Proof.
  intros var W den wt Hsq Hv. unfold weights, corrective_variance.
  rewrite py_eq_list_int, Hsq, Hv, !blur_filter_corr_flat. cbn [bind].
  rewrite (norm_expr_flat aka 32 w h [F (f_mul c c); F c] (no_props, f_mul c c)
             [(no_props, c)] expr_variance [0%nat] [] [] expr_variance var) by reflexivity.
  cbn [bind fst].
  assert (Hin : match mode with
                | WEIGHTED => Ok (F var)
                | _ => norm_expr aka [F var; F var] expr_weight_in [0%nat] []
                end = Ok (F W)).
  { destruct mode; try reflexivity;
      apply (norm_expr_flat aka 32 w h [F var; F var] (no_props, var) [(no_props, var)]
               expr_weight_in [0%nat] [] [] expr_weight_in); reflexivity. }
  rewrite Hin. cbn [bind].
  rewrite (norm_expr_flat aka 32 w h [F W] (no_props, W) [] expr_denominator [0%nat]
             [("eps"%string, One (f_lit (1 # 1000000)))]
             [("eps"%string, f_lit (1 # 1000000))]
             [Lit 1; x_; Val (f_lit (1 # 1000000)); Add; Div] den) by reflexivity.
  cbn [bind fst].
  change (PlaneStats (F den) 0) with (Ok (flat (flat_stats w h den) 32 w h den)).
  cbn [bind].
  destruct aka.
  - rewrite (norm_expr_flat true 32 w h [F W; flat (flat_stats w h den) 32 w h den]
               (no_props, W) [(flat_stats w h den, den)] expr_weight_aka [0%nat] [] []
               expr_weight_aka wt) by reflexivity.
    reflexivity.
  - rewrite (FrameEval_weight [0%nat] (F W) (flat (flat_stats w h den) 32 w h den)
               (plane_average (uniform_plane w h den))) by reflexivity.
    rewrite (norm_expr_flat false 32 w h [F W] (no_props, W) []
               (expr_weight_eval (plane_average (uniform_plane w h den))) [0%nat] [] []
               (expr_weight_eval (plane_average (uniform_plane w h den))) wt)
      by reflexivity.
    reflexivity.
Qed.

Lemma slope_flat (aka use_gauss : bool) (mode : GuidedFilterMode) (r : Z) (c eps : T)
  (st : statistics T) :
  let var := f_sub (f_mul c c) (f_mul c c) in
  I_square st = F (f_mul c c) -> var_I st = F var -> cov_Ip st = F var ->
  slope aka use_gauss mode [0%nat] (Many [r]) [eps] st (F c)
  = Ok (F (flat_slope aka mode (fun u => plane_average (uniform_plane w h u))
             (fun u => plane_minimum (uniform_plane w h u)) c eps)).
Proof.
  intros var Hsq Hv Hcov. unfold slope. destruct mode.
  - rewrite Hcov, Hv.
    apply (norm_expr_flat aka 32 w h [F var; F var] (no_props, var) [(no_props, var)]
             expr_a_original [0%nat] [("eps"%string, Many [eps])] [("eps"%string, eps)]
             [x_; y_; Val eps; Add; Div]); flat_eval.
  - rewrite (weights_flat aka use_gauss WEIGHTED r c st Hsq Hv). cbn [bind weight].
    rewrite Hcov, Hv.
    match goal with
    | |- norm_expr aka [_; _; F ?wt] _ _ _ = _ =>
        apply (norm_expr_flat aka 32 w h [F var; F var; F wt] (no_props, var)
                 [(no_props, var); (no_props, wt)] expr_a_weighted [0%nat]
                 [("eps"%string, Many [eps])] [("eps"%string, eps)]
                 [x_; y_; Val eps; z_; Div; Add; Div]); flat_eval
    end.
  - rewrite (weights_flat aka use_gauss GRADIENT r c st Hsq Hv).
    cbn [bind weight weight_in]. rewrite Hcov, Hv. subst var.
    set (var := f_sub (f_mul c c) (f_mul c c)).
    set (W := f_sqrt (f_mul var var)).
    change (PlaneStats (F W) 0) with (Ok (flat (flat_stats w h W) 32 w h W)).
    cbn [bind].
    destruct aka.
    + match goal with
      | |- norm_expr true [_; _; F ?wt; _] _ _ _ = _ =>
          apply (norm_expr_flat true 32 w h
                   [F var; flat (flat_stats w h W) 32 w h W; F wt; F var] (no_props, var)
                   [(flat_stats w h W, W); (no_props, wt); (no_props, var)]
                   expr_a_gradient_aka [0%nat] [("eps"%string, Many [eps])]
                   [("eps"%string, eps)]
                   [x_; Val eps; Lit 1; Lit 1; Lit 1; Lit (-4);
                    FrameProp 1 PlaneStatsMin; FrameProp 1 PlaneStatsAverage;
                    Lit (1 # 1000000); Sub; Sub; Div;
                    y_; FrameProp 1 PlaneStatsAverage; Sub; Mul; Exp; Add; Div; Sub; Mul;
                    z_; Div; Add; a_; Val eps; z_; Div; Add; Div]); flat_eval
      end.
    + unfold FrameEval, _gradient.
      cbn [frame_props flat flat_stats frame_prop get_prop stats_average stats_min bind].
      match goal with
      | |- norm_expr false [_; _; F ?wt; _] _ _ [_; (_, One ?k); (_, One ?al)] = _ =>
          apply (norm_expr_flat false 32 w h
                   [F var; flat (flat_stats w h W) 32 w h W; F wt; F var] (no_props, var)
                   [(flat_stats w h W, W); (no_props, wt); (no_props, var)]
                   expr_a_gradient [0%nat]
                   [("eps"%string, Many [eps]); ("kk"%string, One k);
                    ("alpha"%string, One al)]
                   [("eps"%string, eps); ("kk"%string, k); ("alpha"%string, al)]
                   [x_; Val eps; Lit 1; Lit 1; Lit 1; Val k;
                    y_; Val al; Sub; Mul; Exp; Add; Div; Sub; Mul;
                    z_; Div; Add; a_; Val eps; z_; Div; Add; Div]); flat_eval
      end.
Qed.

(** Lines 27-142 on a flat 32-bit clip filtered by itself. *)
Lemma solve_flat (aka : bool) (c : T) (r : Z) (thr eps : T)
  (mode : GuidedFilterMode) (use_gauss : bool) (range_in : option ColorRange)
  (downscaler : Scaler) :
  let a := flat_slope aka mode (fun u => plane_average (uniform_plane w h u))
             (fun u => plane_minimum (uniform_plane w h u)) c eps in
  exists sol,
    solve aka (F c) None (Some r) thr (Some [eps]) mode use_gauss None range_in 0 downscaler
    = Ok sol
    /\ s_planes (sol_setup sol) = [0%nat] /\ s_guidance_clip (sol_setup sol) = F c
    /\ s_bits (sol_setup sol) = 32%Z
    /\ (forall fp v, sol_blur sol (flat fp 32 w h v) = Ok (flat fp 32 w h v))
    /\ coef_a sol = F a /\ coef_b sol = F (f_sub c (f_mul a c)).
Proof.
  intros a. unfold solve.
  change (prepare (F c) None (Some r) thr (Some [eps]) None range_in 0 downscaler)
    with (Ok {| s_planes := [0%nat]; s_width := w; s_height := h; s_bits := 32;
                s_guidance_clip := F c; s_p := F c; s_g := F c; s_r := Many [r];
                s_eps := [eps] |}).
  cbn [bind s_r s_planes s_p s_g s_eps is_not_None].
  destruct (blur_filter_flat use_gauss r) as (blur & -> & Hblur). cbn [bind].
  rewrite (local_statistics_flat aka blur c Hblur). cbn [bind].
  match goal with
  | |- context [slope _ _ _ _ _ _ ?st _] =>
      rewrite (slope_flat aka use_gauss mode r c eps st eq_refl eq_refl eq_refl)
  end.
  fold a. cbn [bind mean_p mean_I].
  rewrite (norm_expr_flat aka 32 w h [F c; F a; F c] (no_props, c)
             [(no_props, a); (no_props, c)] expr_b [0%nat] [] [] expr_b
             (f_sub c (f_mul a c))) by reflexivity.
  cbn [bind fst]. eexists. split; [reflexivity|].
  cbn [sol_setup sol_blur coef_a coef_b s_planes s_guidance_clip s_bits]. auto 10.
Qed.

(** The whole function on a flat 32-bit clip filtered by itself. *)
Lemma guided_filter_q_flat (aka : bool) (c : T) (r : Z) (thr eps : T)
  (mode : GuidedFilterMode) (use_gauss : bool) (range_in : option ColorRange)
  (downscaler upscaler : Scaler) :
  let a := flat_slope aka mode (fun u => plane_average (uniform_plane w h u))
             (fun u => plane_minimum (uniform_plane w h u)) c eps in
  guided_filter_q aka (F c) None (Some r) thr (Some [eps]) mode use_gauss None range_in 0
    downscaler upscaler
  = Ok (F (f_add (f_mul a c) (f_sub c (f_mul a c))), 32%Z).
Proof.
  intros a.
  destruct (solve_flat aka c r thr eps mode use_gauss range_in downscaler)
    as (sol & Hsol & Hpl & Hgc & Hbits & Hblur & Ha & Hb).
  fold a in Ha, Hb. unfold guided_filter_q. rewrite Hsol. cbn [bind].
  rewrite Ha, Hb, !Hblur. cbn [bind Z.eqb]. rewrite Hpl, Hgc, Hbits.
  rewrite (norm_expr_flat aka 32 w h [F a; F c; F (f_sub c (f_mul a c))] (no_props, a)
             [(no_props, c); (no_props, f_sub c (f_mul a c))] expr_output [0%nat] [] []
             expr_output (f_add (f_mul a c) (f_sub c (f_mul a c)))) by reflexivity.
  reflexivity.
Qed.

End FlatSelf.

End FlatAnyMode.

(** ** Runs of the further properties in binary32 *)

Module Runs.

Import Binary32 Example Inputs.

(** The reference collaborators keep the layout and the geometry. *)
Lemma binary32_layout_kept : layout_kept (T := float32).
Proof.
  split; [|split].
  - intros c bits. split; [reflexivity|].
    unfold layout. cbn [depth collaborators convert data]. rewrite map_map.
    apply map_ext. intros p. cbn [px]. apply length_map.
  - intros r p. cbn [box_blur_plane collaborators]. unfold box_mean_plane.
    destruct (Z.leb r 0); [reflexivity|]. cbn [px]. now rewrite length_map, length_seq.
  - intros sg p. cbn [gauss_blur_plane collaborators]. unfold gauss_mean_plane.
    cbn [px]. now rewrite length_map, length_seq.
Qed.


Lemma binary32_geometry_kept : geometry_kept (T := float32).
Proof.
  split; [|split].
  - intros c bits. split; [reflexivity|].
    unfold dimensions. cbn [depth collaborators convert data]. rewrite map_map.
    apply map_ext. reflexivity.
  - intros r p. cbn [box_blur_plane collaborators]. unfold box_mean_plane.
    destruct (Z.leb r 0); split; reflexivity.
  - intros sg p. split; reflexivity.
Qed.

(** X2, witness: the three-plane clip guided by the other clip. *)
Lemma output_geometry_witness :
  exists out,
    guided_filter true colour (Some other) (Some 2%Z) thr None WEIGHTED false None None 0
      Point Bilinear = Ok out
    /\ format out = format colour
    /\ dimensions out = dimensions other.
Proof.
  assert (Ho : observe (guided_filter true colour (Some other) (Some 2%Z) thr None WEIGHTED
                          false None None 0 Point Bilinear) (fun _ => tt) = Some tt)
    by (vm_compute; reflexivity).
  apply observe_Some in Ho. destruct Ho as (out & E & _).
  exists out. split; [exact E|].
  exact (proj2 (output_geometry binary32_geometry_kept true colour (Some other) (Some 2%Z)
                  thr None WEIGHTED false None None 0 Point Bilinear out E)).
Defined.

(** X12, witness: the two-sample clip at radius 1. *)
Lemma corrective_pass_recomputes_var_I_witness :
  exists sol,
    solve true near_flat None (Some 1%Z) thr None WEIGHTED false None None 0 Point = Ok sol
    /\ corrective_variance true false (s_planes (sol_setup sol)) (s_r (sol_setup sol))
         (sol_stats sol) (s_g (sol_setup sol)) = Ok (var_I (sol_stats sol)).
Proof.
  assert (Ho : observe (solve true near_flat None (Some 1%Z) thr None WEIGHTED false None
                          None 0 Point) (fun _ => tt) = Some tt)
    by (vm_compute; reflexivity).
  apply observe_Some in Ho. destruct Ho as (sol & E & _).
  exists sol. split; [exact E|].
  exact (corrective_pass_recomputes_var_I true near_flat None thr None WEIGHTED false None
           None 0 Point sol E).
Defined.

Lemma is_not_None_Some {A : Type} (o : option A) :
  is_not_None o = true -> exists v, o = Some v.
Proof. destruct o as [v|]; [eauto | discriminate]. Qed.

(** X3, witness: the three-plane clip guided by the other clip. *)
Lemma local_statistics_formulas_witness :
  exists sol,
    solve true colour (Some other) (Some 2%Z) thr None ORIGINAL false None None 0 Point
    = Ok sol
    /\ sol_blur sol (s_p (sol_setup sol)) = Ok (mean_p (sol_stats sol))
    /\ sol_blur sol (s_g (sol_setup sol)) = Ok (mean_I (sol_stats sol))
    /\ forall i j ci mi,
         processed (s_g (sol_setup sol)) (s_planes (sol_setup sol)) i = true ->
         sample (corr_I (sol_stats sol)) i j = Some ci ->
         sample (mean_I (sol_stats sol)) i j = Some mi ->
         sample (var_I (sol_stats sol)) i j = Some (f_sub ci (f_mul mi mi)).
Proof.
  assert (Ho : observe (solve true colour (Some other) (Some 2%Z) thr None ORIGINAL false
                          None None 0 Point) (fun _ => tt) = Some tt)
    by (vm_compute; reflexivity).
  apply observe_Some in Ho. destruct Ho as (sol & E & _).
  exists sol. split; [exact E|].
  destruct (local_statistics_formulas true colour (Some other) (Some 2%Z) thr None ORIGINAL
              false None None 0 Point sol E) as (Hmp & _ & Hv & Hg).
  split; [exact Hmp|]. split; [exact (proj1 (Hg ltac:(discriminate)))|].
  intros i j ci mi Hi. exact (proj2 (Hv i j Hi) ci mi).
Defined.

(** X4, witness: the first sample of the second plane of the three-plane
    clip. *)
Lemma original_slope_witness :
  exists sol xv yv eps,
    solve false colour None (Some 2%Z) thr None ORIGINAL false None None 0 Point = Ok sol
    /\ processed (s_g (sol_setup sol)) (s_planes (sol_setup sol)) 1 = true
    /\ sample (cov_Ip (sol_stats sol)) 1 0 = Some xv
    /\ sample (var_I (sol_stats sol)) 1 0 = Some yv
    /\ nth_error (s_eps (sol_setup sol)) 1 = Some eps
    /\ sample (coef_a sol) 1 0 = Some (f_div xv (f_add yv eps)).
Proof.
  assert (Ho : observe (solve false colour None (Some 2%Z) thr None ORIGINAL false None None
                          0 Point)
                 (fun sol =>
                    (processed (s_g (sol_setup sol)) (s_planes (sol_setup sol)) 1,
                     is_not_None (sample (cov_Ip (sol_stats sol)) 1 0),
                     is_not_None (sample (var_I (sol_stats sol)) 1 0),
                     is_not_None (nth_error (s_eps (sol_setup sol)) 1)))
               = Some (true, true, true, true)) by (vm_compute; reflexivity).
  apply observe_Some in Ho. destruct Ho as (sol & E & Ho).
  injection Ho as Hp Hx Hy He.
  apply is_not_None_Some in Hx, Hy, He.
  destruct Hx as (xv & Hx). destruct Hy as (yv & Hy). destruct He as (eps & He).
  exists sol, xv, yv, eps. split; [exact E|]. split; [exact Hp|]. split; [exact Hx|].
  split; [exact Hy|]. split; [exact He|].
  exact (original_slope false colour None (Some 2%Z) thr None false None None 0 Point sol E
           1%nat 0%nat xv yv eps Hp Hx Hy He).
Defined.

(** X5, witness: the three-plane clip guided by the other clip, first and
    third planes selected. *)
Lemma output_is_affine_in_guidance_witness :
  exists q bits sol mean_a mean_b,
    guided_filter_q true colour (Some other) (Some 2%Z) thr None WEIGHTED false
      (Some (Many [0; 2]%nat)) None 0 Point Bilinear = Ok (q, bits)
    /\ solve true colour (Some other) (Some 2%Z) thr None WEIGHTED false
         (Some (Many [0; 2]%nat)) None 0 Point = Ok sol
    /\ sol_blur sol (coef_a sol) = Ok mean_a
    /\ sol_blur sol (coef_b sol) = Ok mean_b
    /\ processed (depth other 32) (normalize_planes colour (Some (Many [0; 2]%nat))) 2 = true
    /\ forall j ma gv mb,
         sample mean_a 2 j = Some ma -> sample (depth other 32) 2 j = Some gv ->
         sample mean_b 2 j = Some mb ->
         sample q 2 j = Some (f_add (f_mul ma gv) mb).
Proof.
  assert (Ho : observe (guided_filter_q true colour (Some other) (Some 2%Z) thr None
                          WEIGHTED false (Some (Many [0; 2]%nat)) None 0 Point Bilinear)
                 (fun _ => tt) = Some tt) by (vm_compute; reflexivity).
  apply observe_Some in Ho. destruct Ho as ([q bits] & E & _).
  destruct (output_is_affine_in_guidance true colour (Some other) (Some 2%Z) thr None
              WEIGHTED false (Some (Many [0; 2]%nat)) None 0 Point Bilinear q bits E)
    as (sol & mean_a & mean_b & Hsol & Hma & Hmb & Hq).
  assert (Hp : processed (depth other 32) (normalize_planes colour (Some (Many [0; 2]%nat))) 2
               = true) by (vm_compute; reflexivity).
  exists q, bits, sol, mean_a, mean_b. split; [exact E|]. split; [exact Hsol|].
  split; [exact Hma|]. split; [exact Hmb|]. split; [exact Hp|].
  intros j ma gv mb. exact (Hq 2%nat j ma gv mb Hp).
Defined.

(** X6, witness: the three-plane clip guided by the other clip, GRADIENT
    mode by the Python callback. *)
Lemma output_properties_are_the_guidance_properties_witness :
  exists q bits,
    guided_filter_q false colour (Some other) (Some 2%Z) thr None GRADIENT false
      None None 0 Point Bilinear = Ok (q, bits)
    /\ frame_props q = frame_props (depth other 32)
    /\ format q = format (depth other 32)
    /\ bits = 8%Z.
Proof.
  assert (Ho : observe (guided_filter_q false colour (Some other) (Some 2%Z) thr None
                          GRADIENT false None None 0 Point Bilinear)
                 (fun _ => tt) = Some tt) by (vm_compute; reflexivity).
  apply observe_Some in Ho. destruct Ho as ([q bits] & E & _).
  exists q, bits. split; [exact E|].
  exact (output_properties_are_the_guidance_properties false colour (Some other) (Some 2%Z)
           thr None GRADIENT false None None 0 Point Bilinear q bits E).
Defined.

(** X7, witness: a guidance clip one sample wide for an input two samples
    wide. *)
Lemma mismatched_guidance_raises_witness :
  width near_flat <> width upright
  /\ guided_filter true near_flat (Some upright) (Some 2%Z) thr None GRADIENT false None
       None 0 Point Bilinear = Raise RefClipMismatchError.
Proof.
  assert (Hw : width near_flat <> width upright) by (vm_compute; discriminate).
  split; [exact Hw|].
  exact (mismatched_guidance_raises true near_flat upright (Some 2%Z) thr None GRADIENT false
           None None 0 Point Bilinear (or_intror (or_introl Hw))).
Defined.

(** X8, witness: the two-sample clip with [regulation = []]. *)
Lemma empty_regulation_raises_witness :
  check_ref_clip near_flat None = Ok tt
  /\ guided_filter true near_flat None (Some 2%Z) thr (Some []) ORIGINAL false None None 0
       Point Bilinear = Raise IndexError.
Proof.
  split; [reflexivity|].
  exact (empty_regulation_raises true near_flat None (Some 2%Z) thr ORIGINAL false None None
           0 Point Bilinear eq_refl).
Defined.

(** X9, witness: the second plane of the three-plane clip, full range. *)
Lemma default_regulation_per_plane_witness :
  exists s,
    prepare colour None (Some 2%Z) thr None None (Some FULL) 0 Point = Ok s
    /\ (1 < num_planes (format colour))%nat
    /\ nth_error (s_eps s) 1 = Some (f_div thr (f_int 225)).
Proof.
  assert (Ho : observe (prepare colour None (Some 2%Z) thr None None (Some FULL) 0 Point)
                 (fun _ => tt) = Some tt) by (vm_compute; reflexivity).
  apply observe_Some in Ho. destruct Ho as (s & E & _).
  assert (Hi : (1 < num_planes (format colour))%nat) by (simpl; lia).
  exists s. split; [exact E|]. split; [exact Hi|].
  exact (default_regulation_per_plane colour None (Some 2%Z) thr None (Some FULL) 0 Point s
           1%nat E Hi).
Defined.

(** X10, witness: a 1920x1080 clip with 4:2:0 chroma gets the radii 16, 10
    and 10. *)
Lemma default_radius_per_plane_witness :
  exists s l,
    prepare hd420 None None thr None None None 0 Point = Ok s
    /\ s_r s = Many l
    /\ nth_error l 0 = Some 16%Z /\ nth_error l 1 = Some 10%Z /\ nth_error l 2 = Some 10%Z
    /\ (10 <= 16)%Z.
Proof.
  destruct (prepare_returns binary32_layout_kept hd420 None None thr None None None Point
              eq_refl ltac:(discriminate) eq_refl ltac:(discriminate))
    as (s & l0 & E & _).
  destruct (default_radius_per_plane hd420 None thr None None None 0 Point s E)
    as ((l & Hl & _ & Hnth) & Hle).
  exists s, l. split; [exact E|]. split; [exact Hl|].
  split; [exact (Hnth 0%nat ltac:(simpl; lia))|].
  split; [exact (Hnth 1%nat ltac:(simpl; lia))|].
  split; [exact (Hnth 2%nat ltac:(simpl; lia))|].
  exact (Hle ltac:(discriminate) ltac:(discriminate)).
Defined.

(** X11, witness: 1920x1080. *)
Lemma default_radius_at_least_12_witness :
  (1280 <= 1920)%Z
  /\ exists r, nth_error (to_arr (default_radius 1920 1080 1 1 3)) 0 = Some r
               /\ (12 <= r)%Z.
Proof.
  assert (Hw : (1280 <= 1920)%Z) by lia.
  split; [exact Hw|].
  exact (default_radius_at_least_12 1920 1080 1 1 2 (or_introl Hw)).
Defined.

End Runs.

(** ** Further properties in real arithmetic *)

Module Exact.

Import Real.

Local Open Scope R_scope.

Lemma Q2R_one : Q2R 1 = 1.
Proof. unfold Q2R. simpl. lra. Qed.

Lemma Q2R_millionth : Q2R (1 # 1000000) = / 1000000.
Proof. unfold Q2R. simpl. lra. Qed.

Lemma Q2R_int_minus_four : Q2R (inject_Z (-4)) = -4.
Proof. unfold Q2R. simpl. lra. Qed.

(** *** The statistics of a plane *)

Lemma minimum_le (v x : R) (l : list R) : In x (v :: l) -> fold_right Rmin v l <= x.
Proof.
  induction l as [|u l IH]; simpl.
  - intros [->|[]]. lra.
  - intros [->|[->|Hin]].
    + eapply Rle_trans; [apply Rmin_r|]. apply IH. now left.
    + apply Rmin_l.
    + eapply Rle_trans; [apply Rmin_r|]. apply IH. now right.
Qed.

Lemma sum_ge (m : R) (l : list R) :
  (forall x, In x l -> m <= x) -> INR (List.length l) * m <= fold_right Rplus 0 l.
Proof.
  induction l as [|u l IH]; intros Hm.
  - simpl. lra.
  - change (List.length (u :: l)) with (S (List.length l)). rewrite S_INR.
    cbn [fold_right].
    assert (m <= u) by (apply Hm; now left).
    assert (INR (List.length l) * m <= fold_right Rplus 0 l)
      by (apply IH; intros x Hx; apply Hm; now right).
    lra.
Qed.

(** The minimum of a plane is at most its average. *)
Lemma minimum_le_average (p : plane R) : px p <> [] -> minimum p <= average p.
Proof.
  unfold minimum, average. destruct (px p) as [|v l] eqn:Ep; [congruence|]. intros _.
  set (m := fold_right Rmin v l).
  assert (Hn : 0 < INR (List.length (v :: l))) by (apply lt_0_INR; simpl; lia).
  assert (Hs : INR (List.length (v :: l)) * m <= fold_right Rplus 0 (v :: l))
    by (apply sum_ge; intros x Hx; now apply minimum_le).
  apply Rmult_le_reg_l with (INR (List.length (v :: l))); [assumption|].
  unfold Rdiv. rewrite <- Rmult_assoc, Rinv_r_simpl_m by lra. assumption.
Qed.



End Exact.

Module ExactFlat.

Local Existing Instance Real.arith.

Local Open Scope R_scope.

Section AnyCollaborators.

Context {C : Collaborators R}.

Variables (w h : Z).

(** What the collaborators do with a constant plane: a blur keeps it, and
    its average and its minimum are the constant. *)
Hypothesis box_constant :
  forall r u, box_blur_plane r (uniform_plane w h u) = uniform_plane w h u.
Hypothesis gauss_constant :
  forall sg u, gauss_blur_plane sg (uniform_plane w h u) = uniform_plane w h u.
Hypothesis average_constant : forall u, plane_average (uniform_plane w h u) = u.
Hypothesis minimum_constant : forall u, plane_minimum (uniform_plane w h u) = u.

(** The slope on a flat clip. *)
Lemma flat_slope_exact (aka : bool) (mode : GuidedFilterMode) (c eps : R) :
  0 < eps ->
  flat_slope aka mode (fun u => plane_average (uniform_plane w h u))
    (fun u => plane_minimum (uniform_plane w h u)) c eps
  = match mode with
    | GRADIENT => 1 / 2
    | _ => 0
    end.
Proof.
  intros He. unfold flat_slope. cbn [f_div f_sub f_add f_mul f_sqrt f_lit Real.arith].
  replace (c * c - c * c) with 0 by ring.
  rewrite !average_constant, !minimum_constant.
  replace (0 * 0) with 0 by ring. rewrite sqrt_0.
  rewrite Exact.Q2R_one, Exact.Q2R_millionth.
  destruct mode.
  - unfold Rdiv. ring.
  - unfold Rdiv. ring.
  - unfold gradient_a, sharpening. cbn [f_div f_sub f_add f_mul f_exp f_lit Real.arith].
    rewrite Exact.Q2R_one.
    replace (0 - 0) with 0 by ring. rewrite Rmult_0_r, exp_0. field. lra.
Qed.


End AnyCollaborators.

(** *** The reference collaborators *)

Import Real.

Lemma sum_repeat (u : R) (n : nat) : fold_right Rplus 0 (repeat u n) = INR n * u.
Proof.
  induction n as [|n IH]; [simpl; lra|].
  cbn [repeat fold_right]. rewrite IH, S_INR. lra.
Qed.

Lemma average_uniform (w h : Z) (u : R) :
  (0 < w)%Z -> (0 < h)%Z -> average (uniform_plane w h u) = u.
Proof.
  intros Hw Hh. unfold average, uniform_plane. cbn [px].
  rewrite sum_repeat, repeat_length.
  assert (Hn : 0 < INR (Z.to_nat (w * h))) by (apply lt_0_INR; nia).
  field. lra.
Qed.

Lemma minimum_uniform (w h : Z) (u : R) :
  (0 < w)%Z -> (0 < h)%Z -> minimum (uniform_plane w h u) = u.
Proof.
  intros Hw Hh. unfold minimum, uniform_plane. cbn [px].
  destruct (Z.to_nat (w * h)) as [|n] eqn:En; [nia|].
  cbn [repeat]. clear En. induction n as [|n IH]; [reflexivity|].
  cbn [repeat fold_right]. rewrite IH. apply Rmin_left. lra.
Qed.

Lemma weighted_sum (wt : Z * Z -> R) (v acc : R) (l : list (Z * Z)) :
  fold_left Rplus (map (fun d => wt d * v) l) (acc * v)
  = fold_left Rplus (map wt l) acc * v.
Proof.
  revert acc; induction l as [|d l IH]; intros acc; [reflexivity|].
  cbn [map fold_left]. rewrite <- IH. f_equal. ring.
Qed.

Lemma weight_sum_pos (wt : Z * Z -> R) (acc : R) (l : list (Z * Z)) :
  (forall d, 0 < wt d) -> 0 <= acc -> l <> [] -> 0 < fold_left Rplus (map wt l) acc.
Proof.
  intros Hwt. revert acc; induction l as [|d l IH]; intros acc Hacc Hl; [congruence|].
  cbn [map fold_left]. pose proof (Hwt d) as Hd.
  destruct l as [|d' l]; [cbn [map fold_left]; lra|].
  apply IH; [lra | discriminate].
Qed.

Lemma gauss_mean_uniform (w h : Z) (sigma u : R) :
  (0 < w)%Z -> (0 < h)%Z ->
  gauss_mean_plane sigma (uniform_plane w h u) = uniform_plane w h u.
Proof.
  intros Hw Hh. apply plane_eq; [reflexivity | reflexivity |].
  cbn [gauss_mean_plane px]. unfold uniform_plane at 2 3. cbn [px].
  rewrite repeat_length.
  etransitivity; [|apply (map_const_seq _ 0)].
  apply map_ext. intros i. unfold window_mean, total.
  cbn [f_div f_mul f_add f_int f_lit arith].
  assert (H0 : Q2R (inject_Z 0) = 0) by (unfold Q2R; simpl; lra).
  rewrite H0.
  rewrite (map_ext _ (fun d => gauss_weight sigma d * u))
    by (intros d; now rewrite pixel_uniform).
  replace 0 with (0 * u) at 1 by ring. rewrite weighted_sum.
  assert (Hpos : 0 < fold_left Rplus (map (gauss_weight sigma) (window 2)) 0).
  { apply weight_sum_pos; [|lra|discriminate].
    intros d. unfold gauss_weight. cbn [f_exp arith]. apply exp_pos. }
  field. lra.
Qed.


End ExactFlat.
